(** * module-auth: token lifecycle and credential-verification core

    A shallow embedding of the authentication backend
    (packages/auth-backend/src): the JWT helpers (utils/jwt.js), the
    password helpers (utils/password.js), the mail helpers (utils/email.js),
    the user model (models/user.js), the in-memory adapter
    (models/adapters/memory.js), the request validation of the register
    route (utils/validation.js, controllers/authController.js) and the
    service itself (services/authService.js).

    JavaScript objects are finite maps from property names to values,
    exceptions are an explicit [Throw] completion that keeps the state
    reached so far (nothing is rolled back), and the external libraries
    (bcryptjs, jsonwebtoken) are parameters of the development. *)

From Stdlib Require Import ZArith String Ascii List Bool DecimalString.
From stdpp Require Import gmap strings list fin_maps.

Open Scope Z_scope.
Open Scope string_scope.

(** ** JavaScript values and objects *)

Inductive value : Type :=
| VUndefined
| VNull
| VBool (b : bool)
| VNum (n : Z)
| VStr (s : string)
| VDate (t : Z)
| VArr (l : list string).

#[global] Instance value_eq_dec : EqDecision value.
Proof. solve_decision. Defined.

(** An object is a finite map of its own properties. *)
Abbreviation obj := (gmap string value).

(** [o.k]: reading a missing property gives [undefined]. *)
Definition get (o : obj) (k : string) : value := default VUndefined (o !! k).

(** ToBoolean. *)
Definition truthy (v : value) : bool :=
  match v with
  | VUndefined | VNull => false
  | VBool b => b
  | VNum n => negb (n =? 0)%Z
  | VStr s => negb (bool_decide (s = ""))
  | VDate _ | VArr _ => true
  end.

(** [a || b] *)
Definition js_or (a b : value) : value := if truthy a then a else b.

(** [v === 'literal'] *)
Definition is_str (v : value) (s : string) : bool :=
  match v with VStr s' => bool_decide (s' = s) | _ => false end.

(** [v !== undefined] *)
Definition is_defined (v : value) : bool :=
  match v with VUndefined => false | _ => true end.

(** [typeof v === 'string'] *)
Definition is_string (v : value) : bool :=
  match v with VStr _ => true | _ => false end.

(** [{ ...a, ...b }]: properties of [b] win. *)
Definition spread (a b : obj) : obj := b ∪ a.

(** ASCII model of [String.prototype.toLowerCase]. *)
Definition lower_ascii (c : ascii) : ascii :=
  let n := nat_of_ascii c in
  if (65 <=? n)%nat && (n <=? 90)%nat then ascii_of_nat (n + 32) else c.

Fixpoint lower (s : string) : string :=
  match s with
  | EmptyString => EmptyString
  | String c s' => String (lower_ascii c) (lower s')
  end.

(** [String.prototype.includes] *)
Fixpoint str_includes (s t : string) : bool :=
  String.prefix t s ||
  match s with
  | EmptyString => false
  | String _ s' => str_includes s' t
  end.

(** ** Errors (utils/errors.js) *)

Record js_error : Type := mkErr {
  err_name : string;
  err_message : string;
  err_status : option Z
}.

#[global] Instance js_error_eq_dec : EqDecision js_error.
Proof. solve_decision. Defined.

(** [new Error(msg)] and the [TypeError] the runtime raises on a method
    call on a value that has no such method. *)
Definition Error (msg : string) : js_error := mkErr "Error" msg None.
Definition TypeError (msg : string) : js_error := mkErr "TypeError" msg None.

(** [class APIError]: [name] is the constructor's name. *)
Definition APIError (cls msg : string) (status : Z) : js_error :=
  mkErr cls msg (Some status).
Definition ValidationError (msg : string) := APIError "ValidationError" msg 400.
Definition AuthenticationError (msg : string) := APIError "AuthenticationError" msg 401.
Definition AuthorizationError (msg : string) := APIError "AuthorizationError" msg 403.
Definition NotFoundError (msg : string) := APIError "NotFoundError" msg 404.
Definition ConflictError (msg : string) := APIError "ConflictError" msg 409.

(** ** Completions and the effect monad *)

Inductive completion (A : Type) : Type :=
| Return (a : A)
| Throw (e : js_error).
Arguments Return {A} a.
Arguments Throw {A} e.

#[global] Instance completion_eq_dec {A} `{EqDecision A} : EqDecision (completion A).
Proof. solve_decision. Defined.

Definition is_return {A} (c : completion A) : bool :=
  match c with Return _ => true | Throw _ => false end.

Definition thrown {A} (c : completion A) : option js_error :=
  match c with Return _ => None | Throw e => Some e end.

(** A computation over a state [St]; a throw keeps the state reached. *)
Definition Eff (St A : Type) : Type := St -> completion A * St.

Definition ret {St A} (a : A) : Eff St A := fun s => (Return a, s).
Definition throw {St A} (e : js_error) : Eff St A := fun s => (Throw e, s).
Definition bind {St A B} (m : Eff St A) (k : A -> Eff St B) : Eff St B :=
  fun s => match m s with
           | (Return a, s') => k a s'
           | (Throw e, s') => (Throw e, s')
           end.
(** [try { m } catch (e) { h e }] and [m.catch(h)] *)
Definition try_catch {St A} (m : Eff St A) (h : js_error -> Eff St A) : Eff St A :=
  fun s => match m s with
           | (Return a, s') => (Return a, s')
           | (Throw e, s') => h e s'
           end.
Definition lift {St A} (c : completion A) : Eff St A := fun s => (c, s).
Definition modify {St} (f : St -> St) : Eff St unit := fun s => (Return tt, f s).
Definition gets {St A} (f : St -> A) : Eff St A := fun s => (Return (f s), s).

Notation "'let!' x ':=' m 'in' k" := (bind m (fun x => k))
  (at level 10, x name, m at level 100, k at level 200).
Notation "'run!' m 'in' k" := (bind m (fun _ => k))
  (at level 10, m at level 100, k at level 200).

(** Pure completions (the synchronous helpers of utils/jwt.js). *)
Definition cbind {A B} (c : completion A) (k : A -> completion B) : completion B :=
  match c with Return a => k a | Throw e => Throw e end.
Definition ccatch {A} (c : completion A) (h : js_error -> completion A) : completion A :=
  match c with Return a => Return a | Throw e => h e end.

(** ** [Map] with insertion order (the [users] map of the in-memory adapter) *)

Module JsMap.

Definition t (V : Type) : Type := list (string * V).

Fixpoint get {V} (m : t V) (k : string) : option V :=
  match m with
  | [] => None
  | (k', v) :: m' => if bool_decide (k' = k) then Some v else get m' k
  end.

(** [set] keeps the position of an existing key and appends a new one. *)
Fixpoint set {V} (m : t V) (k : string) (v : V) : t V :=
  match m with
  | [] => [(k, v)]
  | (k', v') :: m' =>
      if bool_decide (k' = k) then (k, v) :: m' else (k', v') :: set m' k v
  end.

Definition values {V} (m : t V) : list V := map snd m.

(** [delete] tells whether the key was there. *)
Definition delete {V} (m : t V) (k : string) : bool * t V :=
  (match get m k with Some _ => true | None => false end,
   filter (fun kv => kv.1 ≠ k) m).

End JsMap.

(** ** Configuration (config/index.js) and the non-deterministic inputs *)

Record JwtConfig : Type := {
  secret : string;
  expiresIn : Z;            (* seconds *)
  refreshSecret : string;
  refreshExpiresIn : Z      (* seconds *)
}.

Record SecurityConfig : Type := {
  passwordResetExpiresIn : Z;
  emailVerificationExpiresIn : Z
}.

Record Features : Type := { emailVerification : bool }.

(** An event hook receives a user object (or [null]) and may throw. *)
Definition Hook : Type := option obj -> completion unit.

Record Hooks : Type := {
  onRegister : option Hook;
  onLogin : option Hook;
  onLogout : option Hook;
  onPasswordReset : option Hook;
  onEmailVerified : option Hook
}.

Record Config : Type := {
  jwt : JwtConfig;
  security : SecurityConfig;
  features : Features;
  hooks : Hooks;
  frontendUrl : string
}.

(** What a call reads from outside the program: the clock ([Date.now()],
    in milliseconds), [crypto.randomUUID()], the salt drawn by
    [bcrypt.genSalt] and whether the mail transport fails (with which
    message). *)
Record Env : Type := {
  clock_ms : Z;
  random_uuid : string;
  bcrypt_salt : string;
  smtp_failure : option string
}.

(** [Math.floor(Date.now() / 1000)], the clock of jsonwebtoken. *)
Definition now_s (env : Env) : Z := (clock_ms env / 1000)%Z.

(** ** The external libraries, as interfaces *)

(** bcryptjs: [hash password salt] and [compare password hash]. *)
Class Bcrypt : Type := {
  bcrypt_hash : string -> string -> string;
  bcrypt_compare : string -> string -> bool
}.

(** jsonwebtoken: [jwt_sign payload key expiresIn clock] is the token
    signed at clock second [clock]; [jwt_verify token key clock] returns the
    decoded payload or throws one of the library's errors
    ([TokenExpiredError], [JsonWebTokenError], ...).  The payload is read
    from the token itself: the key and the clock decide whether it is
    returned, not what it is. *)
Class Jsonwebtoken : Type := {
  jwt_sign : obj -> string -> Z -> Z -> string;
  jwt_verify : string -> string -> Z -> completion obj;
  jwt_verify_payload :
    forall token key1 key2 clock1 clock2 payload1 payload2,
      jwt_verify token key1 clock1 = Return payload1 ->
      jwt_verify token key2 clock2 = Return payload2 ->
      payload1 = payload2
}.

(** ** The world a service call runs in *)

Record Mail : Type := {
  mail_to : value;
  mail_subject : string;
  mail_html : string
}.

(** The adapter's state, the mails handed to the transport and the lines
    written with [console.error]. *)
Record World (S : Type) : Type := mkWorld {
  store : S;
  outbox : list Mail;
  console : list string
}.
Arguments mkWorld {S} _ _ _.
Arguments store {S} _.
Arguments outbox {S} _.
Arguments console {S} _.

#[global] Instance Mail_eq_dec : EqDecision Mail.
Proof. solve_decision. Defined.

#[global] Instance World_eq_dec {S} `{EqDecision S} : EqDecision (World S).
Proof. solve_decision. Defined.

(** Run an adapter call on the store of the world. *)
Definition liftDb {S A} (m : Eff S A) : Eff (World S) A :=
  fun w => let (r, s') := m (store w) in
           (r, mkWorld s' (outbox w) (console w)).

Definition console_error {S} (line : string) : Eff (World S) unit :=
  modify (fun w => mkWorld (store w) (outbox w) (console w ++ [line])).

Section Utils.

Context {bc : Bcrypt} {jw : Jsonwebtoken}.

(** The module-level [config] imported by utils/jwt.js and utils/email.js. *)
Variable config : Config.

(** *** utils/jwt.js *)

Definition generateAccessToken (env : Env) (payload : obj) : string :=
  jwt_sign
    {[ "id" := get payload "id";
       "email" := get payload "email";
       "role" := js_or (get payload "role") (VStr "user") ]}
    (secret (jwt config)) (expiresIn (jwt config)) (now_s env).

Definition generateRefreshToken (env : Env) (payload : obj) : string :=
  jwt_sign
    {[ "id" := get payload "id"; "type" := VStr "refresh" ]}
    (refreshSecret (jwt config)) (refreshExpiresIn (jwt config)) (now_s env).

Record Tokens : Type := { accessToken : string; refreshToken : string }.

#[global] Instance Tokens_eq_dec : EqDecision Tokens.
Proof. solve_decision. Defined.

Definition generateTokens (env : Env) (user : obj) : Tokens :=
  {| accessToken :=
       generateAccessToken env
         {[ "id" := get user "id"; "email" := get user "email";
            "role" := get user "role" ]};
     refreshToken := generateRefreshToken env {[ "id" := get user "id" ]} |}.

(** The [catch] block shared by the verifiers: the library's two error
    names are replaced by a plain [Error], anything else is rethrown. *)
Definition rethrow_jwt (expired invalid : string) (error : js_error)
  : completion obj :=
  if bool_decide (err_name error = "TokenExpiredError") then
    Throw (Error expired)
  else if bool_decide (err_name error = "JsonWebTokenError") then
    Throw (Error invalid)
  else Throw error.

Definition verifyAccessToken (env : Env) (token : string) : completion obj :=
  ccatch (jwt_verify token (secret (jwt config)) (now_s env))
    (rethrow_jwt "Access token has expired" "Invalid access token").

(** [jwt.verify], then the check of the [type] claim, both inside [try]. *)
Definition verify_typed (env : Env) (key type : string) (token : string)
  : completion obj :=
  cbind (jwt_verify token key (now_s env)) (fun decoded =>
    if negb (is_str (get decoded "type") type) then
      Throw (Error "Invalid token type")
    else Return decoded).

Definition verifyRefreshToken (env : Env) (token : string) : completion obj :=
  ccatch (verify_typed env (refreshSecret (jwt config)) "refresh" token)
    (rethrow_jwt "Refresh token has expired" "Invalid refresh token").

Definition generateEmailVerificationToken (env : Env) (userId : value) : string :=
  jwt_sign
    {[ "id" := userId; "type" := VStr "email-verification" ]}
    (secret (jwt config)) (emailVerificationExpiresIn (security config))
    (now_s env).

Definition verifyEmailVerificationToken (env : Env) (token : string)
  : completion obj :=
  ccatch (verify_typed env (secret (jwt config)) "email-verification" token)
    (rethrow_jwt "Email verification token has expired"
                 "Invalid email verification token").

Definition generatePasswordResetToken (env : Env) (userId : value) : string :=
  jwt_sign
    {[ "id" := userId; "type" := VStr "password-reset" ]}
    (secret (jwt config)) (passwordResetExpiresIn (security config))
    (now_s env).

Definition verifyPasswordResetToken (env : Env) (token : string)
  : completion obj :=
  ccatch (verify_typed env (secret (jwt config)) "password-reset" token)
    (rethrow_jwt "Password reset token has expired"
                 "Invalid password reset token").

(** *** utils/password.js *)

Definition hashPassword (env : Env) (password : value) : completion string :=
  match password with
  | VStr p =>
      if negb (truthy password) then
        Throw (Error "Password must be a non-empty string")
      else Return (bcrypt_hash p (bcrypt_salt env))
  | _ => Throw (Error "Password must be a non-empty string")
  end.

Definition comparePassword (password hashedPassword : value) : completion bool :=
  match password with
  | VStr p =>
      if negb (truthy password) then
        Throw (Error "Password must be a non-empty string")
      else
        match hashedPassword with
        | VStr h =>
            if negb (truthy hashedPassword) then
              Throw (Error "Hashed password must be a non-empty string")
            else Return (bcrypt_compare p h)
        | _ => Throw (Error "Hashed password must be a non-empty string")
        end
  | _ => Throw (Error "Password must be a non-empty string")
  end.

(** *** utils/email.js

    The HTML templates are reduced to the link they carry. *)

Definition sendEmail {S} (env : Env) (to : value) (subject html : string)
  : Eff (World S) unit :=
  if negb (truthy to) || bool_decide (subject = "") || bool_decide (html = "")
  then throw (Error "Email requires to, subject, and html fields")
  else
    match smtp_failure env with
    | Some msg =>
        run! console_error "Email sending failed:" in
        throw (Error ("Failed to send email: " +:+ msg))
    | None =>
        modify (fun w =>
          mkWorld (store w)
                  (outbox w ++ [{| mail_to := to; mail_subject := subject;
                                   mail_html := html |}])
                  (console w))
    end.

Definition sendWelcomeEmail {S} (env : Env) (email name : value)
  : Eff (World S) unit :=
  sendEmail env email "Welcome to Our Platform!" "<welcome>".

Definition sendVerificationEmail {S} (env : Env) (email : value)
    (token : string) (name : value) : Eff (World S) unit :=
  sendEmail env email "Verify Your Email Address"
    (frontendUrl config +:+ "/verify-email?token=" +:+ token).

Definition sendPasswordResetEmail {S} (env : Env) (email : value)
    (token : string) (name : value) : Eff (World S) unit :=
  sendEmail env email "Reset Your Password"
    (frontendUrl config +:+ "/reset-password?token=" +:+ token).

Definition sendPasswordChangedEmail {S} (env : Env) (email name : value)
  : Eff (World S) unit :=
  sendEmail env email "Password Changed Successfully" "<password-changed>".

End Utils.

(** ** models/user.js *)

(** [const { password, refreshTokens, ...sanitized } = user] *)
Definition sanitizeUser (user : option obj) : option obj :=
  match user with
  | None => None
  | Some u => Some (delete "refreshTokens" (delete "password" u))
  end.

(** [v.toLowerCase()] *)
Definition toLowerCase (v : value) : completion string :=
  match v with
  | VStr s => Return (lower s)
  | _ => Throw (TypeError "toLowerCase is not a function")
  end.

(** [v.includes(token)] *)
Definition includes (v : value) (token : string) : completion bool :=
  match v with
  | VArr l => Return (bool_decide (token ∈ l))
  | VStr s => Return (str_includes s token)
  | _ => Throw (TypeError "includes is not a function")
  end.

(** An object literal, property by property. *)
Definition object (props : list (string * value)) : obj := list_to_map props.

(** [new Date()] *)
Definition new_Date (env : Env) : value := VDate (clock_ms env).

(** ** The adapter interface (models/adapters/base.js) *)

Module Base.

Record Database (S : Type) : Type := {
  createUser : Env -> obj -> Eff S obj;
  findUserById : value -> Eff S (option obj);
  findUserByEmail : value -> Eff S (option obj);
  updateUser : Env -> value -> obj -> Eff S obj;
  addRefreshToken : Env -> value -> string -> Eff S unit;
  removeRefreshToken : Env -> value -> string -> Eff S unit;
  removeAllRefreshTokens : Env -> value -> Eff S unit;
  updateLastLogin : Env -> value -> Eff S unit
}.
Arguments createUser {S} _ _ _ _.
Arguments findUserById {S} _ _ _.
Arguments findUserByEmail {S} _ _ _.
Arguments updateUser {S} _ _ _ _ _.
Arguments addRefreshToken {S} _ _ _ _ _.
Arguments removeRefreshToken {S} _ _ _ _ _.
Arguments removeAllRefreshTokens {S} _ _ _ _.
Arguments updateLastLogin {S} _ _ _ _.

End Base.

(** ** models/adapters/memory.js *)

Module MemoryAdapter.

(** [this.users]: user objects keyed by id. *)
Definition users : Type := JsMap.t obj.

(** [this.users.get(id)]: the keys are strings, any other value misses. *)
Definition users_get (m : users) (id : value) : option obj :=
  match id with
  | VStr k => JsMap.get m k
  | _ => None
  end.

(** [this.users.set(id, user)] for an id that is a string. *)
Definition users_set (m : users) (id : value) (user : obj) : users :=
  match id with
  | VStr k => JsMap.set m k user
  | _ => m
  end.

(** [Array.from(this.users.values()).find((u) => u.email === email.toLowerCase())]:
    the callback, and with it [email.toLowerCase()], runs once per user
    visited. *)
Fixpoint find_email (us : list obj) (email : value) : completion (option obj) :=
  match us with
  | [] => Return None
  | u :: rest =>
      cbind (toLowerCase email) (fun e =>
        if is_str (get u "email") e then Return (Some u)
        else find_email rest email)
  end.

Definition findUserByEmailSync (email : value) : Eff users (option obj) :=
  fun m => (find_email (JsMap.values m) email, m).

(** The object literal of [createUser], [email] being
    [userData.email.toLowerCase()]. *)
Definition new_user (env : Env) (userData : obj) (email : string) : obj :=
  object
    [ ("id", VStr (random_uuid env));
      ("email", VStr email);
      ("password", get userData "password");
      ("name", js_or (get userData "name") VNull);
      ("phone", js_or (get userData "phone") VNull);
      ("role", js_or (get userData "role") (VStr "user"));
      ("isEmailVerified", js_or (get userData "isEmailVerified") (VBool false));
      ("isActive", if is_defined (get userData "isActive")
                   then get userData "isActive" else VBool true);
      ("avatar", js_or (get userData "avatar") VNull);
      ("bio", js_or (get userData "bio") VNull);
      ("lastLogin", VNull);
      ("refreshTokens", VArr []);
      ("createdAt", new_Date env);
      ("updatedAt", new_Date env) ].

Definition createUser (env : Env) (userData : obj) : Eff users obj :=
  let! email := lift (toLowerCase (get userData "email")) in
  let user := new_user env userData email in
  let! existing := findUserByEmailSync (get user "email") in
  match existing with
  | Some _ => throw (Error "Email already exists")
  | None =>
      run! modify (fun m => users_set m (get user "id") user) in
      ret user
  end.

Definition findUserById (id : value) : Eff users (option obj) :=
  fun m => (Return (users_get m id), m).

Definition findUserByEmail (email : value) : Eff users (option obj) :=
  findUserByEmailSync email.

Definition updateUser (env : Env) (id : value) (updates : obj) : Eff users obj :=
  let! user := gets (fun m => users_get m id) in
  match user with
  | None => throw (Error "User not found")
  | Some user =>
      let updatedUser :=
        <["updatedAt" := new_Date env]>
          (<["id" := get user "id"]> (spread user updates)) in
      run! modify (fun m => users_set m id updatedUser) in
      ret updatedUser
  end.

(** The three mutators below change the stored object in place. *)
Definition addRefreshToken (env : Env) (userId : value) (token : string)
  : Eff users unit :=
  let! user := gets (fun m => users_get m userId) in
  match user with
  | None => ret tt
  | Some user =>
      match get user "refreshTokens" with
      | VArr l =>
          modify (fun m => users_set m userId
            (<["updatedAt" := new_Date env]>
               (<["refreshTokens" := VArr (l ++ [token])]> user)))
      | _ => throw (TypeError "push is not a function")
      end
  end.

Definition removeRefreshToken (env : Env) (userId : value) (token : string)
  : Eff users unit :=
  let! user := gets (fun m => users_get m userId) in
  match user with
  | None => ret tt
  | Some user =>
      match get user "refreshTokens" with
      | VArr l =>
          modify (fun m => users_set m userId
            (<["updatedAt" := new_Date env]>
               (<["refreshTokens" := VArr (filter (λ t, t ≠ token) l)]> user)))
      | _ => throw (TypeError "filter is not a function")
      end
  end.

Definition removeAllRefreshTokens (env : Env) (userId : value) : Eff users unit :=
  let! user := gets (fun m => users_get m userId) in
  match user with
  | None => ret tt
  | Some user =>
      modify (fun m => users_set m userId
        (<["updatedAt" := new_Date env]> (<["refreshTokens" := VArr []]> user)))
  end.

Definition updateLastLogin (env : Env) (userId : value) : Eff users unit :=
  let! user := gets (fun m => users_get m userId) in
  match user with
  | None => ret tt
  | Some user =>
      modify (fun m => users_set m userId
        (<["updatedAt" := new_Date env]> (<["lastLogin" := new_Date env]> user)))
  end.

Definition deleteUser (id : value) : Eff users bool :=
  fun m =>
    match id with
    | VStr k => let (found, m') := JsMap.delete m k in (Return found, m')
    | _ => (Return false, m)
    end.

Definition adapter : Base.Database users := {|
  Base.createUser := createUser;
  Base.findUserById := findUserById;
  Base.findUserByEmail := findUserByEmail;
  Base.updateUser := updateUser;
  Base.addRefreshToken := addRefreshToken;
  Base.removeRefreshToken := removeRefreshToken;
  Base.removeAllRefreshTokens := removeAllRefreshTokens;
  Base.updateLastLogin := updateLastLogin
|}.

End MemoryAdapter.

(** ** services/authService.js *)

(** What register, login and refreshToken resolve to:
    [{ user, accessToken, refreshToken }]. *)
Record AuthResult : Type := {
  user : option obj;
  issued : Tokens
}.

#[global] Instance AuthResult_eq_dec : EqDecision AuthResult.
Proof. solve_decision. Defined.

Module AuthService.

Section Service.

Context {bc : Bcrypt} {jw : Jsonwebtoken}.

(** The module-level configuration read by the helpers. *)
Variable config : Config.

(** [this.db] and [this.config]. *)
Context {S : Type}.
Variable db : Base.Database S.
Variable this_config : Config.

(** [if (hook) { await hook(user); }] *)
Definition trigger (hook : option Hook) (user : option obj) : Eff (World S) unit :=
  match hook with
  | Some h => lift (h user)
  | None => ret tt
  end.

(** Every method wraps its body in [try { ... } catch (error) { throw error; }],
    which rethrows unchanged; [forgotPassword] is the one exception. *)

Definition register (env : Env) (userData : obj) : Eff (World S) AuthResult :=
  let! existingUser := liftDb (Base.findUserByEmail db (get userData "email")) in
  match existingUser with
  | Some _ => throw (ConflictError "Email already registered")
  | None =>
      let! hashedPassword := lift (hashPassword env (get userData "password")) in
      let! email := lift (toLowerCase (get userData "email")) in
      let! user := liftDb (Base.createUser db env (object
        [ ("email", VStr email);
          ("password", VStr hashedPassword);
          ("name", get userData "name");
          ("phone", get userData "phone");
          ("role", js_or (get userData "role") (VStr "user"));
          ("isEmailVerified",
            VBool (negb (emailVerification (features this_config)))) ])) in
      let tokens := generateTokens config env user in
      run! liftDb (Base.addRefreshToken db env (get user "id") (refreshToken tokens)) in
      run! (if emailVerification (features this_config) then
              let verificationToken :=
                generateEmailVerificationToken config env (get user "id") in
              sendVerificationEmail config env (get user "email")
                verificationToken (get user "name")
            else
              try_catch
                (sendWelcomeEmail env (get user "email") (get user "name"))
                (fun err => console_error "Failed to send welcome email:")) in
      run! trigger (onRegister (hooks this_config)) (Some user) in
      ret {| user := sanitizeUser (Some user); issued := tokens |}
  end.

Definition login (env : Env) (email password : value) : Eff (World S) AuthResult :=
  let! found := liftDb (Base.findUserByEmail db email) in
  match found with
  | None => throw (AuthenticationError "Invalid email or password")
  | Some user =>
      if negb (truthy (get user "isActive")) then
        throw (AuthenticationError
          "Your account has been deactivated. Please contact support.")
      else
        let! isPasswordValid :=
          lift (comparePassword password (get user "password")) in
        if negb isPasswordValid then
          throw (AuthenticationError "Invalid email or password")
        else if emailVerification (features this_config)
                && negb (truthy (get user "isEmailVerified")) then
          throw (AuthenticationError
            "Please verify your email address before logging in")
        else
          let tokens := generateTokens config env user in
          run! liftDb (Base.addRefreshToken db env (get user "id")
                         (refreshToken tokens)) in
          run! liftDb (Base.updateLastLogin db env (get user "id")) in
          run! trigger (onLogin (hooks this_config)) (Some user) in
          ret {| user := sanitizeUser (Some user); issued := tokens |}
  end.

Definition logout (env : Env) (userId : value) (token : string)
  : Eff (World S) unit :=
  run! liftDb (Base.removeRefreshToken db env userId token) in
  match onLogout (hooks this_config) with
  | Some h =>
      let! user := liftDb (Base.findUserById db userId) in
      lift (h user)
  | None => ret tt
  end.

Definition logoutAll (env : Env) (userId : value) : Eff (World S) unit :=
  run! liftDb (Base.removeAllRefreshTokens db env userId) in
  match onLogout (hooks this_config) with
  | Some h =>
      let! user := liftDb (Base.findUserById db userId) in
      lift (h user)
  | None => ret tt
  end.

Definition refreshToken (env : Env) (token : string) : Eff (World S) AuthResult :=
  let! decoded := lift (verifyRefreshToken config env token) in
  let! found := liftDb (Base.findUserById db (get decoded "id")) in
  match found with
  | None => throw (AuthenticationError "User not found")
  | Some user =>
      let! absent :=
        (if negb (truthy (get user "refreshTokens")) then ret true
         else let! present := lift (includes (get user "refreshTokens") token) in
              ret (negb present)) in
      if (absent : bool) then throw (AuthenticationError "Invalid refresh token")
      else
        run! liftDb (Base.removeRefreshToken db env (get user "id") token) in
        let tokens := generateTokens config env user in
        run! liftDb (Base.addRefreshToken db env (get user "id")
                       (refreshToken tokens)) in
        ret {| user := sanitizeUser (Some user); issued := tokens |}
  end.

Definition verifyEmail (env : Env) (token : string) : Eff (World S) (option obj) :=
  let! decoded := lift (verifyEmailVerificationToken config env token) in
  let! found := liftDb (Base.findUserById db (get decoded "id")) in
  match found with
  | None => throw (NotFoundError "User not found")
  | Some user =>
      if truthy (get user "isEmailVerified") then
        throw (ValidationError "Email already verified")
      else
        let! updatedUser := liftDb (Base.updateUser db env (get user "id")
                                      {[ "isEmailVerified" := VBool true ]}) in
        run! try_catch
               (sendWelcomeEmail env (get user "email") (get user "name"))
               (fun err => console_error "Failed to send welcome email:") in
        run! trigger (onEmailVerified (hooks this_config)) (Some updatedUser) in
        ret (sanitizeUser (Some updatedUser))
  end.

Definition resendVerificationEmail (env : Env) (email : value)
  : Eff (World S) unit :=
  let! found := liftDb (Base.findUserByEmail db email) in
  match found with
  | None => ret tt
  | Some user =>
      if truthy (get user "isEmailVerified") then
        throw (ValidationError "Email already verified")
      else
        let verificationToken :=
          generateEmailVerificationToken config env (get user "id") in
        sendVerificationEmail config env (get user "email")
          verificationToken (get user "name")
  end.

Definition forgotPassword (env : Env) (email : value) : Eff (World S) unit :=
  try_catch
    (let! found := liftDb (Base.findUserByEmail db email) in
     match found with
     | None => ret tt
     | Some user =>
         let resetToken := generatePasswordResetToken config env (get user "id") in
         sendPasswordResetEmail config env (get user "email") resetToken
           (get user "name")
     end)
    (fun error => console_error "Forgot password error:").

Definition resetPassword (env : Env) (token : string) (newPassword : value)
  : Eff (World S) unit :=
  let! decoded := lift (verifyPasswordResetToken config env token) in
  let! found := liftDb (Base.findUserById db (get decoded "id")) in
  match found with
  | None => throw (NotFoundError "User not found")
  | Some user =>
      let! hashedPassword := lift (hashPassword env newPassword) in
      run! liftDb (Base.updateUser db env (get user "id")
                     {[ "password" := VStr hashedPassword ]}) in
      run! liftDb (Base.removeAllRefreshTokens db env (get user "id")) in
      run! try_catch
             (sendPasswordChangedEmail env (get user "email") (get user "name"))
             (fun err => console_error "Failed to send password changed email:") in
      trigger (onPasswordReset (hooks this_config)) (Some user)
  end.

Definition changePassword (env : Env) (userId : value)
    (currentPassword newPassword : value) : Eff (World S) unit :=
  let! found := liftDb (Base.findUserById db userId) in
  match found with
  | None => throw (NotFoundError "User not found")
  | Some user =>
      let! isPasswordValid :=
        lift (comparePassword currentPassword (get user "password")) in
      if negb isPasswordValid then
        throw (AuthenticationError "Current password is incorrect")
      else
        let! hashedPassword := lift (hashPassword env newPassword) in
        run! liftDb (Base.updateUser db env (get user "id")
                       {[ "password" := VStr hashedPassword ]}) in
        run! liftDb (Base.removeAllRefreshTokens db env (get user "id")) in
        try_catch
          (sendPasswordChangedEmail env (get user "email") (get user "name"))
          (fun err => console_error "Failed to send password changed email:")
  end.

Definition getProfile (userId : value) : Eff (World S) (option obj) :=
  let! found := liftDb (Base.findUserById db userId) in
  match found with
  | None => throw (NotFoundError "User not found")
  | Some user => ret (sanitizeUser (Some user))
  end.

Definition allowedFields : list string := ["name"; "phone"; "bio"; "avatar"].

(** [allowedFields.forEach(...)] filling [filteredUpdates]. *)
Definition filterUpdates (updates : obj) : obj :=
  foldl (fun filteredUpdates field =>
           if is_defined (get updates field)
           then <[field := get updates field]> filteredUpdates
           else filteredUpdates)
        ∅ allowedFields.

Definition updateProfile (env : Env) (userId : value) (updates : obj)
  : Eff (World S) (option obj) :=
  let filteredUpdates := filterUpdates updates in
  let! updatedUser := liftDb (Base.updateUser db env userId filteredUpdates) in
  ret (sanitizeUser (Some updatedUser)).

End Service.

End AuthService.

(** ** utils/validation.js and the register controller *)

Module Validation.

(** A key of a Joi object schema: whether it is required, and its rule
    (type, format and conversions such as [lowercase()] and [trim()]),
    which converts a value or rejects it. *)
Record KeySchema : Type := {
  key_required : bool;
  key_rule : value -> option value
}.

Definition ObjectSchema : Type := list (string * KeySchema).

(** [schema.validate(data, { abortEarly: false, stripUnknown: true })]:
    [None] stands for a non-empty list of errors; on success the value
    holds the converted keys of the schema and nothing else. *)
Fixpoint validate (schema : ObjectSchema) (data : obj) : option obj :=
  match schema with
  | [] => Some ∅
  | (k, ks) :: rest =>
      match validate rest data with
      | None => None
      | Some acc =>
          if is_defined (get data k) then
            match key_rule ks (get data k) with
            | Some v => Some (<[k := v]> acc)
            | None => None
            end
          else if key_required ks then None else Some acc
      end
  end.

Section Schemas.

(** The rules of the four keys: [Joi.string().email()...],
    [Joi.string().min(8).max(128).pattern(...)], and so on. *)
Variables email_rule password_rule name_rule phone_rule : value -> option value.

Definition registerSchema : ObjectSchema :=
  [ ("email", {| key_required := true; key_rule := email_rule |});
    ("password", {| key_required := true; key_rule := password_rule |});
    ("name", {| key_required := false; key_rule := name_rule |});
    ("phone", {| key_required := false; key_rule := phone_rule |}) ].

End Schemas.

End Validation.

Module AuthController.

Inductive Response : Type :=
| sendError (message : string) (statusCode : Z)
| sendSuccess (data : AuthResult) (statusCode : Z) (message : string).

#[global] Instance Response_eq_dec : EqDecision Response.
Proof. solve_decision. Defined.

Section Controller.

Context {bc : Bcrypt} {jw : Jsonwebtoken}.
Variable config : Config.
Context {S : Type}.
Variable db : Base.Database S.
Variable this_config : Config.
Variables email_rule password_rule name_rule phone_rule : value -> option value.

(** [POST /register]; an error thrown by the service goes to the error
    handler through [asyncHandler]. *)
Definition register (env : Env) (body : obj) : Eff (World S) Response :=
  match Validation.validate
          (Validation.registerSchema email_rule password_rule name_rule phone_rule)
          body with
  | None => ret (sendError "Validation failed" 400)
  | Some value =>
      let! result := AuthService.register config db this_config env value in
      ret (sendSuccess result 201 "User registered successfully")
  end.

End Controller.

End AuthController.

(** ** The rest of models/user.js *)

Module UserModel.

(** [a ?? b] *)
Definition nullish_or (a b : value) : value :=
  match a with
  | VUndefined | VNull => b
  | _ => a
  end.

Definition rowToUser (row : option obj) : option obj :=
  match row with
  | None => None
  | Some row =>
      Some (object
        [ ("id", get row "id");
          ("email", get row "email");
          ("password", get row "password");
          ("name", get row "name");
          ("phone", get row "phone");
          ("role", get row "role");
          ("isEmailVerified",
            nullish_or (get row "is_email_verified") (get row "isEmailVerified"));
          ("isActive", nullish_or (get row "is_active") (get row "isActive"));
          ("avatar", get row "avatar");
          ("bio", get row "bio");
          ("lastLogin", nullish_or (get row "last_login") (get row "lastLogin"));
          ("refreshTokens",
            nullish_or
              (nullish_or (get row "refresh_tokens") (get row "refreshTokens"))
              (VArr []));
          ("createdAt", nullish_or (get row "created_at") (get row "createdAt"));
          ("updatedAt", nullish_or (get row "updated_at") (get row "updatedAt")) ])
  end.

Definition userToRow (user : option obj) : option obj :=
  match user with
  | None => None
  | Some user =>
      Some (object
        [ ("email", get user "email");
          ("password", get user "password");
          ("name", get user "name");
          ("phone", get user "phone");
          ("role", get user "role");
          ("is_email_verified", get user "isEmailVerified");
          ("is_active", get user "isActive");
          ("avatar", get user "avatar");
          ("bio", get user "bio");
          ("last_login", get user "lastLogin");
          ("refresh_tokens", get user "refreshTokens") ])
  end.

End UserModel.

(** ** The rest of utils/password.js *)

Section PasswordHistory.

Context {bc : Bcrypt}.

(** The [for] loop of [isPasswordReused]. *)
Fixpoint password_matches_any (password : value) (previousPasswords : list value)
  : completion bool :=
  match previousPasswords with
  | [] => Return false
  | oldPassword :: rest =>
      cbind (comparePassword password oldPassword) (fun isMatch =>
        if (isMatch : bool) then Return true
        else password_matches_any password rest)
  end.

(** [previousPasswords] is the array handed in ([[]] when it is left out). *)
Definition isPasswordReused (userId password : value)
    (previousPasswords : list value) : completion bool :=
  match previousPasswords with
  | [] => Return false
  | _ => password_matches_any password previousPasswords
  end.

End PasswordHistory.

(** ** middleware/auth.js

    A middleware either hands the request on ([next()], a [Return] of the
    request as it then is) or hands an error to the error handler
    ([next(error)], a [Throw]). *)

Module Middleware.

(** What the middlewares read of a request: [req.headers.authorization]
    (node gives a header as a string or leaves it undefined), [req.user]
    and the route parameters [req.params], which are strings. *)
Record Request : Type := {
  authorization : option string;
  req_user : option obj;
  params : gmap string string
}.

#[global] Instance Request_eq_dec : EqDecision Request.
Proof. solve_decision. Defined.

(** [authHeader.substring(7)] *)
Definition substring_7 (authHeader : string) : string :=
  String.substring 7 (String.length authHeader - 7) authHeader.

(** [!authHeader || !authHeader.startsWith('Bearer ')] *)
Definition no_bearer (authHeader : option string) : bool :=
  match authHeader with
  | None => true
  | Some h => negb (truthy (VStr h)) || negb (String.prefix "Bearer " h)
  end.

(** [req.user = { id: decoded.id, email: decoded.email, role: decoded.role }] *)
Definition attach (req : Request) (decoded : obj) : Request :=
  {| authorization := authorization req;
     req_user := Some (object [ ("id", get decoded "id");
                                ("email", get decoded "email");
                                ("role", get decoded "role") ]);
     params := params req |}.

Section Auth.

Context {jw : Jsonwebtoken}.
Variable config : Config.

(** [error instanceof AuthenticationError] is read off the name of the
    error, which the error classes set to the name of their constructor. *)
Definition authenticate (env : Env) (req : Request) : completion Request :=
  ccatch
    (let authHeader := authorization req in
     if no_bearer authHeader then Throw (AuthenticationError "No token provided")
     else
       let token := substring_7 (default "" authHeader) in
       cbind (verifyAccessToken config env token) (fun decoded =>
         Return (attach req decoded)))
    (fun error =>
       if bool_decide (err_name error = "AuthenticationError") then Throw error
       else Throw (AuthenticationError (err_message error))).

(** [optionalAuth] calls [next()] on every path; the result is the request
    as it is then. *)
Definition optionalAuth (env : Env) (req : Request) : Request :=
  let authHeader := authorization req in
  if no_bearer authHeader then req
  else
    let token := substring_7 (default "" authHeader) in
    match verifyAccessToken config env token with
    | Return decoded => attach req decoded
    | Throw _ => req
    end.

End Auth.

(** An argument of [authorize(...roles)]: a role or an array of roles. *)
Inductive RoleArg : Type :=
| Role (role : string)
| Roles (roles : list string).

(** [roles.flat()] *)
Definition flat (roles : list RoleArg) : list string :=
  concat (map (fun r => match r with Role s => [s] | Roles l => l end) roles).

(** [allowedRoles.includes(userRole)] *)
Definition includes_role (allowedRoles : list string) (userRole : value) : bool :=
  match userRole with
  | VStr s => bool_decide (s ∈ allowedRoles)
  | _ => false
  end.

Definition authorize (roles : list RoleArg) (req : Request) : completion Request :=
  match req_user req with
  | None =>
      Throw (AuthenticationError
        "Authentication required. Please use authenticate middleware first.")
  | Some user =>
      let userRole := get user "role" in
      let allowedRoles := flat roles in
      if negb (includes_role allowedRoles userRole) then
        Throw (AuthorizationError
          ("Access denied. Required role(s): " +:+ String.concat ", " allowedRoles))
      else Return req
  end.

(** [req.params[paramName] || req.params.id] *)
Definition resource_id (paramName : string) (req : Request) : option string :=
  match params req !! paramName with
  | Some s => if truthy (VStr s) then Some s else params req !! "id"
  | None => params req !! "id"
  end.

Definition isOwner (paramName : string) (req : Request) : completion Request :=
  match req_user req with
  | None => Throw (AuthenticationError "Authentication required")
  | Some user =>
      match resource_id paramName req with
      | None =>
          Throw (Error ("Parameter " +:+ paramName +:+ " not found in request"))
      | Some resourceUserId =>
          if negb (truthy (VStr resourceUserId)) then
            Throw (Error ("Parameter " +:+ paramName +:+ " not found in request"))
          else if negb (is_str (get user "id") resourceUserId)
                  && negb (is_str (get user "role") "admin") then
            Throw (AuthorizationError
              "You do not have permission to access this resource")
          else Return req
      end
  end.

Section Store.

Context {S : Type}.
Variable db : Base.Database S.

(** [try { ... } catch (error) { next(error); }]: an error of the lookup
    goes to the error handler as it is. *)
Definition isActive (req : Request) : Eff S Request :=
  match req_user req with
  | None => throw (AuthenticationError "Authentication required")
  | Some user =>
      let! found := Base.findUserById db (get user "id") in
      match found with
      | None => throw (AuthenticationError "User not found")
      | Some stored_user =>
          if negb (truthy (get stored_user "isActive")) then
            throw (AuthorizationError
              "Your account has been deactivated. Please contact support.")
          else ret req
      end
  end.

Definition isEmailVerified (req : Request) : Eff S Request :=
  match req_user req with
  | None => throw (AuthenticationError "Authentication required")
  | Some user =>
      let! found := Base.findUserById db (get user "id") in
      match found with
      | None => throw (AuthenticationError "User not found")
      | Some stored_user =>
          if negb (truthy (get stored_user "isEmailVerified")) then
            throw (AuthorizationError
              "Please verify your email address to access this resource")
          else ret req
      end
  end.

End Store.

End Middleware.

(** ** Reference implementations of the libraries

    Executable stand-ins used to run the service on concrete inputs.  Like
    HS256 tokens of jsonwebtoken, a token is a function of the payload,
    the key and the clock second of signing, and carries [iat] and [exp];
    verification checks the key first, then the expiry
    ([clock >= exp] throws [TokenExpiredError]). *)

Module Reference.

Definition string_of_Z (z : Z) : string := NilZero.string_of_int (Z.to_int z).
Definition Z_of_string (s : string) : option Z :=
  option_map Z.of_int (NilZero.int_of_string s).

(** Split at the separator ["|"]. *)
Fixpoint split_bar (s : string) : list string :=
  match s with
  | EmptyString => [EmptyString]
  | String c s' =>
      if bool_decide (c = "|"%char) then EmptyString :: split_bar s'
      else match split_bar s' with
           | [] => [String c EmptyString]
           | w :: ws => String c w :: ws
           end
  end.

Definition join_bar (l : list string) : string :=
  String.concat "|" l.

Definition field_out (v : value) : string :=
  match v with
  | VStr s => "s" +:+ s
  | _ => "-"
  end.

Definition field_in (k s : string) (o : obj) : obj :=
  match s with
  | String "s" s' => <[k := VStr s']> o
  | _ => o
  end.

Definition sign (payload : obj) (key : string) (ttl clock : Z) : string :=
  join_bar [ key;
             field_out (get payload "id"); field_out (get payload "email");
             field_out (get payload "role"); field_out (get payload "type");
             string_of_Z clock; string_of_Z (clock + ttl) ].

Definition JsonWebTokenError (msg : string) : js_error :=
  mkErr "JsonWebTokenError" msg None.
Definition TokenExpiredError (msg : string) : js_error :=
  mkErr "TokenExpiredError" msg None.

Definition verify (token key : string) (clock : Z) : completion obj :=
  match split_bar token with
  | [k; id; email; role; type; iat; exp] =>
      match Z_of_string iat, Z_of_string exp with
      | Some iat, Some exp =>
          if negb (bool_decide (k = key)) then
            Throw (JsonWebTokenError "invalid signature")
          else if (exp <=? clock)%Z then
            Throw (TokenExpiredError "jwt expired")
          else
            Return (field_in "id" id (field_in "email" email
                      (field_in "role" role (field_in "type" type
                         {[ "iat" := VNum iat; "exp" := VNum exp ]}))))
      | _, _ => Throw (JsonWebTokenError "jwt malformed")
      end
  | _ => Throw (JsonWebTokenError "jwt malformed")
  end.

Lemma verify_payload token key1 key2 clock1 clock2 payload1 payload2 :
  verify token key1 clock1 = Return payload1 ->
  verify token key2 clock2 = Return payload2 ->
  payload1 = payload2.
Proof.
  unfold verify.
  destruct (split_bar token) as [|k [|id [|email [|role [|type [|iat [|exp [|]]]]]]]];
    try discriminate.
  destruct (Z_of_string iat), (Z_of_string exp); try discriminate.
  repeat case_match; congruence.
Qed.

Definition jsonwebtoken : Jsonwebtoken :=
  {| jwt_sign := sign; jwt_verify := verify;
     jwt_verify_payload := verify_payload |}.

(** A stand-in for bcrypt: the hash names the salt and the password. *)
Definition hash (password salt : string) : string :=
  "$2a$10$" +:+ salt +:+ "|" +:+ password.

Definition compare (password hashed : string) : bool :=
  match split_bar hashed with
  | [_; p] => bool_decide (p = password)
  | _ => false
  end.

Definition bcrypt : Bcrypt :=
  {| bcrypt_hash := hash; bcrypt_compare := compare |}.

Definition config : Config := {|
  jwt := {| secret := "default-secret-change-in-production";
            expiresIn := 900;
            refreshSecret := "default-refresh-secret-change-in-production";
            refreshExpiresIn := 604800 |};
  security := {| passwordResetExpiresIn := 3600000;
                 emailVerificationExpiresIn := 86400000 |};
  features := {| emailVerification := false |};
  hooks := {| onRegister := None; onLogin := None; onLogout := None;
              onPasswordReset := None; onEmailVerified := None |};
  frontendUrl := "http://localhost:3001"
|}.

Definition env_at (ms : Z) (uuid : string) : Env :=
  {| clock_ms := ms; random_uuid := uuid; bcrypt_salt := "salt";
     smtp_failure := None |}.

Definition empty_world : World MemoryAdapter.users :=
  mkWorld [] [] [].

End Reference.

(** ** Concrete worlds *)

Module Scenario.

Import Reference.

(** A stored record in the shape [createUser] gives it. *)
Definition user_record (id email hashed : string) (active : bool)
    (tokens : list string) : obj :=
  object
    [ ("id", VStr id); ("email", VStr email); ("password", VStr hashed);
      ("name", VNull); ("phone", VNull); ("role", VStr "user");
      ("isEmailVerified", VBool true); ("isActive", VBool active);
      ("avatar", VNull); ("bio", VNull); ("lastLogin", VNull);
      ("refreshTokens", VArr tokens);
      ("createdAt", VDate 1000000); ("updatedAt", VDate 1000000) ].

Definition alice (active : bool) (tokens : list string) : obj :=
  user_record "u1" "alice@example.com" (hash "Str0ng!Pass" "salt") active tokens.

Definition world_of (u : obj) : World MemoryAdapter.users :=
  mkWorld [("u1", u)] [] [].

(** The refresh token signed for user [u1] at clock second 1000, the
    tokens of the other classes, and what the refresh token decodes to. *)
Definition token_1000 : string :=
  Eval vm_compute in
    generateRefreshToken (jw := jsonwebtoken) config (env_at 1000500 "")
      {[ "id" := VStr "u1" ]}.

Definition reset_token_1000 : string :=
  Eval vm_compute in
    generatePasswordResetToken (jw := jsonwebtoken) config (env_at 1000500 "")
      (VStr "u1").

Definition payload_1000 : obj :=
  {[ "id" := VStr "u1"; "type" := VStr "refresh";
     "iat" := VNum 1000; "exp" := VNum 605800 ]}.

Definition reset_payload_1000 : obj :=
  {[ "id" := VStr "u1"; "type" := VStr "password-reset";
     "iat" := VNum 1000; "exp" := VNum 3601000 ]}.

(** The service over the in-memory adapter, with the default
    configuration (no hooks, no e-mail verification). *)
Definition refreshToken :=
  AuthService.refreshToken (jw := jsonwebtoken) config MemoryAdapter.adapter.
Definition login :=
  AuthService.login (bc := bcrypt) (jw := jsonwebtoken) config
    MemoryAdapter.adapter config.
Definition register :=
  AuthService.register (bc := bcrypt) (jw := jsonwebtoken) config
    MemoryAdapter.adapter config.
Definition logout :=
  AuthService.logout MemoryAdapter.adapter config.
Definition updateProfile :=
  AuthService.updateProfile MemoryAdapter.adapter.
Definition resetPassword :=
  AuthService.resetPassword (bc := bcrypt) (jw := jsonwebtoken) config
    MemoryAdapter.adapter config.
Definition changePassword :=
  AuthService.changePassword (bc := bcrypt) MemoryAdapter.adapter.
Definition verifyEmail :=
  AuthService.verifyEmail (jw := jsonwebtoken) config MemoryAdapter.adapter config.
Definition getProfile :=
  AuthService.getProfile MemoryAdapter.adapter.

(** A registration request, with a role. *)
Definition registration (role : value) : obj :=
  object [ ("email", VStr "Bob@Example.com"); ("password", VStr "Str0ng!Pass");
           ("name", VStr "Bob"); ("role", role) ].

(** Alice before she has verified her e-mail, and her verification token. *)
Definition unverified_alice : obj :=
  <["isEmailVerified" := VBool false]> (alice true []).

Definition verification_token_1000 : string :=
  Eval vm_compute in
    generateEmailVerificationToken (jw := jsonwebtoken) config (env_at 1000500 "")
      (VStr "u1").

(** The access token signed for Alice at clock second 1000, and a request
    that carries a token as its bearer. *)
Definition access_token_1000 : string :=
  Eval vm_compute in
    generateAccessToken (jw := jsonwebtoken) config (env_at 1000500 "")
      (alice true []).

Definition bearer (token : string) : Middleware.Request :=
  {| Middleware.authorization := Some ("Bearer " +:+ token);
     Middleware.req_user := None;
     Middleware.params := ∅ |}.



(** A request as [authenticate] leaves it for a user, with the route
    parameters [params]. *)
Definition request_of (id role : string) (params : gmap string string)
  : Middleware.Request :=
  {| Middleware.authorization := None;
     Middleware.req_user :=
       Some (object [ ("id", VStr id); ("email", VStr "alice@example.com");
                      ("role", VStr role) ]);
     Middleware.params := params |}.

End Scenario.

(** * Vocabulary of the statements *)

(** A user object as a client may see it: an object without a [password]
    and without a [refreshTokens] property. *)
Definition sanitized (o : option obj) : Prop :=
  exists u : obj, o = Some u /\ u !! "password" = None /\ u !! "refreshTokens" = None.

(** The stored record after [refreshToken] has rotated [token] out of the
    array [l]: every occurrence of [token] is filtered out and the newly
    signed refresh token is pushed. *)
Definition rotated {jw : Jsonwebtoken} (config : Config) (env : Env)
    (token : string) (u : obj) (l : list string) : obj :=
  <["updatedAt" := new_Date env]>
    (<["refreshTokens" :=
         VArr (filter (λ t, t ≠ token) l ++ [refreshToken (generateTokens config env u)])]>
       u).

(** [token] names the user [id] in its payload. *)
Definition issued_to {jw : Jsonwebtoken} (token : string) (id : value) : Prop :=
  exists key clock payload,
    jwt_verify token key clock = Return payload /\ get payload "id" = id.

(** A call that leaves the store of the adapter as it found it. *)
Definition keeps_store {S A} (m : Eff (World S) A) : Prop :=
  forall w r w', m w = (r, w') -> store w' = store w.

(** No hook is configured, or the configured one does not throw. *)
Definition hook_returns (hook : option Hook) : Prop :=
  forall h arg, hook = Some h -> h arg = Return tt.

(** The properties [updateProfile] may write. *)
Definition profileFields : list string := AuthService.allowedFields ++ ["updatedAt"].

(** The role of the user created by a call that resolved to [r] in [w']:
    as stored under the new id, and as returned. *)
Definition created_role (env : Env) (w' : World MemoryAdapter.users)
    (r : AuthResult) (role : value) : Prop :=
  (exists u, MemoryAdapter.users_get (store w') (VStr (random_uuid env)) = Some u
             /\ get u "role" = role)
  /\ (exists ru, user r = Some ru /\ get ru "role" = role).

(** What a completion returned, [d] standing for a throw. *)
Definition returned {A} (d : A) (c : completion A) : A :=
  match c with Return a => a | Throw _ => d end.

Definition no_result : AuthResult :=
  {| user := None; issued := {| accessToken := ""; refreshToken := "" |} |}.

(** The data of a success response. *)
Definition response_data (response : AuthController.Response) : AuthResult :=
  match response with
  | AuthController.sendSuccess data _ _ => data
  | AuthController.sendError _ _ => no_result
  end.

(** A property of the record stored under [id], if there is one. *)
Definition stored (w : World MemoryAdapter.users) (id k : string) : option value :=
  (fun u => get u k) <$> MemoryAdapter.users_get (store w) (VStr id).

(** The three token classes whose verifier checks the [type] claim, with
    the verifier, the expected [type], the key and the message for an
    expired token of each. *)
Inductive token_class : Type :=
| RefreshClass
| EmailVerificationClass
| PasswordResetClass.

Definition verifier {jw : Jsonwebtoken} (config : Config) (c : token_class)
  : Env -> string -> completion obj :=
  match c with
  | RefreshClass => verifyRefreshToken config
  | EmailVerificationClass => verifyEmailVerificationToken config
  | PasswordResetClass => verifyPasswordResetToken config
  end.

Definition class_type (c : token_class) : string :=
  match c with
  | RefreshClass => "refresh"
  | EmailVerificationClass => "email-verification"
  | PasswordResetClass => "password-reset"
  end.

Definition class_key (config : Config) (c : token_class) : string :=
  match c with
  | RefreshClass => refreshSecret (jwt config)
  | EmailVerificationClass | PasswordResetClass => secret (jwt config)
  end.

Definition class_expired (c : token_class) : string :=
  match c with
  | RefreshClass => "Refresh token has expired"
  | EmailVerificationClass => "Email verification token has expired"
  | PasswordResetClass => "Password reset token has expired"
  end.

(** The calls of the service, and the world a call leaves behind. *)
Inductive ServiceCall : Type :=
| Register (userData : obj)
| Login (email password : value)
| Logout (userId : value) (token : string)
| LogoutAll (userId : value)
| RefreshToken (token : string)
| VerifyEmail (token : string)
| ResendVerificationEmail (email : value)
| ForgotPassword (email : value)
| ResetPassword (token : string) (newPassword : value)
| ChangePassword (userId currentPassword newPassword : value)
| GetProfile (userId : value)
| UpdateProfile (userId : value) (updates : obj).

Section Perform.

Context {bc : Bcrypt} {jw : Jsonwebtoken}.
Variables (config this_config : Config).

Definition perform (env : Env) (call : ServiceCall)
    (w : World MemoryAdapter.users) : World MemoryAdapter.users :=
  let db := MemoryAdapter.adapter in
  match call with
  | Register userData =>
      snd (AuthService.register config db this_config env userData w)
  | Login email password =>
      snd (AuthService.login config db this_config env email password w)
  | Logout userId token =>
      snd (AuthService.logout db this_config env userId token w)
  | LogoutAll userId => snd (AuthService.logoutAll db this_config env userId w)
  | RefreshToken token => snd (AuthService.refreshToken config db env token w)
  | VerifyEmail token =>
      snd (AuthService.verifyEmail config db this_config env token w)
  | ResendVerificationEmail email =>
      snd (AuthService.resendVerificationEmail config db env email w)
  | ForgotPassword email => snd (AuthService.forgotPassword config db env email w)
  | ResetPassword token newPassword =>
      snd (AuthService.resetPassword config db this_config env token newPassword w)
  | ChangePassword userId currentPassword newPassword =>
      snd (AuthService.changePassword db env userId currentPassword newPassword w)
  | GetProfile userId => snd (AuthService.getProfile db userId w)
  | UpdateProfile userId updates =>
      snd (AuthService.updateProfile db env userId updates w)
  end.

(** A history of calls, each with the clock and the random inputs it ran
    under, from the first to the last. *)
Definition perform_all (calls : list (Env * ServiceCall))
    (w : World MemoryAdapter.users) : World MemoryAdapter.users :=
  foldl (fun w '(env, call) => perform env call w) w calls.

End Perform.

(** [register], once the look-up has found nobody and the password is
    hashed: the user [createUser] returns for the address [e] and the
    password [p], and what the method does after the refresh token is
    stored (the mail, the hook, the result). *)
Section Registered.

Context {bc : Bcrypt} {jw : Jsonwebtoken}.
Variables (config this_config : Config).

Definition created_user (env : Env) (userData : obj) (e p : string) : obj :=
  MemoryAdapter.new_user env
    (object
       [ ("email", VStr (lower e));
         ("password", VStr (bcrypt_hash p (bcrypt_salt env)));
         ("name", get userData "name");
         ("phone", get userData "phone");
         ("role", js_or (get userData "role") (VStr "user"));
         ("isEmailVerified",
           VBool (negb (emailVerification (features this_config)))) ])
    (lower e).

Definition after_created (env : Env) (nu : obj)
  : Eff (World MemoryAdapter.users) AuthResult :=
  run! (if emailVerification (features this_config) then
          sendVerificationEmail config env (get nu "email")
            (generateEmailVerificationToken config env (get nu "id"))
            (get nu "name")
        else
          try_catch (sendWelcomeEmail env (get nu "email") (get nu "name"))
            (fun err => console_error "Failed to send welcome email:")) in
  run! AuthService.trigger (onRegister (hooks this_config)) (Some nu) in
  ret {| user := sanitizeUser (Some nu); issued := generateTokens config env nu |}.

End Registered.

(** A stored record carries the key it is stored under as its [id] and an
    array as its [refreshTokens]. *)
Definition record_ok (k : string) (u : obj) : Prop :=
  get u "id" = VStr k /\ exists l, get u "refreshTokens" = VArr l.

(** The users map holds each key once, every record is in order, and no
    two records share an e-mail address. *)
Definition consistent (m : MemoryAdapter.users) : Prop :=
  NoDup m.*1
  /\ (forall k u, JsMap.get m k = Some u -> record_ok k u)
  /\ (forall k1 k2 u1 u2,
        JsMap.get m k1 = Some u1 -> JsMap.get m k2 = Some u2 ->
        get u1 "email" = get u2 "email" -> k1 = k2).

(** A call of the adapter, or of the service, that keeps a consistent
    users map consistent. *)
Definition preserves_db {A} (m : Eff MemoryAdapter.users A) : Prop :=
  forall s r s', m s = (r, s') -> consistent s -> consistent s'.

Definition preserves {A} (m : Eff (World MemoryAdapter.users) A) : Prop :=
  forall w r w', m w = (r, w') -> consistent (store w) -> consistent (store w').

(** The two errors of [login] the statements name. *)
Definition invalid_credentials : js_error :=
  AuthenticationError "Invalid email or password".
Definition account_deactivated : js_error :=
  AuthenticationError "Your account has been deactivated. Please contact support.".

(** * Properties *)

(** ** Stepping through the effect monad *)
Lemma bind_return {St A B} (m : Eff St A) (k : A -> Eff St B) s a s' :
  m s = (Return a, s') -> bind m k s = k a s'.
Proof. intros E. unfold bind. now rewrite E. Qed.

Lemma bind_throw {St A B} (m : Eff St A) (k : A -> Eff St B) s e s' :
  m s = (Throw e, s') -> bind m k s = (Throw e, s').
Proof. intros E. unfold bind. now rewrite E. Qed.

Lemma bind_inv {St A B} (m : Eff St A) (k : A -> Eff St B) s b s2 :
  bind m k s = (Return b, s2) ->
  exists a s1, m s = (Return a, s1) /\ k a s1 = (Return b, s2).
Proof.
  unfold bind. destruct (m s) as [[a|e] s1]; [eauto | discriminate].
Qed.

Lemma bind_lift {St A B} (c : completion A) (k : A -> Eff St B) s :
  bind (lift c) k s = match c with Return a => k a s | Throw e => (Throw e, s) end.
Proof. unfold bind, lift. now destruct c. Qed.

Lemma lift_eq {St A} (c : completion A) (s : St) : lift c s = (c, s).
Proof. reflexivity. Qed.

Lemma liftDb_eq {S A} (m : Eff S A) (w : World S) r s' :
  m (store w) = (r, s') ->
  liftDb m w = (r, mkWorld s' (outbox w) (console w)).
Proof. intros E. unfold liftDb. now rewrite E. Qed.

Lemma world_eta {S} (w : World S) : mkWorld (store w) (outbox w) (console w) = w.
Proof. now destruct w. Qed.

Ltac memory :=
  change (Base.createUser MemoryAdapter.adapter) with MemoryAdapter.createUser in *;
  change (Base.findUserById MemoryAdapter.adapter) with MemoryAdapter.findUserById in *;
  change (Base.findUserByEmail MemoryAdapter.adapter) with MemoryAdapter.findUserByEmail in *;
  change (Base.updateUser MemoryAdapter.adapter) with MemoryAdapter.updateUser in *;
  change (Base.addRefreshToken MemoryAdapter.adapter) with MemoryAdapter.addRefreshToken in *;
  change (Base.removeRefreshToken MemoryAdapter.adapter) with MemoryAdapter.removeRefreshToken in *;
  change (Base.removeAllRefreshTokens MemoryAdapter.adapter) with MemoryAdapter.removeAllRefreshTokens in *;
  change (Base.updateLastLogin MemoryAdapter.adapter) with MemoryAdapter.updateLastLogin in *.

(** [step E] runs the first call of a sequence, [E] being its outcome. *)
Tactic Notation "step" tactic3(tac) :=
  erewrite bind_return; [| solve [tac]]; cbv beta iota.
Ltac db_step lem := step (apply liftDb_eq; cbn [store]; apply lem).

Ltac eff_unfold :=
  unfold bind, try_catch, lift, liftDb, ret, throw, modify, gets,
         console_error, AuthService.trigger in *.

(** Closed, decidable statements are settled by running them. *)
Ltac run := compute_done.

(** Case analysis along a run that is known to have returned. *)
Ltac eff_inv H :=
  eff_unfold; cbn in H; repeat (case_match; cbn in *; try discriminate);
  simplify_eq.

(** ** Objects and the users map *)

Lemma get_insert_eq (o : obj) k v : get (<[k := v]> o) k = v.
Proof. unfold get. now rewrite lookup_insert_eq. Qed.

Lemma get_insert_ne (o : obj) k k' v : k ≠ k' -> get (<[k := v]> o) k' = get o k'.
Proof. intros. unfold get. now rewrite lookup_insert_ne. Qed.

Lemma get_array_lookup (o : obj) k l : get o k = VArr l -> o !! k = Some (VArr l).
Proof. unfold get. destruct (o !! k); cbn; congruence. Qed.

Lemma JsMap_get_set_eq {V} (m : JsMap.t V) k v : JsMap.get (JsMap.set m k v) k = Some v.
Proof.
  induction m as [|[k' v'] m IH]; cbn.
  - now rewrite bool_decide_eq_true_2.
  - destruct (bool_decide (k' = k)) eqn:E; cbn.
    + now rewrite bool_decide_eq_true_2.
    + now rewrite E.
Qed.

Lemma JsMap_get_set_ne {V} (m : JsMap.t V) k k' v :
  k ≠ k' -> JsMap.get (JsMap.set m k v) k' = JsMap.get m k'.
Proof.
  intros Hne. induction m as [|[k0 v0] m IH]; cbn.
  - now rewrite bool_decide_eq_false_2.
  - destruct (bool_decide (k0 = k)) eqn:E; cbn.
    + apply bool_decide_eq_true in E. subst k0.
      now rewrite !bool_decide_eq_false_2.
    + now rewrite IH.
Qed.

Lemma JsMap_set_set {V} (m : JsMap.t V) k v v' :
  JsMap.set (JsMap.set m k v) k v' = JsMap.set m k v'.
Proof.
  induction m as [|[k0 v0] m IH]; cbn.
  - now rewrite bool_decide_eq_true_2.
  - destruct (bool_decide (k0 = k)) eqn:E; cbn.
    + now rewrite bool_decide_eq_true_2.
    + now rewrite E, IH.
Qed.

Import MemoryAdapter.

Lemma users_get_Some m id u : users_get m id = Some u -> exists k, id = VStr k /\ JsMap.get m k = Some u.
Proof. destruct id; cbn; try discriminate. eauto. Qed.

Lemma users_get_set_eq m id u v : users_get m id = Some u -> users_get (users_set m id v) id = Some v.
Proof. intros (k & -> & _)%users_get_Some. apply JsMap_get_set_eq. Qed.

Lemma users_get_set_ne m id id' v : id ≠ id' -> users_get (users_set m id v) id' = users_get m id'.
Proof.
  intros Hne. destruct id; try reflexivity. destruct id'; try reflexivity.
  cbn. apply JsMap_get_set_ne. congruence.
Qed.

Lemma users_set_set m id v v' : users_set (users_set m id v) id v' = users_set m id v'.
Proof. destruct id; try reflexivity. apply JsMap_set_set. Qed.

(** ** The mutators of the in-memory adapter *)

Lemma findUserById_eq id m : findUserById id m = (Return (users_get m id), m).
Proof. reflexivity. Qed.


Lemma removeRefreshToken_found env id token m u l :
  users_get m id = Some u -> get u "refreshTokens" = VArr l ->
  removeRefreshToken env id token m =
    (Return tt, users_set m id (<["updatedAt" := new_Date env]>
        (<["refreshTokens" := VArr (filter (λ t, t ≠ token) l)]> u))).
Proof. intros Hu Hl. unfold removeRefreshToken. eff_unfold. now rewrite Hu, Hl. Qed.

Lemma removeRefreshToken_missing env id token m :
  users_get m id = None -> removeRefreshToken env id token m = (Return tt, m).
Proof. intros Hu. unfold removeRefreshToken. eff_unfold. now rewrite Hu. Qed.

Lemma addRefreshToken_found env id token m u l :
  users_get m id = Some u -> get u "refreshTokens" = VArr l ->
  addRefreshToken env id token m =
    (Return tt, users_set m id (<["updatedAt" := new_Date env]>
        (<["refreshTokens" := VArr (l ++ [token])]> u))).
Proof. intros Hu Hl. unfold addRefreshToken. eff_unfold. now rewrite Hu, Hl. Qed.

Lemma removeAllRefreshTokens_found env id m u :
  users_get m id = Some u ->
  removeAllRefreshTokens env id m =
    (Return tt, users_set m id (<["updatedAt" := new_Date env]>
        (<["refreshTokens" := VArr []]> u))).
Proof. intros Hu. unfold removeAllRefreshTokens. eff_unfold. now rewrite Hu. Qed.

Section Refresh.
Context {bc : Bcrypt} {jw : Jsonwebtoken}.
Variable config : Config.

Lemma insert_updatedAt_tokens (u : obj) d1 d2 a b :
  <["updatedAt" := d2]> (<["refreshTokens" := b]>
     (<["updatedAt" := d1]> (<["refreshTokens" := a]> u))) =
  <["updatedAt" := d2]> (<["refreshTokens" := b]> u).
Proof.
  apply map_eq. intros k.
  destruct (decide (k = "updatedAt")) as [->|]; [now rewrite !lookup_insert_eq|].
  rewrite !(lookup_insert_ne _ "updatedAt") by congruence.
  destruct (decide (k = "refreshTokens")) as [->|]; [now rewrite !lookup_insert_eq|].
  now rewrite !lookup_insert_ne by congruence.
Qed.

Lemma refreshToken_accepts env token (w : World users) decoded id u l :
  verifyRefreshToken config env token = Return decoded ->
  get decoded "id" = id ->
  users_get (store w) id = Some u ->
  get u "id" = id ->
  get u "refreshTokens" = VArr l ->
  token ∈ l ->
  AuthService.refreshToken config adapter env token w =
    (Return {| user := sanitizeUser (Some u); issued := generateTokens config env u |},
     mkWorld (users_set (store w) id (rotated config env token u l)) (outbox w) (console w)).
Proof.
  intros Hv Hid Hu Huid Hl Hin.
  unfold AuthService.refreshToken. memory.
  rewrite bind_lift, Hv.
  db_step findUserById_eq. rewrite Hid, Hu, Hl. cbn [truthy negb].
  step (rewrite bind_lift; reflexivity).
  rewrite bool_decide_eq_true_2 by assumption. cbn [negb].
  rewrite Huid.
  step (apply liftDb_eq; apply (removeRefreshToken_found _ _ _ _ _ _ Hu Hl)).
  step (apply liftDb_eq; cbn [store]; eapply addRefreshToken_found;
        [ eapply users_get_set_eq, Hu
        | rewrite get_insert_ne by discriminate; apply get_insert_eq ]).
  unfold ret. cbn [store outbox console]. rewrite users_set_set. unfold rotated.
  now rewrite insert_updatedAt_tokens.
Qed.

Lemma refreshToken_rejects_absent env token (w : World users) decoded id u l :
  verifyRefreshToken config env token = Return decoded ->
  get decoded "id" = id ->
  users_get (store w) id = Some u ->
  get u "refreshTokens" = VArr l ->
  token ∉ l ->
  AuthService.refreshToken config adapter env token w =
    (Throw (AuthenticationError "Invalid refresh token"), w).
Proof.
  intros Hv Hid Hu Hl Hin.
  unfold AuthService.refreshToken. memory.
  rewrite bind_lift, Hv.
  db_step findUserById_eq. rewrite Hid, Hu, Hl. cbn [truthy negb].
  step (rewrite bind_lift; reflexivity).
  rewrite bool_decide_eq_false_2 by assumption. cbn [negb].
  unfold throw. now destruct w.
Qed.

Lemma refreshToken_verifier_throws env token (w : World users) e :
  verifyRefreshToken config env token = Throw e ->
  AuthService.refreshToken config adapter env token w = (Throw e, w).
Proof.
  intros Hv. unfold AuthService.refreshToken.
  apply bind_throw. unfold lift. now rewrite Hv.
Qed.
End Refresh.

(** ** Calls that leave the store alone *)

Lemma keeps_store_ret {S A} (a : A) : keeps_store (S:=S) (ret a).
Proof. intros w r w' [= <- <-]. reflexivity. Qed.

Lemma keeps_store_throw {S A} e : keeps_store (S:=S) (A:=A) (throw e).
Proof. intros w r w' [= <- <-]. reflexivity. Qed.

Lemma keeps_store_lift {S A} (c : completion A) : keeps_store (S:=S) (lift c).
Proof. intros w r w' [= <- <-]. reflexivity. Qed.

Lemma keeps_store_console_error {S} line : keeps_store (S:=S) (console_error line).
Proof. intros w r w' [= <- <-]. reflexivity. Qed.

Lemma keeps_store_bind {S A B} (m : Eff (World S) A) (k : A -> Eff (World S) B) :
  keeps_store m -> (forall a, keeps_store (k a)) -> keeps_store (bind m k).
Proof.
  intros Hm Hk w r w'. unfold bind.
  destruct (m w) as [[a|e] w1] eqn:E; intros E'.
  - rewrite (Hk _ _ _ _ E'). eauto.
  - injection E' as <- <-. eauto.
Qed.

Lemma keeps_store_try_catch {S A} (m : Eff (World S) A) h :
  keeps_store m -> (forall e, keeps_store (h e)) -> keeps_store (try_catch m h).
Proof.
  intros Hm Hh w r w'. unfold try_catch.
  destruct (m w) as [[a|e] w1] eqn:E; intros E'.
  - injection E' as <- <-. eauto.
  - rewrite (Hh _ _ _ _ E'). eauto.
Qed.

Lemma keeps_store_sendEmail {S} env to subject html :
  keeps_store (S:=S) (sendEmail env to subject html).
Proof.
  unfold sendEmail. case_match; [apply keeps_store_throw|].
  destruct (smtp_failure env).
  - apply keeps_store_bind; [apply keeps_store_console_error|].
    intros _. apply keeps_store_throw.
  - intros w r w' [= <- <-]. reflexivity.
Qed.

Lemma keeps_store_trigger {S} hook user : keeps_store (S:=S) (AuthService.trigger hook user).
Proof. destruct hook; [apply keeps_store_lift | apply keeps_store_ret]. Qed.

(** A mail sent on a best-effort basis never fails the call. *)
Lemma best_effort_returns {S} env to subject html line (w : World S) :
  exists w', try_catch (sendEmail env to subject html)
               (fun _ => console_error line) w = (Return tt, w')
             /\ store w' = store w.
Proof.
  destruct (try_catch (sendEmail env to subject html)
              (fun _ => console_error line) w) as [r w'] eqn:E.
  assert (store w' = store w) as Hs.
  { revert E. apply keeps_store_try_catch; [apply keeps_store_sendEmail|].
    intros _. apply keeps_store_console_error. }
  exists w'. split; [|exact Hs].
  revert E. unfold try_catch.
  destruct (sendEmail env to subject html w) as [[[]|e] w1].
  - now intros [= <- <-].
  - now intros [= <- <-].
Qed.

(** ** The other calls of the in-memory adapter *)

Lemma updateUser_found env id updates m u :
  users_get m id = Some u ->
  updateUser env id updates m =
    (Return (<["updatedAt" := new_Date env]> (<["id" := get u "id"]> (spread u updates))),
     users_set m id
       (<["updatedAt" := new_Date env]> (<["id" := get u "id"]> (spread u updates)))).
Proof. intros Hu. unfold updateUser. eff_unfold. now rewrite Hu. Qed.

Lemma updateUser_missing env id updates m :
  users_get m id = None ->
  updateUser env id updates m = (Throw (Error "User not found"), m).
Proof. intros Hu. unfold updateUser. eff_unfold. now rewrite Hu. Qed.

Section Revocation.
Context {bc : Bcrypt} {jw : Jsonwebtoken}.
Variable config : Config.

Lemma verify_typed_Return env key type token d :
  verify_typed env key type token = Return d ->
  jwt_verify token key (now_s env) = Return d /\ is_str (get d "type") type = true.
Proof.
  unfold verify_typed, cbind.
  destruct (jwt_verify token key (now_s env)) as [d'|e]; [|discriminate].
  destruct (is_str (get d' "type") type) eqn:E; cbn; [|discriminate].
  intros [= <-]. auto.
Qed.

Lemma rethrow_jwt_throws expired invalid e : exists e', rethrow_jwt expired invalid e = Throw e'.
Proof. unfold rethrow_jwt. repeat case_match; eauto. Qed.

Lemma verifyRefreshToken_Return env token d :
  verifyRefreshToken config env token = Return d ->
  jwt_verify token (refreshSecret (jwt config)) (now_s env) = Return d
  /\ is_str (get d "type") "refresh" = true.
Proof.
  unfold verifyRefreshToken, ccatch. intros E. apply verify_typed_Return.
  destruct (verify_typed env (refreshSecret (jwt config)) "refresh" token) as [d'|e];
    [exact E|].
  destruct (rethrow_jwt_throws "Refresh token has expired" "Invalid refresh token" e)
    as [e' He]. congruence.
Qed.

Lemma refreshToken_not_in_set env token (w : World users) id u l :
  users_get (store w) id = Some u ->
  get u "refreshTokens" = VArr l ->
  token ∉ l ->
  issued_to token id ->
  AuthService.refreshToken config adapter env token w =
    (match verifyRefreshToken config env token with
     | Return _ => Throw (AuthenticationError "Invalid refresh token")
     | Throw e => Throw e
     end, w).
Proof.
  intros Hu Hl Hn (key & clock & payload & Hp & Hid).
  destruct (verifyRefreshToken config env token) as [d|e] eqn:Hv.
  - destruct (verifyRefreshToken_Return _ _ _ Hv) as [Hd _].
    rewrite (jwt_verify_payload _ _ _ _ _ _ _ Hd Hp) in Hv.
    eapply refreshToken_rejects_absent; eauto.
  - now apply refreshToken_verifier_throws.
Qed.

Lemma resetPassword_clears this_config env token newPassword (w w' : World users) decoded id u :
  verifyPasswordResetToken config env token = Return decoded ->
  get decoded "id" = id ->
  users_get (store w) id = Some u ->
  get u "id" = id ->
  AuthService.resetPassword config adapter this_config env token newPassword w = (Return tt, w') ->
  exists u', users_get (store w') id = Some u' /\ get u' "refreshTokens" = VArr [].
Proof.
  intros Hv Hid Hu Huid. unfold AuthService.resetPassword. memory.
  rewrite bind_lift, Hv.
  db_step findUserById_eq. rewrite Hid, Hu.
  rewrite bind_lift. destruct (hashPassword env newPassword) as [hp|e]; [|discriminate].
  rewrite Huid.
  step (apply liftDb_eq; apply (updateUser_found _ _ _ _ _ Hu)).
  step (apply liftDb_eq; cbn [store]; eapply removeAllRefreshTokens_found;
        eapply users_get_set_eq, Hu).
  unfold sendPasswordChangedEmail.
  match goal with |- context [bind (try_catch _ _) _ ?w0] =>
    destruct (best_effort_returns env (get u "email") "Password Changed Successfully"
                "<password-changed>" "Failed to send password changed email:" w0)
      as (w1 & E1 & Hs1) end.
  rewrite (bind_return _ _ _ _ _ E1).
  intros E. apply keeps_store_trigger in E. rewrite E, Hs1. cbn [store].
  eexists. split.
  - eapply users_get_set_eq, users_get_set_eq, Hu.
  - rewrite get_insert_ne by discriminate. apply get_insert_eq.
Qed.

Lemma changePassword_clears env currentPassword newPassword (w w' : World users) id u :
  users_get (store w) id = Some u ->
  get u "id" = id ->
  AuthService.changePassword adapter env id currentPassword newPassword w = (Return tt, w') ->
  exists u', users_get (store w') id = Some u' /\ get u' "refreshTokens" = VArr [].
Proof.
  intros Hu Huid. unfold AuthService.changePassword. memory.
  db_step findUserById_eq. rewrite Hu.
  rewrite bind_lift.
  destruct (comparePassword currentPassword (get u "password")) as [[]|e];
    cbn [negb]; [|discriminate|discriminate].
  rewrite bind_lift. destruct (hashPassword env newPassword) as [hp|e]; [|discriminate].
  rewrite Huid.
  step (apply liftDb_eq; apply (updateUser_found _ _ _ _ _ Hu)).
  step (apply liftDb_eq; cbn [store]; eapply removeAllRefreshTokens_found;
        eapply users_get_set_eq, Hu).
  unfold sendPasswordChangedEmail.
  intros E. apply keeps_store_try_catch in E;
    [| apply keeps_store_sendEmail | intros _; apply keeps_store_console_error].
  rewrite E. cbn [store].
  eexists. split.
  - eapply users_get_set_eq, users_get_set_eq, Hu.
  - rewrite get_insert_ne by discriminate. apply get_insert_eq.
Qed.
End Revocation.

(** ** logout *)

Lemma filter_absent (token : string) (l : list string) :
  token ∉ l -> filter (λ t, t ≠ token) l = l.
Proof.
  induction l as [|x l IH]; [reflexivity|].
  intros Hn. apply not_elem_of_cons in Hn as [Hx Hl].
  rewrite filter_cons_True by congruence. now rewrite IH.
Qed.

Lemma insert_tokens_same (u : obj) l :
  get u "refreshTokens" = VArr l -> <["refreshTokens" := VArr l]> u = u.
Proof. intros E. apply insert_id. now apply get_array_lookup. Qed.

Section Logout.
Variable this_config : Config.

Lemma logout_tail (w : World users) userId :
  hook_returns (onLogout (hooks this_config)) ->
  match onLogout (hooks this_config) with
  | Some h =>
      let! user := liftDb (Base.findUserById adapter userId) in
      lift (h user)
  | None => ret tt
  end w = (Return tt, w).
Proof.
  intros Hh. destruct (onLogout (hooks this_config)) as [h|] eqn:E; [|reflexivity].
  memory. db_step findUserById_eq. rewrite world_eta.
  unfold lift. now rewrite (Hh h _ eq_refl).
Qed.

Lemma logout_missing_user env userId token (w : World users) :
  hook_returns (onLogout (hooks this_config)) ->
  users_get (store w) userId = None ->
  AuthService.logout adapter this_config env userId token w = (Return tt, w).
Proof.
  intros Hh Hu. unfold AuthService.logout. memory.
  step (apply liftDb_eq; apply (removeRefreshToken_missing _ _ _ _ Hu)).
  rewrite world_eta. now apply logout_tail.
Qed.

Lemma logout_absent env userId token (w : World users) u l :
  hook_returns (onLogout (hooks this_config)) ->
  users_get (store w) userId = Some u ->
  get u "refreshTokens" = VArr l ->
  token ∉ l ->
  AuthService.logout adapter this_config env userId token w =
    (Return tt,
     mkWorld (users_set (store w) userId (<["updatedAt" := new_Date env]> u))
             (outbox w) (console w)).
Proof.
  intros Hh Hu Hl Hn. unfold AuthService.logout. memory.
  step (apply liftDb_eq; apply (removeRefreshToken_found _ _ _ _ _ _ Hu Hl)).
  rewrite (filter_absent _ _ Hn), (insert_tokens_same _ _ Hl).
  now apply logout_tail.
Qed.
End Logout.

(** ** updateProfile *)

Lemma filterUpdates_lookup updates k :
  k ∉ AuthService.allowedFields -> AuthService.filterUpdates updates !! k = None.
Proof.
  unfold AuthService.filterUpdates, AuthService.allowedFields. cbn [foldl].
  intros Hk.
  assert (forall f (o : obj) v, f ∈ AuthService.allowedFields -> o !! k = None ->
            (<[f := v]> o) !! k = None) as Hins.
  { intros f o v Hf Ho. rewrite lookup_insert_ne; [assumption|].
    intros ->. now apply Hk. }
  unfold AuthService.allowedFields in Hins.
  repeat match goal with
  | |- context [if ?c then _ else _] => destruct c
  end;
  repeat (apply Hins; [set_solver|]); apply lookup_empty.
Qed.

Lemma get_spread_untouched (u updates : obj) k :
  updates !! k = None -> get (spread u updates) k = get u k.
Proof. intros E. unfold get, spread. now rewrite lookup_union_r. Qed.

Lemma updateProfile_frame_store env userId updates (w : World users) id u :
  users_get (store w) id = Some u ->
  exists u',
    users_get (store (snd (AuthService.updateProfile adapter env userId updates w))) id = Some u'
    /\ forall k, k ∉ profileFields -> get u' k = get u k.
Proof.
  intros Hu. unfold AuthService.updateProfile. memory.
  destruct (users_get (store w) userId) as [u0|] eqn:E0.
  - step (apply liftDb_eq; apply (updateUser_found _ _ _ _ _ E0)).
    cbn [snd ret store].
    destruct (decide (userId = id)) as [->|Hne].
    + rewrite (users_get_set_eq _ _ _ _ E0). eexists. split; [reflexivity|].
      intros k Hk. assert (u0 = u) as -> by congruence.
      rewrite get_insert_ne by (intros <-; apply Hk; set_solver).
      destruct (decide (k = "id")) as [->|Hid]; [apply get_insert_eq|].
      rewrite get_insert_ne by congruence.
      apply get_spread_untouched, filterUpdates_lookup.
      intros Hin. apply Hk. apply elem_of_app. now left.
    + rewrite users_get_set_ne by assumption. eauto.
  - erewrite bind_throw;
      [| apply liftDb_eq; apply (updateUser_missing _ _ _ _ E0)].
    cbn [snd store]. eauto.
Qed.

(** ** register *)

Lemma findUserByEmail_store email (m : users) r m' :
  findUserByEmail email m = (r, m') -> m' = m.
Proof. unfold findUserByEmail, findUserByEmailSync. now intros [= _ <-]. Qed.

Lemma createUser_Return env userData (m m' : users) user :
  createUser env userData m = (Return user, m') ->
  exists email, user = new_user env userData email
    /\ m' = JsMap.set m (random_uuid env) user.
Proof.
  unfold createUser. rewrite bind_lift.
  destruct (toLowerCase (get userData "email")) as [email|e]; [|discriminate].
  intros E. apply bind_inv in E as (existing & m1 & E1 & E).
  apply findUserByEmail_store in E1 as ->.
  destruct existing; [discriminate|].
  unfold bind, modify, ret in E. cbn in E. injection E as <- <-.
  exists email. split; [reflexivity|]. reflexivity.
Qed.

Lemma new_user_id env userData email :
  get (new_user env userData email) "id" = VStr (random_uuid env).
Proof. reflexivity. Qed.

Lemma new_user_role env userData email :
  get (new_user env userData email) "role" = js_or (get userData "role") (VStr "user").
Proof. reflexivity. Qed.

Lemma new_user_tokens env userData email :
  get (new_user env userData email) "refreshTokens" = VArr [].
Proof. reflexivity. Qed.

Lemma js_or_idem a b : js_or (js_or a b) b = js_or a b.
Proof. unfold js_or. destruct (truthy a) eqn:E; [now rewrite E|]. now destruct (truthy b). Qed.

Section Register.
Context {bc : Bcrypt} {jw : Jsonwebtoken}.
Variables (config this_config : Config).

Lemma register_creates_role env userData (w w' : World users) r :
  AuthService.register config adapter this_config env userData w = (Return r, w') ->
  created_role env w' r (js_or (get userData "role") (VStr "user")).
Proof.
  unfold AuthService.register. memory. intros E.
  apply bind_inv in E as (existing & w1 & E1 & E).
  destruct existing; [discriminate|].
  rewrite bind_lift in E.
  destruct (hashPassword env (get userData "password")) as [hp|?]; [|discriminate].
  rewrite bind_lift in E.
  destruct (toLowerCase (get userData "email")) as [email|?]; [|discriminate].
  apply bind_inv in E as (u & wc & Ec0 & E).
  unfold liftDb in Ec0.
  destruct (createUser env _ (store w1)) as [[u'|?] m2] eqn:Ec; [|discriminate].
  injection Ec0 as -> <-.
  apply createUser_Return in Ec as (email' & -> & ->).
  rewrite new_user_id in E.
  apply bind_inv in E as ([] & w2 & E2 & E).
  erewrite liftDb_eq in E2; cycle 1.
  { cbn [store]. eapply addRefreshToken_found.
    - apply JsMap_get_set_eq.
    - apply new_user_tokens. }
  injection E2 as E2.
  apply bind_inv in E as ([] & w3 & E3 & E).
  apply bind_inv in E as ([] & w4 & E4 & E).
  injection E as <- <-.
  assert (store w3 = store w2) as Hs3.
  { revert E3. destruct (emailVerification (features this_config)).
    - apply keeps_store_sendEmail.
    - apply keeps_store_try_catch;
        [apply keeps_store_sendEmail | intros _; apply keeps_store_console_error]. }
  apply keeps_store_trigger in E4.
  split.
  - rewrite E4, Hs3, <- E2. cbn [store]. eexists. split; [apply JsMap_get_set_eq|].
    rewrite !get_insert_ne by discriminate.
    rewrite new_user_role. change (get (object _) "role") with
      (js_or (get userData "role") (VStr "user")). apply js_or_idem.
  - eexists. split; [reflexivity|]. cbn [sanitizeUser user].
    unfold get. rewrite !lookup_delete_ne by discriminate.
    change (default VUndefined (new_user env _ email' !! "role"))
      with (js_or (js_or (get userData "role") (VStr "user")) (VStr "user")).
    apply js_or_idem.
Qed.
End Register.

(** ** The register route *)

Lemma validate_strips schema data value k :
  Validation.validate schema data = Some value ->
  k ∉ map fst schema -> value !! k = None.
Proof.
  revert value. induction schema as [|[k0 ks] schema IH]; cbn; intros value.
  - intros [= <-] _. apply lookup_empty.
  - destruct (Validation.validate schema data) as [acc|]; [|discriminate].
    intros E Hk. apply not_elem_of_cons in Hk as [Hne Hk].
    specialize (IH acc eq_refl Hk).
    destruct (is_defined (get data k0)).
    + destruct (Validation.key_rule ks (get data k0)); [|discriminate].
      injection E as <-. now rewrite lookup_insert_ne.
    + destruct (Validation.key_required ks); [discriminate|]. now injection E as <-.
Qed.

(** ** login *)

Section Login.
Context {bc : Bcrypt} {jw : Jsonwebtoken} {S : Type}.
Variables (config : Config) (db : Base.Database S) (this_config : Config).

Lemma login_no_user env email password (w : World S) s' :
  Base.findUserByEmail db email (store w) = (Return None, s') ->
  AuthService.login config db this_config env email password w =
    (Throw invalid_credentials, mkWorld s' (outbox w) (console w)).
Proof.
  intros E. unfold AuthService.login.
  now step (apply liftDb_eq; exact E).
Qed.

Lemma login_deactivated env email password (w : World S) s' u :
  Base.findUserByEmail db email (store w) = (Return (Some u), s') ->
  truthy (get u "isActive") = false ->
  AuthService.login config db this_config env email password w =
    (Throw account_deactivated, mkWorld s' (outbox w) (console w)).
Proof.
  intros E Ha. unfold AuthService.login.
  step (apply liftDb_eq; exact E). now rewrite Ha.
Qed.

Lemma login_wrong_password env email (w : World S) s' u p h :
  Base.findUserByEmail db email (store w) = (Return (Some u), s') ->
  truthy (get u "isActive") = true ->
  p ≠ "" -> get u "password" = VStr h -> h ≠ "" ->
  bcrypt_compare p h = false ->
  AuthService.login config db this_config env email (VStr p) w =
    (Throw invalid_credentials, mkWorld s' (outbox w) (console w)).
Proof.
  intros E Ha Hp Hh Hhne Hc. unfold AuthService.login.
  step (apply liftDb_eq; exact E). rewrite Ha. cbn [negb].
  rewrite bind_lift, Hh. unfold comparePassword. cbn [truthy].
  rewrite !bool_decide_eq_false_2 by assumption. cbn [negb].
  now rewrite Hc.
Qed.
End Login.

(** ** The typed verifiers *)

Section Verifiers.
Context {jw : Jsonwebtoken}.
Variable config : Config.

Lemma verify_typed_mismatch env key type token d :
  jwt_verify token key (now_s env) = Return d ->
  is_str (get d "type") type = false ->
  verify_typed env key type token = Throw (Error "Invalid token type").
Proof. intros E Ht. unfold verify_typed. rewrite E. cbn. now rewrite Ht. Qed.

Lemma verify_typed_throws env key type token e :
  jwt_verify token key (now_s env) = Throw e ->
  verify_typed env key type token = Throw e.
Proof. intros E. unfold verify_typed. now rewrite E. Qed.

Lemma rethrow_expired expired invalid e :
  err_name e = "TokenExpiredError" ->
  rethrow_jwt expired invalid e = Throw (Error expired).
Proof. intros E. unfold rethrow_jwt. now rewrite E. Qed.
End Verifiers.

(** ** Sanitized results *)

Lemma sanitizeUser_sanitized (u : obj) : sanitized (sanitizeUser (Some u)).
Proof.
  eexists. split; [reflexivity|]. split.
  - rewrite lookup_delete_ne by discriminate. apply lookup_delete_eq.
  - apply lookup_delete_eq.
Qed.

Section Sanitized.
Context {bc : Bcrypt} {jw : Jsonwebtoken} {S : Type}.
Variables (config : Config) (db : Base.Database S) (this_config : Config).

Lemma register_sanitized env userData (w w' : World S) r :
  AuthService.register config db this_config env userData w = (Return r, w') ->
  sanitized (user r).
Proof.
  unfold AuthService.register, sendVerificationEmail, sendWelcomeEmail, sendEmail.
  intros E. eff_inv E; apply sanitizeUser_sanitized.
Qed.

Lemma login_sanitized env email password (w w' : World S) r :
  AuthService.login config db this_config env email password w = (Return r, w') ->
  sanitized (user r).
Proof.
  unfold AuthService.login.
  intros E. eff_inv E; apply sanitizeUser_sanitized.
Qed.

Lemma refreshToken_sanitized env token (w w' : World S) r :
  AuthService.refreshToken config db env token w = (Return r, w') ->
  sanitized (user r).
Proof.
  unfold AuthService.refreshToken.
  intros E. eff_inv E; apply sanitizeUser_sanitized.
Qed.

Lemma verifyEmail_sanitized env token (w w' : World S) r :
  AuthService.verifyEmail config db this_config env token w = (Return r, w') ->
  sanitized r.
Proof.
  unfold AuthService.verifyEmail, sendWelcomeEmail, sendEmail.
  intros E. eff_inv E; apply sanitizeUser_sanitized.
Qed.

Lemma getProfile_sanitized userId (w w' : World S) r :
  AuthService.getProfile db userId w = (Return r, w') ->
  sanitized r.
Proof.
  unfold AuthService.getProfile.
  intros E. eff_inv E; apply sanitizeUser_sanitized.
Qed.

Lemma updateProfile_sanitized env userId updates (w w' : World S) r :
  AuthService.updateProfile db env userId updates w = (Return r, w') ->
  sanitized r.
Proof.
  unfold AuthService.updateProfile.
  intros E. eff_inv E; apply sanitizeUser_sanitized.
Qed.
End Sanitized.

(** ** Mail dispatch *)

Section ForgotPassword.
Context {bc : Bcrypt} {jw : Jsonwebtoken} {S : Type}.
Variables (config : Config) (db : Base.Database S).

Lemma sendEmail_cases env to subject html (w : World S) :
  (exists w', sendEmail (S:=S) env to subject html w = (Return tt, w')) \/
  (exists e w', sendEmail (S:=S) env to subject html w = (Throw e, w')).
Proof.
  unfold sendEmail. case_match.
  - right. eauto.
  - destruct (smtp_failure env); [right | left]; cbn; eauto.
Qed.

Lemma reset_link_not_empty (url token : string) :
  url +:+ "/reset-password?token=" +:+ token ≠ "".
Proof. destruct url; discriminate. Qed.

End ForgotPassword.

(** * The claims *)

(** ** C1: deactivated accounts and the refresh flow *)

(** C1. The claim asks that a valid, unexpired refresh token found in the
    persisted set of a user whose [isActive] flag is false be refused,
    with no new token stored or returned.  [login] has that check;
    [refreshToken] has none.  On the deactivated user [u1] holding the token
    signed at second 1000, the call made at second 5000 returns a new pair
    and stores the new refresh token in place of the old one. *)
Theorem refreshToken_serves_deactivated_user :
  let u := Scenario.alice false [Scenario.token_1000] in
  let out := Scenario.refreshToken (Reference.env_at 5000000 "")
               Scenario.token_1000 (Scenario.world_of u) in
  let r := returned no_result (fst out) in
  truthy (get u "isActive") = false
  /\ is_return (fst out) = true
  /\ refreshToken (issued r) ≠ Scenario.token_1000
  /\ stored (snd out) "u1" "refreshTokens" = Some (VArr [refreshToken (issued r)])
  /\ stored (snd out) "u1" "isActive" = Some (VBool false).
Proof.
  cbv zeta. split; [run|]. split; [run|].
  split; [run|]. split; run.
Qed.

(** ** C2: the message of a failed login *)

(** C2, as amended.  Let the lookup by e-mail have returned [found].  When
    no user was found, [login] throws [AuthenticationError] with the
    message "Invalid email or password".  When a user was found whose
    [isActive] is truthy, a non-empty password that bcrypt does not match
    against the stored non-empty hash gets the same error.  When the user
    found is deactivated, [login] throws the deactivation message before
    it looks at the password.  In each case nothing but the lookup has
    touched the world. *)
Theorem login_invalid_credentials_message {bc : Bcrypt} {jw : Jsonwebtoken}
    {S : Type} (config : Config) (db : Base.Database S) (this_config : Config)
    (env : Env) (email password : value) (w : World S)
    (found : option obj) (s' : S) :
  Base.findUserByEmail db email (store w) = (Return found, s') ->
  let after := mkWorld s' (outbox w) (console w) in
  let out := AuthService.login config db this_config env email password w in
  match found with
  | None => out = (Throw invalid_credentials, after)
  | Some u =>
      if truthy (get u "isActive") then
        forall p h,
          password = VStr p -> p ≠ "" ->
          get u "password" = VStr h -> h ≠ "" ->
          bcrypt_compare p h = false ->
          out = (Throw invalid_credentials, after)
      else out = (Throw account_deactivated, after)
  end.
Proof.
  intros E after out. subst after out. destruct found as [u|].
  - destruct (truthy (get u "isActive")) eqn:Ha.
    + intros p h -> Hp Hh Hhne Hc. eapply login_wrong_password; eauto.
    + eapply login_deactivated; eauto.
  - now apply login_no_user.
Qed.

Lemma login_invalid_credentials_message_witness :
  fst (Scenario.login (Reference.env_at 2000000 "") (VStr "nobody@example.com")
         (VStr "Str0ng!Pass") (Scenario.world_of (Scenario.alice true [])))
    = Throw invalid_credentials
  /\ fst (Scenario.login (Reference.env_at 2000000 "") (VStr "Alice@Example.com")
            (VStr "Wr0ng!Pass") (Scenario.world_of (Scenario.alice true [])))
       = Throw invalid_credentials
  /\ fst (Scenario.login (Reference.env_at 2000000 "") (VStr "Alice@Example.com")
            (VStr "Str0ng!Pass") (Scenario.world_of (Scenario.alice false [])))
       = Throw account_deactivated.
Proof.
  split; [|split].
  - pose proof (login_invalid_credentials_message (bc := Reference.bcrypt)
      (jw := Reference.jsonwebtoken) Reference.config MemoryAdapter.adapter
      Reference.config (Reference.env_at 2000000 "") (VStr "nobody@example.com")
      (VStr "Str0ng!Pass") (Scenario.world_of (Scenario.alice true []))
      None _ eq_refl) as E.
    cbv zeta in E. unfold Scenario.login. now rewrite E.
  - pose proof (login_invalid_credentials_message (bc := Reference.bcrypt)
      (jw := Reference.jsonwebtoken) Reference.config MemoryAdapter.adapter
      Reference.config (Reference.env_at 2000000 "") (VStr "Alice@Example.com")
      (VStr "Wr0ng!Pass") (Scenario.world_of (Scenario.alice true []))
      (Some (Scenario.alice true [])) _ eq_refl) as E.
    cbv zeta beta iota in E. change (truthy _) with true in E. cbv iota in E.
    unfold Scenario.login.
    rewrite (E "Wr0ng!Pass" (Reference.hash "Str0ng!Pass" "salt"));
      first [run | discriminate].
  - pose proof (login_invalid_credentials_message (bc := Reference.bcrypt)
      (jw := Reference.jsonwebtoken) Reference.config MemoryAdapter.adapter
      Reference.config (Reference.env_at 2000000 "") (VStr "Alice@Example.com")
      (VStr "Str0ng!Pass") (Scenario.world_of (Scenario.alice false []))
      (Some (Scenario.alice false [])) _ eq_refl) as E.
    cbv zeta beta iota in E. change (truthy _) with false in E. cbv iota in E.
    unfold Scenario.login. now rewrite E.
Defined.

(** C2, the claim as stated fails: the user exists and the password does
    not verify against the stored hash, yet the message is not "Invalid
    email or password", because the account is deactivated. *)
Lemma login_deactivated_wrong_password :
  let u := Scenario.alice false [] in
  let out := Scenario.login (Reference.env_at 2000000 "")
               (VStr "alice@example.com") (VStr "Wr0ng!Pass") (Scenario.world_of u) in
  get u "email" = VStr "alice@example.com" /\
  comparePassword (bc := Reference.bcrypt) (VStr "Wr0ng!Pass") (get u "password")
    = Return false /\
  exists e, fst out = Throw e /\ err_name e = "AuthenticationError" /\
            err_message e ≠ "Invalid email or password".
Proof.
  cbv zeta. split; [run|]. split; [run|].
  eexists. split; [vm_compute; reflexivity|]. split; [reflexivity|discriminate].
Qed.

(** Why the password has to be non-empty: [comparePassword] throws a plain
    [Error] on an empty password, before bcrypt is asked. *)
Example login_empty_password_plain_error :
  fst (Scenario.login (Reference.env_at 2000000 "") (VStr "alice@example.com")
         (VStr "") (Scenario.world_of (Scenario.alice true [])))
  = Throw (Error "Password must be a non-empty string").
Proof. run. Qed.

(** ** C3: rotation *)

(** C3, as amended.  Let [token] verify as a refresh token naming [id], the
    record stored under [id] carry that id, and its [refreshTokens] be an
    array [l] that contains [token].  Then [refreshToken] returns the
    sanitized user with a newly signed pair, and the stored array becomes
    [l] without any occurrence of [token], followed by the new refresh
    token [fresh].  If [fresh] differs from [token], any later
    [refreshToken token] fails and leaves the world as it is: with
    [AuthenticationError "Invalid refresh token"] while [token] still
    verifies, and with the error of the verifier otherwise. *)
Theorem refreshToken_rotation {jw : Jsonwebtoken} (config : Config) (env : Env)
    (token : string) (w : World MemoryAdapter.users)
    (decoded : obj) (id : value) (u : obj) (l : list string) :
  verifyRefreshToken config env token = Return decoded ->
  get decoded "id" = id ->
  MemoryAdapter.users_get (store w) id = Some u ->
  get u "id" = id ->
  get u "refreshTokens" = VArr l ->
  token ∈ l ->
  let fresh := refreshToken (generateTokens config env u) in
  exists w' u',
    AuthService.refreshToken config MemoryAdapter.adapter env token w =
      (Return {| user := sanitizeUser (Some u);
                 issued := generateTokens config env u |}, w')
    /\ MemoryAdapter.users_get (store w') id = Some u'
    /\ get u' "refreshTokens" = VArr (filter (λ t, t ≠ token) l ++ [fresh])
    /\ (fresh ≠ token ->
        forall env2,
          AuthService.refreshToken config MemoryAdapter.adapter env2 token w' =
            (match verifyRefreshToken config env2 token with
             | Return _ => Throw (AuthenticationError "Invalid refresh token")
             | Throw e => Throw e
             end, w')).
Proof.
  intros Hv Hid Hu Huid Hl Hin fresh.
  eexists. exists (rotated config env token u l).
  split; [eapply refreshToken_accepts; eauto|].
  assert (MemoryAdapter.users_get
            (MemoryAdapter.users_set (store w) id (rotated config env token u l)) id
          = Some (rotated config env token u l)) as Hu'
    by (eapply users_get_set_eq; eauto).
  assert (get (rotated config env token u l) "refreshTokens"
          = VArr (filter (λ t, t ≠ token) l ++ [fresh])) as Hl'.
  { unfold rotated. rewrite get_insert_ne by discriminate. apply get_insert_eq. }
  split; [exact Hu'|]. split; [exact Hl'|].
  intros Hfresh env2.
  eapply refreshToken_not_in_set; [exact Hu' | exact Hl' | |].
  - rewrite elem_of_app, list_elem_of_filter, list_elem_of_singleton.
    intros [[Hne _]|Heq]; [now apply Hne | now apply Hfresh].
  - destruct (verifyRefreshToken_Return _ _ _ _ Hv) as [Hd _].
    exists (refreshSecret (jwt config)), (now_s env), decoded. auto.
Qed.

Lemma refreshToken_rotation_witness :
  exists w' u',
    Scenario.refreshToken (Reference.env_at 5000000 "") Scenario.token_1000
      (Scenario.world_of (Scenario.alice true ["other"; Scenario.token_1000]))
    = (Return {| user := sanitizeUser (Some (Scenario.alice true ["other"; Scenario.token_1000]));
                 issued := generateTokens (jw := Reference.jsonwebtoken) Reference.config
                             (Reference.env_at 5000000 "")
                             (Scenario.alice true ["other"; Scenario.token_1000]) |}, w')
    /\ MemoryAdapter.users_get (store w') (VStr "u1") = Some u'
    /\ get u' "refreshTokens" =
         VArr ["other";
               "default-refresh-secret-change-in-production|su1|-|-|srefresh|5000|609800"]
    /\ (forall env2,
          Scenario.refreshToken env2 Scenario.token_1000 w' =
            (match verifyRefreshToken (jw := Reference.jsonwebtoken) Reference.config
                     env2 Scenario.token_1000 with
             | Return _ => Throw (AuthenticationError "Invalid refresh token")
             | Throw e => Throw e
             end, w')).
Proof.
  destruct (refreshToken_rotation (jw := Reference.jsonwebtoken) Reference.config
              (Reference.env_at 5000000 "") Scenario.token_1000
              (Scenario.world_of (Scenario.alice true ["other"; Scenario.token_1000]))
              Scenario.payload_1000 (VStr "u1")
              (Scenario.alice true ["other"; Scenario.token_1000])
              ["other"; Scenario.token_1000])
    as (w' & u' & E & Hu & Hl & Hnext).
  - run.
  - run.
  - run.
  - run.
  - run.
  - run.
  - exists w', u'. split; [exact E|]. split; [exact Hu|]. split.
    + rewrite Hl. run.
    + apply Hnext. run.
Defined.

(** C3, the claim as stated fails.  The refresh token is a function of the
    user id, the key and the clock second.  A [refreshToken] call made in
    the second in which the presented token was signed signs that very
    token again: it is removed and pushed back, and a second call with the
    same token succeeds as well. *)
Lemma refreshToken_same_second_reissues_token :
  let w0 := Scenario.world_of (Scenario.alice true [Scenario.token_1000]) in
  let first := Scenario.refreshToken (Reference.env_at 1000900 "") Scenario.token_1000 w0 in
  let second := Scenario.refreshToken (Reference.env_at 1000950 "")
                  Scenario.token_1000 (snd first) in
  is_return (fst first) = true /\
  stored (snd first) "u1" "refreshTokens" = Some (VArr [Scenario.token_1000]) /\
  is_return (fst second) = true.
Proof. cbv zeta. repeat split; run. Qed.

(** Why the class of the error depends on the expiry: after a rotation at
    second 5000, the old token presented once its seven days are over is
    turned down by the verifier, with a plain [Error]. *)
Example refreshToken_second_call_after_expiry :
  let w0 := Scenario.world_of (Scenario.alice true [Scenario.token_1000]) in
  let first := Scenario.refreshToken (Reference.env_at 5000000 "") Scenario.token_1000 w0 in
  let second := Scenario.refreshToken (Reference.env_at 700000000000 "")
                  Scenario.token_1000 (snd first) in
  is_return (fst first) = true
  /\ fst second = Throw (Error "Refresh token has expired").
Proof. cbv zeta. split; run. Qed.

(** ** C4: a password reset or change revokes every refresh token *)

(** C4, as amended.  Let the record stored under [id] carry that id.  After
    a [resetPassword] that resolved for a reset token naming [id], or a
    [changePassword] that resolved for [id], the [refreshTokens] of that
    record is the empty array, and [refreshToken] fails, leaving the world
    as it is, for every token that names [id]: with [AuthenticationError
    "Invalid refresh token"] when the token still verifies, and with the
    error of the verifier (a plain [Error]) when it does not. *)
Theorem password_change_revokes_refresh_tokens {bc : Bcrypt} {jw : Jsonwebtoken}
    (config this_config : Config) (env : Env)
    (w w' : World MemoryAdapter.users) (id : value) (u : obj) :
  MemoryAdapter.users_get (store w) id = Some u ->
  get u "id" = id ->
  (exists token newPassword decoded,
      verifyPasswordResetToken config env token = Return decoded
      /\ get decoded "id" = id
      /\ AuthService.resetPassword config MemoryAdapter.adapter this_config env
           token newPassword w = (Return tt, w'))
  \/ (exists currentPassword newPassword,
        AuthService.changePassword MemoryAdapter.adapter env id
          currentPassword newPassword w = (Return tt, w')) ->
  (exists u', MemoryAdapter.users_get (store w') id = Some u'
              /\ get u' "refreshTokens" = VArr [])
  /\ forall token env2,
       issued_to token id ->
       AuthService.refreshToken config MemoryAdapter.adapter env2 token w' =
         (match verifyRefreshToken config env2 token with
          | Return _ => Throw (AuthenticationError "Invalid refresh token")
          | Throw e => Throw e
          end, w').
Proof.
  intros Hu Huid Hcall.
  assert (exists u', MemoryAdapter.users_get (store w') id = Some u'
                     /\ get u' "refreshTokens" = VArr []) as (u' & Hu' & Hl').
  { destruct Hcall as [(token & newPassword & decoded & Hv & Hid & E)
                      |(currentPassword & newPassword & E)].
    - eapply resetPassword_clears; eauto.
    - eapply changePassword_clears; eauto. }
  split; [eauto|].
  intros token env2 Hissued.
  eapply refreshToken_not_in_set; eauto. apply not_elem_of_nil.
Qed.

Lemma password_change_revokes_refresh_tokens_witness :
  let w := Scenario.world_of (Scenario.alice true [Scenario.token_1000]) in
  let w' := snd (Scenario.resetPassword (Reference.env_at 2000000 "")
                   Scenario.reset_token_1000 (VStr "N3w!Passw0rd") w) in
  (exists u', MemoryAdapter.users_get (store w') (VStr "u1") = Some u'
              /\ get u' "refreshTokens" = VArr [])
  /\ forall token env2,
       issued_to (jw := Reference.jsonwebtoken) token (VStr "u1") ->
       Scenario.refreshToken env2 token w' =
         (match verifyRefreshToken (jw := Reference.jsonwebtoken) Reference.config
                  env2 token with
          | Return _ => Throw (AuthenticationError "Invalid refresh token")
          | Throw e => Throw e
          end, w').
Proof.
  cbv zeta.
  apply (password_change_revokes_refresh_tokens (bc := Reference.bcrypt)
           (jw := Reference.jsonwebtoken) Reference.config Reference.config
           (Reference.env_at 2000000 "")
           (Scenario.world_of (Scenario.alice true [Scenario.token_1000])) _
           (VStr "u1") (Scenario.alice true [Scenario.token_1000])).
  - run.
  - run.
  - left. exists Scenario.reset_token_1000, (VStr "N3w!Passw0rd"),
      Scenario.reset_payload_1000.
    split; [run|]. split; run.
Defined.

(** C4, the claim as stated fails on the class of the error.  The token
    was in the set before the reset; presented once its seven days are
    over, it is turned down by the verifier, whose error is a plain
    [Error], not an [AuthenticationError]. *)
Lemma refreshToken_expired_after_reset_plain_error :
  let w := Scenario.world_of (Scenario.alice true [Scenario.token_1000]) in
  let reset := Scenario.resetPassword (Reference.env_at 2000000 "")
                 Scenario.reset_token_1000 (VStr "N3w!Passw0rd") w in
  let out := Scenario.refreshToken (Reference.env_at 700000000000 "")
               Scenario.token_1000 (snd reset) in
  fst reset = Return tt /\
  stored (snd reset) "u1" "refreshTokens" = Some (VArr []) /\
  exists e, fst out = Throw e /\ err_name e = "Error"
            /\ err_name e ≠ "AuthenticationError"
            /\ err_message e = "Refresh token has expired".
Proof.
  cbv zeta. split; [run|]. split; [run|].
  eexists. split; [vm_compute; reflexivity|].
  split; [reflexivity|]. split; [discriminate|reflexivity].
Qed.

(** ** C5: the verifiers and the [type] claim *)

Lemma verifier_unfold {jw : Jsonwebtoken} (config : Config) (c : token_class)
    (env : Env) (token : string) :
  exists invalid,
    verifier config c env token =
      ccatch (verify_typed env (class_key config c) (class_type c) token)
             (rethrow_jwt (class_expired c) invalid).
Proof. destruct c; eexists; reflexivity. Qed.

(** C5, as amended.  For the refresh, e-mail verification and password
    reset verifiers: a token that passes the signature and expiry checks
    of the library but whose [type] is not the one of the verifier is
    rejected with the plain [Error "Invalid token type"]; a token the
    library reports as expired is rejected with the plain [Error] "...
    token has expired" of the verifier, whatever its [type]; and a token
    that carries another [type] is returned by the verifier at no time. *)
Theorem typed_verifiers_reject_other_types {jw : Jsonwebtoken} (config : Config)
    (c : token_class) (env : Env) (token : string) :
  (forall d,
      jwt_verify token (class_key config c) (now_s env) = Return d ->
      is_str (get d "type") (class_type c) = false ->
      verifier config c env token = Throw (Error "Invalid token type"))
  /\ (forall e,
        jwt_verify token (class_key config c) (now_s env) = Throw e ->
        err_name e = "TokenExpiredError" ->
        verifier config c env token = Throw (Error (class_expired c)))
  /\ (forall key clock d,
        jwt_verify token key clock = Return d ->
        is_str (get d "type") (class_type c) = false ->
        is_return (verifier config c env token) = false).
Proof.
  destruct (verifier_unfold config c env token) as [invalid ->].
  split; [|split].
  - intros d Hd Ht. now rewrite (verify_typed_mismatch _ _ _ _ _ Hd Ht).
  - intros e He Hn. rewrite (verify_typed_throws _ _ _ _ _ He). cbn [ccatch].
    now apply rethrow_expired.
  - intros key clock d Hd Ht.
    destruct (jwt_verify token (class_key config c) (now_s env)) as [d'|e] eqn:E.
    + rewrite (jwt_verify_payload _ _ _ _ _ _ _ E Hd) in E.
      now rewrite (verify_typed_mismatch _ _ _ _ _ E Ht).
    + rewrite (verify_typed_throws _ _ _ _ _ E). cbn [ccatch].
      now destruct (rethrow_jwt_throws (class_expired c) invalid e) as [e' ->].
Qed.

Lemma typed_verifiers_reject_other_types_witness :
  verifyEmailVerificationToken (jw := Reference.jsonwebtoken) Reference.config
    (Reference.env_at 2000000 "") Scenario.reset_token_1000
    = Throw (Error "Invalid token type")
  /\ verifyEmailVerificationToken (jw := Reference.jsonwebtoken) Reference.config
       (Reference.env_at 3700000000 "") Scenario.reset_token_1000
       = Throw (Error "Email verification token has expired")
  /\ is_return (verifyEmailVerificationToken (jw := Reference.jsonwebtoken)
                  Reference.config (Reference.env_at 2000000 "") Scenario.token_1000)
       = false.
Proof.
  split; [|split].
  - destruct (typed_verifiers_reject_other_types (jw := Reference.jsonwebtoken)
                Reference.config EmailVerificationClass (Reference.env_at 2000000 "")
                Scenario.reset_token_1000) as (A & _ & _).
    eapply A; vm_compute; reflexivity.
  - destruct (typed_verifiers_reject_other_types (jw := Reference.jsonwebtoken)
                Reference.config EmailVerificationClass (Reference.env_at 3700000000 "")
                Scenario.reset_token_1000) as (_ & B & _).
    eapply B; vm_compute; reflexivity.
  - destruct (typed_verifiers_reject_other_types (jw := Reference.jsonwebtoken)
                Reference.config EmailVerificationClass (Reference.env_at 2000000 "")
                Scenario.token_1000) as (_ & _ & C).
    eapply (C (refreshSecret (jwt Reference.config)) 2000 Scenario.payload_1000);
      vm_compute; reflexivity.
Defined.

(** C5, the claim as stated fails.  A password-reset token presented to
    the e-mail verification verifier after its expiry is rejected, but
    not with an invalid-token error: the library checks the expiry before
    the verifier looks at [type], and the error thrown is a plain [Error]
    saying that the token has expired.  No verifier throws an error named
    [InvalidTokenError] or [TokenExpiredError]. *)
Lemma verifyEmailVerificationToken_expired_reset_token :
  let out := verifyEmailVerificationToken (jw := Reference.jsonwebtoken)
               Reference.config (Reference.env_at 3700000000 "")
               Scenario.reset_token_1000 in
  (exists d, verifyPasswordResetToken (jw := Reference.jsonwebtoken) Reference.config
               (Reference.env_at 2000000 "") Scenario.reset_token_1000 = Return d
             /\ get d "type" = VStr "password-reset")
  /\ exists e, out = Throw e
       /\ err_name e = "Error"
       /\ err_name e ≠ "InvalidTokenError"
       /\ err_name e ≠ "TokenExpiredError"
       /\ err_message e = "Email verification token has expired".
Proof.
  cbv zeta. split.
  - eexists. split; vm_compute; reflexivity.
  - eexists. split; [vm_compute; reflexivity|].
    split; [reflexivity|]. split; [discriminate|]. split; [discriminate|reflexivity].
Qed.

(** The access-token verifier is not one of the three: it has no [type]
    check, and returns the payload of a password-reset token, which is
    signed with the same secret. *)
Example verifyAccessToken_returns_reset_token :
  verifyAccessToken (jw := Reference.jsonwebtoken) Reference.config
    (Reference.env_at 2000000 "") Scenario.reset_token_1000
  = Return Scenario.reset_payload_1000.
Proof. run. Qed.

(** ** C6: forgotPassword never tells whether the e-mail is known *)

(** C6.  Whatever the adapter, the e-mail, the clock, the transport and
    the world, [forgotPassword] resolves (with [undefined]); two runs,
    for an e-mail that is known and for one that is not, therefore end
    in the same completion.  An error thrown by the lookup, or by the
    dispatch of the reset mail, is written to the console and does not
    reach the caller. *)
Theorem forgotPassword_enumeration_safe {jw : Jsonwebtoken} {S : Type}
    (config : Config) (db : Base.Database S) (env1 env2 : Env)
    (email1 email2 : value) (w1 w2 : World S) :
  fst (AuthService.forgotPassword config db env1 email1 w1) = Return tt
  /\ fst (AuthService.forgotPassword config db env2 email2 w2)
     = fst (AuthService.forgotPassword config db env1 email1 w1)
  /\ (forall e s',
        Base.findUserByEmail db email1 (store w1) = (Throw e, s') ->
        AuthService.forgotPassword config db env1 email1 w1 =
          (Return tt,
           mkWorld s' (outbox w1) (console w1 ++ ["Forgot password error:"])))
  /\ (forall u s' msg,
        Base.findUserByEmail db email1 (store w1) = (Return (Some u), s') ->
        truthy (get u "email") = true ->
        smtp_failure env1 = Some msg ->
        AuthService.forgotPassword config db env1 email1 w1 =
          (Return tt,
           mkWorld s' (outbox w1)
             (console w1 ++ ["Email sending failed:"; "Forgot password error:"]))).
Proof.
  assert (forall env email (w : World S),
             fst (AuthService.forgotPassword config db env email w) = Return tt)
    as Hresolves.
  { intros env email w.
    unfold AuthService.forgotPassword, try_catch, bind, liftDb.
    destruct (Base.findUserByEmail db email (store w)) as [[[u|]|e] s']; cbn;
      [|reflexivity|reflexivity].
    unfold sendPasswordResetEmail.
    destruct (sendEmail_cases (S := S) env (get u "email") "Reset Your Password"
      (frontendUrl config +:+ "/reset-password?token=" +:+
         generatePasswordResetToken config env (get u "id"))
      (mkWorld s' (outbox w) (console w))) as [[w' E]|[e [w' E]]];
      rewrite E; reflexivity. }
  split; [apply Hresolves|]. split; [now rewrite !Hresolves|]. split.
  - intros e s' E.
    unfold AuthService.forgotPassword, try_catch, bind, liftDb. now rewrite E.
  - intros u s' msg E Hto Hsmtp.
    unfold AuthService.forgotPassword, try_catch, bind, liftDb. rewrite E.
    unfold sendPasswordResetEmail, sendEmail. rewrite Hto, Hsmtp.
    rewrite (bool_decide_eq_false_2 _ (reset_link_not_empty _ _)).
    rewrite bool_decide_eq_false_2 by discriminate.
    unfold bind, console_error, modify, throw. cbn.
    now rewrite <- app_assoc.
Qed.

Lemma forgotPassword_enumeration_safe_witness :
  let w := Scenario.world_of (Scenario.alice true []) in
  let down := {| clock_ms := 2000000; random_uuid := ""; bcrypt_salt := "";
                 smtp_failure := Some "connect ECONNREFUSED" |} in
  AuthService.forgotPassword (jw := Reference.jsonwebtoken) Reference.config
    MemoryAdapter.adapter (Reference.env_at 2000000 "") VUndefined w
    = (Return tt, mkWorld (store w) [] ["Forgot password error:"])
  /\ AuthService.forgotPassword (jw := Reference.jsonwebtoken) Reference.config
       MemoryAdapter.adapter down (VStr "alice@example.com") w
     = (Return tt,
        mkWorld (store w) [] ["Email sending failed:"; "Forgot password error:"]).
Proof.
  cbv zeta. split.
  - apply (proj1 (proj2 (proj2
      (forgotPassword_enumeration_safe (jw := Reference.jsonwebtoken)
         Reference.config MemoryAdapter.adapter (Reference.env_at 2000000 "")
         (Reference.env_at 2000000 "") VUndefined VUndefined
         (Scenario.world_of (Scenario.alice true []))
         (Scenario.world_of (Scenario.alice true [])))))
      (TypeError "toLowerCase is not a function")
      (store (Scenario.world_of (Scenario.alice true [])))).
    run.
  - apply (proj2 (proj2 (proj2
      (forgotPassword_enumeration_safe (jw := Reference.jsonwebtoken)
         Reference.config MemoryAdapter.adapter
         {| clock_ms := 2000000; random_uuid := ""; bcrypt_salt := "";
            smtp_failure := Some "connect ECONNREFUSED" |}
         (Reference.env_at 2000000 "") (VStr "alice@example.com") VUndefined
         (Scenario.world_of (Scenario.alice true []))
         (Scenario.world_of (Scenario.alice true [])))))
      (Scenario.alice true [])
      (store (Scenario.world_of (Scenario.alice true [])))
      "connect ECONNREFUSED"); run.
Defined.

(** The three ways through [forgotPassword] on the in-memory adapter: the
    e-mail is unknown; it is known and the reset mail is handed to the
    transport; the transport fails and the error is logged. *)
Example forgotPassword_unknown_email :
  AuthService.forgotPassword (jw := Reference.jsonwebtoken) Reference.config
    MemoryAdapter.adapter (Reference.env_at 2000000 "") (VStr "nobody@example.com")
    (Scenario.world_of (Scenario.alice true []))
  = (Return tt, Scenario.world_of (Scenario.alice true [])).
Proof. run. Qed.

Example forgotPassword_known_email :
  let out := AuthService.forgotPassword (jw := Reference.jsonwebtoken) Reference.config
               MemoryAdapter.adapter (Reference.env_at 2000000 "")
               (VStr "alice@example.com") (Scenario.world_of (Scenario.alice true [])) in
  fst out = Return tt
  /\ map mail_subject (outbox (snd out)) = ["Reset Your Password"]
  /\ store (snd out) = store (Scenario.world_of (Scenario.alice true [])).
Proof. cbv zeta. repeat split; run. Qed.

Example forgotPassword_transport_down :
  let env := {| clock_ms := 2000000; random_uuid := ""; bcrypt_salt := "";
                smtp_failure := Some "connect ECONNREFUSED" |} in
  let out := AuthService.forgotPassword (jw := Reference.jsonwebtoken) Reference.config
               MemoryAdapter.adapter env (VStr "alice@example.com")
               (Scenario.world_of (Scenario.alice true [])) in
  fst out = Return tt
  /\ outbox (snd out) = []
  /\ console (snd out) = ["Email sending failed:"; "Forgot password error:"].
Proof. cbv zeta. repeat split; run. Qed.

Example forgotPassword_lookup_throws :
  let out := AuthService.forgotPassword (jw := Reference.jsonwebtoken) Reference.config
               MemoryAdapter.adapter (Reference.env_at 2000000 "") VUndefined
               (Scenario.world_of (Scenario.alice true [])) in
  fst out = Return tt /\ console (snd out) = ["Forgot password error:"].
Proof. cbv zeta. repeat split; run. Qed.

(** ** C7: what the service returns is sanitized *)

(** C7.  Whatever the adapter, the user object in the result of a
    [register], [login], [refreshToken], [verifyEmail], [getProfile] or
    [updateProfile] call that resolved is an object with no [password]
    and no [refreshTokens] property. *)
Theorem returned_users_are_sanitized {bc : Bcrypt} {jw : Jsonwebtoken} {S : Type}
    (config : Config) (db : Base.Database S) (this_config : Config)
    (env : Env) (w w' : World S) :
  (forall userData r,
      AuthService.register config db this_config env userData w = (Return r, w') ->
      sanitized (user r))
  /\ (forall email password r,
        AuthService.login config db this_config env email password w = (Return r, w') ->
        sanitized (user r))
  /\ (forall token r,
        AuthService.refreshToken config db env token w = (Return r, w') ->
        sanitized (user r))
  /\ (forall token r,
        AuthService.verifyEmail config db this_config env token w = (Return r, w') ->
        sanitized r)
  /\ (forall userId r,
        AuthService.getProfile db userId w = (Return r, w') -> sanitized r)
  /\ (forall userId updates r,
        AuthService.updateProfile db env userId updates w = (Return r, w') ->
        sanitized r).
Proof.
  repeat split; intros.
  - eapply register_sanitized; eauto.
  - eapply login_sanitized; eauto.
  - eapply refreshToken_sanitized; eauto.
  - eapply verifyEmail_sanitized; eauto.
  - eapply getProfile_sanitized; eauto.
  - eapply updateProfile_sanitized; eauto.
Qed.

Lemma returned_users_are_sanitized_witness :
  sanitized (user (returned no_result (fst
     (Scenario.register (Reference.env_at 2000000 "u2")
      (Scenario.registration (VStr "admin")) Reference.empty_world))))
  /\
  sanitized (user (returned no_result (fst
     (Scenario.login (Reference.env_at 2000000 "") (VStr "alice@example.com")
      (VStr "Str0ng!Pass") (Scenario.world_of (Scenario.alice true []))))))
  /\
  sanitized (user (returned no_result (fst
     (Scenario.refreshToken (Reference.env_at 2000000 "") Scenario.token_1000
      (Scenario.world_of (Scenario.alice true [Scenario.token_1000]))))))
  /\
  sanitized (returned None (fst
     (Scenario.verifyEmail (Reference.env_at 2000000 "") Scenario.verification_token_1000
      (Scenario.world_of Scenario.unverified_alice))))
  /\
  sanitized (returned None (fst
     (Scenario.getProfile (VStr "u1") (Scenario.world_of (Scenario.alice true [])))))
  /\
  sanitized (returned None (fst
     (Scenario.updateProfile (Reference.env_at 2000000 "") (VStr "u1")
      {[ "name" := VStr "Alice" ]} (Scenario.world_of (Scenario.alice true []))))).
Proof.
  repeat apply conj.
  - eapply (proj1 (returned_users_are_sanitized (bc := Reference.bcrypt)
                (jw := Reference.jsonwebtoken) Reference.config MemoryAdapter.adapter
                Reference.config (Reference.env_at 2000000 "u2")
                (Reference.empty_world)
                (snd (Scenario.register (Reference.env_at 2000000 "u2")
                       (Scenario.registration (VStr "admin")) Reference.empty_world)))
              (Scenario.registration (VStr "admin"))).
    run.
  - eapply (proj1 (proj2 (returned_users_are_sanitized (bc := Reference.bcrypt)
                (jw := Reference.jsonwebtoken) Reference.config MemoryAdapter.adapter
                Reference.config (Reference.env_at 2000000 "")
                (Scenario.world_of (Scenario.alice true []))
                (snd (Scenario.login (Reference.env_at 2000000 "") (VStr "alice@example.com")
                       (VStr "Str0ng!Pass") (Scenario.world_of (Scenario.alice true []))))))
              (VStr "alice@example.com") (VStr "Str0ng!Pass")).
    run.
  - eapply (proj1 (proj2 (proj2 (returned_users_are_sanitized (bc := Reference.bcrypt)
                (jw := Reference.jsonwebtoken) Reference.config MemoryAdapter.adapter
                Reference.config (Reference.env_at 2000000 "")
                (Scenario.world_of (Scenario.alice true [Scenario.token_1000]))
                (snd (Scenario.refreshToken (Reference.env_at 2000000 "") Scenario.token_1000
                       (Scenario.world_of (Scenario.alice true [Scenario.token_1000])))))))
              Scenario.token_1000).
    run.
  - eapply (proj1 (proj2 (proj2 (proj2 (returned_users_are_sanitized (bc := Reference.bcrypt)
                (jw := Reference.jsonwebtoken) Reference.config MemoryAdapter.adapter
                Reference.config (Reference.env_at 2000000 "")
                (Scenario.world_of Scenario.unverified_alice)
                (snd (Scenario.verifyEmail (Reference.env_at 2000000 "")
                       Scenario.verification_token_1000
                       (Scenario.world_of Scenario.unverified_alice)))))))
              Scenario.verification_token_1000).
    run.
  - eapply (proj1 (proj2 (proj2 (proj2 (proj2 (returned_users_are_sanitized (bc := Reference.bcrypt)
                (jw := Reference.jsonwebtoken) Reference.config MemoryAdapter.adapter
                Reference.config (Reference.env_at 2000000 "")
                (Scenario.world_of (Scenario.alice true []))
                (snd (Scenario.getProfile (VStr "u1")
                       (Scenario.world_of (Scenario.alice true [])))))))))
              (VStr "u1")).
    run.
  - eapply (proj2 (proj2 (proj2 (proj2 (proj2 (returned_users_are_sanitized (bc := Reference.bcrypt)
                (jw := Reference.jsonwebtoken) Reference.config MemoryAdapter.adapter
                Reference.config (Reference.env_at 2000000 "")
                (Scenario.world_of (Scenario.alice true []))
                (snd (Scenario.updateProfile (Reference.env_at 2000000 "") (VStr "u1")
                       {[ "name" := VStr "Alice" ]}
                       (Scenario.world_of (Scenario.alice true [])))))))))
              (VStr "u1") {[ "name" := VStr "Alice" ]}).
    run.
Defined.

(** ** C8: logging out with a token that is not in the set *)

(** C8, as amended.  Let no [onLogout] hook be configured, or the
    configured one not throw.  If no record is stored under [userId],
    [logout] resolves and leaves the world as it is.  If the record [u]
    stored under [userId] has the array [l] as [refreshTokens] and [token]
    is not in [l], [logout] resolves and the only change in the world is
    that [u.updatedAt] holds the time of the call; the array and every
    other property of [u] are as before.  Repeating the call resolves
    again and changes [updatedAt] only. *)
Theorem logout_absent_token (this_config : Config) (env env2 : Env)
    (userId : value) (token : string) (w : World MemoryAdapter.users) :
  hook_returns (onLogout (hooks this_config)) ->
  match MemoryAdapter.users_get (store w) userId with
  | None =>
      AuthService.logout MemoryAdapter.adapter this_config env userId token w
        = (Return tt, w)
  | Some u =>
      forall l, get u "refreshTokens" = VArr l -> token ∉ l ->
        let touched (at_ : Env) :=
          mkWorld (MemoryAdapter.users_set (store w) userId
                     (<["updatedAt" := new_Date at_]> u))
                  (outbox w) (console w) in
        AuthService.logout MemoryAdapter.adapter this_config env userId token w
          = (Return tt, touched env)
        /\ AuthService.logout MemoryAdapter.adapter this_config env2 userId token
             (touched env)
           = (Return tt, touched env2)
  end.
Proof.
  intros Hh. destruct (MemoryAdapter.users_get (store w) userId) as [u|] eqn:Hu.
  - intros l Hl Hn touched. subst touched. cbv beta. split.
    + eapply logout_absent; eauto.
    + erewrite (logout_absent this_config env2 userId token _
                  (<["updatedAt" := new_Date env]> u) l Hh); cycle 1.
      * cbn [store]. eapply users_get_set_eq; eauto.
      * now rewrite get_insert_ne by discriminate.
      * exact Hn.
      * cbn [store outbox console]. now rewrite users_set_set, insert_insert_eq.
  - now apply logout_missing_user.
Qed.

Lemma logout_absent_token_witness :
  let w := Scenario.world_of (Scenario.alice true [Scenario.token_1000]) in
  let touched (at_ : Env) :=
    mkWorld (MemoryAdapter.users_set (store w) (VStr "u1")
               (<["updatedAt" := new_Date at_]> (Scenario.alice true [Scenario.token_1000])))
            (outbox w) (console w) in
  Scenario.logout (Reference.env_at 2000000 "") (VStr "u1") "not-in-the-set" w
    = (Return tt, touched (Reference.env_at 2000000 ""))
  /\ Scenario.logout (Reference.env_at 3000000 "") (VStr "u1") "not-in-the-set"
       (touched (Reference.env_at 2000000 ""))
     = (Return tt, touched (Reference.env_at 3000000 "")).
Proof.
  cbv zeta.
  apply (logout_absent_token Reference.config (Reference.env_at 2000000 "")
           (Reference.env_at 3000000 "") (VStr "u1") "not-in-the-set"
           (Scenario.world_of (Scenario.alice true [Scenario.token_1000]))
           ltac:(intros h arg; discriminate)
           [Scenario.token_1000]).
  - run.
  - run.
Defined.

(** C8, the claim as stated fails: the token is not in the set and the
    call resolves, but a property of the record has changed, its
    [updatedAt]. *)
Lemma logout_absent_token_touches_updatedAt :
  let w := Scenario.world_of (Scenario.alice true [Scenario.token_1000]) in
  let out := Scenario.logout (Reference.env_at 2000000 "") (VStr "u1")
               "not-in-the-set" w in
  fst out = Return tt
  /\ stored w "u1" "refreshTokens" = Some (VArr [Scenario.token_1000])
  /\ stored (snd out) "u1" "refreshTokens" = Some (VArr [Scenario.token_1000])
  /\ stored w "u1" "updatedAt" = Some (VDate 1000000)
  /\ stored (snd out) "u1" "updatedAt" = Some (VDate 2000000).
Proof. cbv zeta. repeat split; run. Qed.

(** Why the hook matters: an [onLogout] hook that throws makes [logout]
    throw, after the store has been written. *)
Example logout_hook_throws :
  let hooked := {|
    jwt := jwt Reference.config; security := security Reference.config;
    features := features Reference.config;
    hooks := {| onRegister := None; onLogin := None;
                onLogout := Some (fun _ => Throw (Error "hook failed"));
                onPasswordReset := None; onEmailVerified := None |};
    frontendUrl := frontendUrl Reference.config |} in
  let out := AuthService.logout MemoryAdapter.adapter hooked
               (Reference.env_at 2000000 "") (VStr "u1") "not-in-the-set"
               (Scenario.world_of (Scenario.alice true [Scenario.token_1000])) in
  fst out = Throw (Error "hook failed")
  /\ stored (snd out) "u1" "updatedAt" = Some (VDate 2000000).
Proof. cbv zeta. split; run. Qed.

(** ** C9: what updateProfile can write *)

(** C9, as amended.  Whatever the [updates] object holds and whether the
    call resolves or throws, every record of the store is still there
    after [updateProfile], and each of its properties other than [name],
    [phone], [bio], [avatar] and [updatedAt] reads as before; in
    particular [role], [email], [password], [isEmailVerified], [isActive]
    and [refreshTokens]. *)
Theorem updateProfile_writes_only_profile_fields (env : Env) (userId : value)
    (updates : obj) (w : World MemoryAdapter.users) (id : value) (u : obj) :
  MemoryAdapter.users_get (store w) id = Some u ->
  exists u',
    MemoryAdapter.users_get
      (store (snd (AuthService.updateProfile MemoryAdapter.adapter env userId updates w)))
      id = Some u'
    /\ (forall k, k ∉ profileFields -> get u' k = get u k)
    /\ Forall (fun k => get u' k = get u k)
         ["role"; "email"; "password"; "isEmailVerified"; "isActive"; "refreshTokens"].
Proof.
  intros Hu.
  destruct (updateProfile_frame_store env userId updates w id u Hu) as (u' & Hu' & Hk).
  exists u'. split; [exact Hu'|]. split; [exact Hk|].
  repeat constructor; apply Hk; run.
Qed.

Lemma updateProfile_writes_only_profile_fields_witness :
  let updates : obj :=
    {[ "name" := VStr "Mallory"; "role" := VStr "admin";
       "isActive" := VBool true; "refreshTokens" := VArr ["forged"] ]} in
  exists u',
    MemoryAdapter.users_get
      (store (snd (Scenario.updateProfile (Reference.env_at 2000000 "") (VStr "u1")
                     updates (Scenario.world_of (Scenario.alice false [])))))
      (VStr "u1") = Some u'
    /\ (forall k, k ∉ profileFields -> get u' k = get (Scenario.alice false []) k)
    /\ Forall (fun k => get u' k = get (Scenario.alice false []) k)
         ["role"; "email"; "password"; "isEmailVerified"; "isActive"; "refreshTokens"].
Proof.
  cbv zeta.
  apply (updateProfile_writes_only_profile_fields (Reference.env_at 2000000 "")
           (VStr "u1") _ (Scenario.world_of (Scenario.alice false [])) (VStr "u1")
           (Scenario.alice false [])).
  run.
Defined.

(** C9, the claim as stated fails: a property other than [name], [phone],
    [bio] and [avatar] changes, the [updatedAt] of the record, even when
    the updates name none of the four. *)
Lemma updateProfile_touches_updatedAt :
  let w := Scenario.world_of (Scenario.alice true []) in
  let out := Scenario.updateProfile (Reference.env_at 2000000 "") (VStr "u1")
               {[ "role" := VStr "admin" ]} w in
  is_return (fst out) = true
  /\ stored w "u1" "updatedAt" = Some (VDate 1000000)
  /\ stored (snd out) "u1" "updatedAt" = Some (VDate 2000000)
  /\ stored (snd out) "u1" "role" = Some (VStr "user").
Proof. cbv zeta. repeat split; run. Qed.

(** ** C10: the role of a newly registered user *)

(** C10, as amended.  When [AuthService.register] resolves, the role of the
    created user, as stored under the new id and as returned, is
    [userData.role || 'user']: the supplied role when it is truthy,
    ['user'] when it is absent or falsy.  When the register route
    resolves, the role is ['user'] whatever the request body holds: the
    value handed to the service has the keys of the schema only, and
    [role] is not one of them. *)
Theorem register_role {bc : Bcrypt} {jw : Jsonwebtoken}
    (config this_config : Config) (env : Env)
    (w w' : World MemoryAdapter.users) :
  (forall userData r,
      AuthService.register config MemoryAdapter.adapter this_config env userData w
        = (Return r, w') ->
      created_role env w' r (js_or (get userData "role") (VStr "user")))
  /\ (forall email_rule password_rule name_rule phone_rule body r statusCode message,
        AuthController.register config MemoryAdapter.adapter this_config
          email_rule password_rule name_rule phone_rule env body w
          = (Return (AuthController.sendSuccess r statusCode message), w') ->
        created_role env w' r (VStr "user")).
Proof.
  split.
  - intros userData r E. eapply register_creates_role; eauto.
  - intros email_rule password_rule name_rule phone_rule body r statusCode message.
    unfold AuthController.register.
    destruct (Validation.validate _ body) as [value|] eqn:Ev; [|discriminate].
    intros E. apply bind_inv in E as (r' & w1 & E1 & E).
    injection E as -> _ _ <-.
    apply register_creates_role in E1.
    assert (value !! "role" = None) as Hrole.
    { eapply validate_strips; [exact Ev|].
      run. }
    unfold get at 1 in E1. now rewrite Hrole in E1.
Qed.

Lemma register_role_witness :
  let env := Reference.env_at 2000000 "u2" in
  let direct := Scenario.register env (Scenario.registration (VStr "admin"))
                  Reference.empty_world in
  let routed := AuthController.register (bc := Reference.bcrypt)
                  (jw := Reference.jsonwebtoken) Reference.config
                  MemoryAdapter.adapter Reference.config Some Some Some Some env
                  (Scenario.registration (VStr "admin")) Reference.empty_world in
  created_role env (snd direct) (returned no_result (fst direct)) (VStr "admin")
  /\ created_role env (snd routed)
       (response_data (returned (AuthController.sendError "" 0) (fst routed)))
       (VStr "user").
Proof.
  cbv zeta. split.
  - apply (proj1 (register_role (bc := Reference.bcrypt) (jw := Reference.jsonwebtoken)
                   Reference.config Reference.config (Reference.env_at 2000000 "u2")
                   Reference.empty_world _)
             (Scenario.registration (VStr "admin"))).
    run.
  - apply (proj2 (register_role (bc := Reference.bcrypt) (jw := Reference.jsonwebtoken)
                   Reference.config Reference.config (Reference.env_at 2000000 "u2")
                   Reference.empty_world _)
             Some Some Some Some (Scenario.registration (VStr "admin")) _
             201 "User registered successfully").
    run.
Defined.

(** C10, the claim as stated fails: a role is supplied, the empty string,
    and the created user does not get it; the role is ['user']. *)
Lemma register_empty_role_defaults_to_user :
  let userData := Scenario.registration (VStr "") in
  let out := Scenario.register (Reference.env_at 2000000 "u2") userData
               Reference.empty_world in
  userData !! "role" = Some (VStr "")
  /\ is_return (fst out) = true
  /\ stored (snd out) "u2" "role" = Some (VStr "user")
  /\ stored (snd out) "u2" "role" ≠ Some (VStr "").
Proof.
  cbv zeta. repeat split; run.
Qed.

(** * Further properties *)

(** ** The users map as a list *)

Lemma JsMap_get_elem_of {V} (m : JsMap.t V) k v : JsMap.get m k = Some v -> (k, v) ∈ m.
Proof.
  induction m as [|[k' v'] m IH]; cbn; [discriminate|].
  case_bool_decide as E.
  - intros [= <-]. subst. left.
  - intros H. right. auto.
Qed.

Lemma JsMap_elem_of_get {V} (m : JsMap.t V) k v :
  NoDup m.*1 -> (k, v) ∈ m -> JsMap.get m k = Some v.
Proof.
  induction m as [|[k' v'] m IH]; cbn.
  - intros _ H. inversion H.
  - intros [Hk Hm]%NoDup_cons [[= -> ->]|H]%elem_of_cons.
    + now rewrite bool_decide_eq_true_2.
    + rewrite bool_decide_eq_false_2; [auto|].
      intros ->. apply Hk. apply list_elem_of_fmap. exists (k, v). auto.
Qed.

Lemma JsMap_set_keys {V} (m : JsMap.t V) k v x :
  x ∈ (JsMap.set m k v).*1 <-> x = k \/ x ∈ m.*1.
Proof.
  induction m as [|[k' v'] m IH]; cbn.
  - rewrite list_elem_of_singleton.
    split; [auto | intros [H|H]; [exact H | inversion H]].
  - case_bool_decide as E; cbn.
    + subst. rewrite !elem_of_cons. tauto.
    + rewrite !elem_of_cons, IH. tauto.
Qed.

Lemma JsMap_set_NoDup {V} (m : JsMap.t V) k v : NoDup m.*1 -> NoDup (JsMap.set m k v).*1.
Proof.
  induction m as [|[k' v'] m IH]; cbn.
  - intros _. apply NoDup_singleton.
  - intros [Hk Hm]%NoDup_cons. case_bool_decide as E; cbn.
    + subst. now apply NoDup_cons.
    + apply NoDup_cons. split; [|auto].
      rewrite JsMap_set_keys. intros [->|H]; [now apply E | now apply Hk].
Qed.

Lemma JsMap_values_get {V} (m : JsMap.t V) v :
  NoDup m.*1 -> v ∈ JsMap.values m -> exists k, JsMap.get m k = Some v.
Proof.
  intros Hn ([k v'] & -> & H)%list_elem_of_fmap. exists k.
  now apply JsMap_elem_of_get.
Qed.

Lemma JsMap_get_values {V} (m : JsMap.t V) k v :
  JsMap.get m k = Some v -> v ∈ JsMap.values m.
Proof.
  intros H%JsMap_get_elem_of. apply list_elem_of_fmap. exists (k, v). auto.
Qed.

Lemma JsMap_get_delete (m : list (string * obj)) k k' :
  JsMap.get (filter (fun kv => kv.1 ≠ k) m) k' =
    if bool_decide (k' = k) then None else JsMap.get m k'.
Proof.
  induction m as [|[k0 v0] m IH]; [now case_bool_decide|].
  rewrite filter_cons. cbn [fst]. destruct (decide (k0 ≠ k)) as [HP|HP]; cbn [JsMap.get].
  - rewrite IH. repeat case_bool_decide; congruence.
  - apply dec_stable in HP. subst k0. rewrite IH.
    repeat case_bool_decide; congruence.
Qed.

Lemma deleteUser_eq k (m : users) :
  deleteUser (VStr k) m = (Return (fst (JsMap.delete m k)), snd (JsMap.delete m k)).
Proof. reflexivity. Qed.

Lemma JsMap_delete_get (m : users) k k' :
  JsMap.get (snd (JsMap.delete m k)) k' =
    if bool_decide (k' = k) then None else JsMap.get m k'.
Proof. apply JsMap_get_delete. Qed.

(** ** Consistency of the store *)

Lemma consistent_nil : consistent [].
Proof.
  split; [apply NoDup_nil_2|]. split; intros *; cbn; discriminate.
Qed.

Lemma consistent_set m k v :
  consistent m -> record_ok k v ->
  (forall k' u', k' ≠ k -> JsMap.get m k' = Some u' -> get u' "email" ≠ get v "email") ->
  consistent (JsMap.set m k v).
Proof.
  intros (Hn & Hok & Huniq) Hv Hfresh. split; [now apply JsMap_set_NoDup|]. split.
  - intros k0 u0. destruct (decide (k = k0)) as [<-|Hne].
    + rewrite JsMap_get_set_eq. now intros [= <-].
    + rewrite JsMap_get_set_ne by assumption. apply Hok.
  - intros k1 k2 u1 u2.
    destruct (decide (k = k1)) as [<-|Hne1]; destruct (decide (k = k2)) as [<-|Hne2];
      rewrite ?JsMap_get_set_eq, ?JsMap_get_set_ne by assumption; try done.
    + intros [= <-] H2 He. exfalso. eapply Hfresh; eauto.
    + intros H1 [= <-] He. exfalso. eapply Hfresh; eauto.
    + apply Huniq.
Qed.

Lemma consistent_update m k u v :
  consistent m -> JsMap.get m k = Some u ->
  get v "id" = get u "id" ->
  (exists l, get v "refreshTokens" = VArr l) ->
  get v "email" = get u "email" ->
  consistent (JsMap.set m k v).
Proof.
  intros Hc Hu Hid Hl He. pose proof Hc as (Hn & Hok & Huniq).
  apply consistent_set; [assumption| |].
  - destruct (Hok _ _ Hu) as [Hi _]. split; [congruence | assumption].
  - intros k' u' Hne Hu' E. apply Hne. eapply Huniq; eauto. congruence.
Qed.

Lemma consistent_delete (m : list (string * obj)) k :
  consistent m -> consistent (filter (fun kv => kv.1 ≠ k) m).
Proof.
  intros (Hn & Hok & Huniq). split; [|split].
  - clear -Hn. induction m as [|[k' v'] m IH]; [done|].
    apply NoDup_cons in Hn as [Hk Hm]. rewrite filter_cons. cbn [fst].
    destruct (decide (k' ≠ k)) as [HP|HP]; [|auto]. cbn. apply NoDup_cons. split; [|auto].
    intros ([k2 v2] & E & Hin)%list_elem_of_fmap. cbn in E. subst k2.
    apply list_elem_of_filter in Hin as [_ Hin]. apply Hk.
    apply list_elem_of_fmap. exists (k', v2). auto.
  - intros k0 u. rewrite JsMap_get_delete. case_bool_decide; [done | apply Hok].
  - intros k1 k2 u1 u2. rewrite !JsMap_get_delete.
    repeat case_bool_decide; try done. apply Huniq.
Qed.

Lemma JsMap_delete_consistent (m : users) k :
  consistent m -> consistent (snd (JsMap.delete m k)).
Proof. apply consistent_delete. Qed.

Lemma consistent_one k u : record_ok k u -> consistent [(k, u)].
Proof.
  intros H. apply (consistent_set [] k u consistent_nil H). intros; discriminate.
Qed.

Lemma consistent_touch m id u v :
  consistent m -> users_get m id = Some u ->
  (forall k, k ∉ ["refreshTokens"; "lastLogin"; "updatedAt"] -> get v k = get u k) ->
  (exists l, get v "refreshTokens" = VArr l) ->
  consistent (users_set m id v).
Proof.
  intros Hc (k & -> & Hu)%users_get_Some Hk Hl. cbn.
  eapply consistent_update; eauto; apply Hk; compute_done.
Qed.

(** *** The look-up by e-mail *)

Lemma lower_ascii_idem c : lower_ascii (lower_ascii c) = lower_ascii c.
Proof. destruct c as [[] [] [] [] [] [] [] []]; reflexivity. Qed.

Lemma lower_idem s : lower (lower s) = lower s.
Proof. induction s as [|c s IH]; cbn; [reflexivity|]. now rewrite lower_ascii_idem, IH. Qed.


Lemma is_str_true v s : is_str v s = true <-> v = VStr s.
Proof.
  destruct v; cbn; try (split; [discriminate | discriminate]).
  rewrite bool_decide_eq_true. split; congruence.
Qed.

Lemma find_email_str us e :
  find_email us (VStr e) =
    Return (List.find (fun u => is_str (get u "email") (lower e)) us).
Proof.
  induction us as [|u us IH]; cbn; [reflexivity|].
  destruct (is_str (get u "email") (lower e)); [reflexivity | exact IH].
Qed.


Lemma find_email_Some us email u :
  find_email us email = Return (Some u) ->
  u ∈ us /\ exists e, email = VStr e /\ get u "email" = VStr (lower e).
Proof.
  destruct email as [| | | |e| |]; try (destruct us; cbn; discriminate).
  rewrite find_email_str. intros [= H].
  apply find_some in H as [Hin Hs]. apply is_str_true in Hs.
  split; [now apply list_elem_of_In | eauto].
Qed.

Lemma find_email_None us e :
  find_email us (VStr e) = Return None ->
  forall u, u ∈ us -> get u "email" ≠ VStr (lower e).
Proof.
  rewrite find_email_str. intros [= H] u Hu E.
  apply list_elem_of_In in Hu.
  pose proof (find_none _ _ H u Hu) as Hf. cbn in Hf.
  apply is_str_true in E. congruence.
Qed.

Lemma find_email_exists us e u :
  u ∈ us -> get u "email" = VStr (lower e) ->
  exists u', find_email us (VStr e) = Return (Some u').
Proof.
  intros Hu E. rewrite find_email_str.
  destruct (List.find _ us) as [u'|] eqn:F; [eauto|].
  apply list_elem_of_In in Hu. pose proof (find_none _ _ F u Hu) as Hf. cbn in Hf.
  apply is_str_true in E. congruence.
Qed.

Lemma find_email_lower us e : find_email us (VStr (lower e)) = find_email us (VStr e).
Proof. now rewrite !find_email_str, lower_idem. Qed.

Lemma found_by_email_stored m email u :
  consistent m -> find_email (JsMap.values m) email = Return (Some u) ->
  users_get m (get u "id") = Some u /\ exists l, get u "refreshTokens" = VArr l.
Proof.
  intros (Hn & Hok & _) [Hin _]%find_email_Some.
  destruct (JsMap_values_get _ _ Hn Hin) as [k Hk].
  destruct (Hok _ _ Hk) as [-> Hl]. auto.
Qed.

Lemma findUserByEmail_eq email (w : World users) :
  liftDb (findUserByEmail email) w = (find_email (JsMap.values (store w)) email, w).
Proof. destruct w. reflexivity. Qed.

Lemma find_after_set (m : users) k u v (P : obj -> bool) :
  NoDup m.*1 ->
  (forall k1 u1, JsMap.get m k1 = Some u1 -> P u1 = true -> k1 = k) ->
  JsMap.get m k = Some u -> P v = true ->
  List.find P (JsMap.values (JsMap.set m k v)) = Some v.
Proof.
  intros Hn Huniq Hu Hv. induction m as [|[k0 u0] m IH]; [discriminate|].
  apply NoDup_cons in Hn as [Hk0 Hn]. cbn in Hu |- *.
  case_bool_decide as Hk; cbn.
  - now rewrite Hv.
  - destruct (P u0) eqn:HP.
    + exfalso. apply Hk. apply (Huniq k0 u0); [|exact HP].
      cbn. now rewrite bool_decide_eq_true_2.
    + apply IH; [exact Hn| |exact Hu].
      intros k1 u1 H1 HP1. apply (Huniq k1 u1); [|exact HP1].
      cbn. rewrite bool_decide_eq_false_2; [exact H1|].
      intros ->. apply Hk0. apply list_elem_of_fmap. exists (k1, u1).
      split; [reflexivity | now apply JsMap_get_elem_of].
Qed.

Lemma find_email_after_touch (m : users) email u v :
  consistent m ->
  find_email (JsMap.values m) email = Return (Some u) ->
  get v "email" = get u "email" ->
  find_email (JsMap.values (users_set m (get u "id") v)) email = Return (Some v).
Proof.
  intros Hc Hf Hv. pose proof Hc as (Hn & Hok & Huniq).
  destruct (found_by_email_stored _ _ _ Hc Hf) as [Hu _].
  apply find_email_Some in Hf as (_ & e & -> & He).
  apply users_get_Some in Hu as (k & Hid & Hu). rewrite Hid. cbn [users_set].
  rewrite find_email_str. f_equal.
  apply (find_after_set m k u); [exact Hn| |exact Hu|].
  - intros k1 u1 H1 HP. apply is_str_true in HP. apply (Huniq k1 k u1 u H1 Hu).
    congruence.
  - apply is_str_true. congruence.
Qed.

(** *** What preserves consistency *)

Lemma preserves_keeps {A} (m : Eff (World users) A) : keeps_store m -> preserves m.
Proof. intros H w r w' E. now rewrite (H _ _ _ E). Qed.

Lemma preserves_bind {A B} (m : Eff (World users) A) (k : A -> Eff (World users) B) :
  preserves m -> (forall a, preserves (k a)) -> preserves (bind m k).
Proof.
  intros Hm Hk w r w'. unfold bind.
  destruct (m w) as [[a|e] w1] eqn:E; intros E'.
  - intros Hc. eapply Hk; eauto.
  - injection E' as <- <-. eauto.
Qed.

Lemma preserves_try_catch {A} (m : Eff (World users) A) h :
  preserves m -> (forall e, preserves (h e)) -> preserves (try_catch m h).
Proof.
  intros Hm Hh w r w'. unfold try_catch.
  destruct (m w) as [[a|e] w1] eqn:E; intros E'.
  - injection E' as <- <-. eauto.
  - intros Hc. eapply Hh; eauto.
Qed.

Lemma preserves_liftDb {A} (m : Eff users A) : preserves_db m -> preserves (liftDb m).
Proof.
  intros H w r w'. unfold liftDb. destruct (m (store w)) as [r0 s'] eqn:E.
  intros [= <- <-]. cbn. eauto.
Qed.

Lemma preserves_db_findUserById id : preserves_db (findUserById id).
Proof. intros s r s' [= _ <-]. auto. Qed.

Lemma preserves_db_findUserByEmail email : preserves_db (findUserByEmail email).
Proof. intros s r s' [= _ <-]. auto. Qed.

Lemma preserves_db_createUser env userData : preserves_db (createUser env userData).
Proof.
  intros s r s'. unfold createUser. rewrite bind_lift.
  destruct (toLowerCase (get userData "email")) as [email|e] eqn:El;
    [|intros [= _ <-]; auto].
  destruct (get userData "email") as [| | | |e0| |]; try discriminate.
  injection El as <-.
  unfold bind, findUserByEmailSync.
  change (get (new_user env userData (lower e0)) "email") with (VStr (lower e0)).
  destruct (find_email (JsMap.values s) (VStr (lower e0))) as [[u|]|e] eqn:F;
    [intros [= _ <-]; auto | | intros [= _ <-]; auto].
  cbn. intros [= _ <-] Hc. apply consistent_set; [assumption| |].
  - split; [reflexivity | eexists; reflexivity].
  - intros k' u' _ Hu'.
    change (get (new_user env userData (lower e0)) "email") with (VStr (lower e0)).
    rewrite <- (lower_idem e0).
    eapply find_email_None; [exact F|]. eapply JsMap_get_values; eauto.
Qed.

Lemma preserves_db_updateUser env id updates :
  updates !! "refreshTokens" = None -> updates !! "email" = None ->
  preserves_db (updateUser env id updates).
Proof.
  intros Ht He s r s'. unfold updateUser. eff_unfold.
  destruct (users_get s id) as [u|] eqn:Hu; [|intros [= _ <-]; auto].
  apply users_get_Some in Hu as (k & -> & Hu).
  cbn. intros [= _ <-] Hc. pose proof Hc as (_ & Hok & _).
  destruct (Hok _ _ Hu) as [Hid [l Hl]].
  eapply consistent_update; eauto.
  - rewrite get_insert_ne by discriminate. apply get_insert_eq.
  - exists l. rewrite !get_insert_ne by discriminate. now rewrite get_spread_untouched.
  - rewrite !get_insert_ne by discriminate. now rewrite get_spread_untouched.
Qed.

Ltac token_mutator :=
  intros s r s'; eff_unfold;
  match goal with |- context [users_get s ?id] =>
    let Hu := fresh "Hu" in
    destruct (users_get s id) eqn:Hu; [|intros [= _ <-]; auto]
  end;
  cbn; repeat case_match; intros [= _ <-] Hc; try assumption;
  eapply consistent_touch; eauto;
  [ intros k Hk; rewrite !get_insert_ne by (intros <-; apply Hk; compute_done);
    reflexivity
  | try (eexists; rewrite get_insert_ne by discriminate; apply get_insert_eq) ].

Lemma preserves_db_addRefreshToken env id token : preserves_db (addRefreshToken env id token).
Proof. unfold addRefreshToken. token_mutator. Qed.

Lemma preserves_db_removeRefreshToken env id token :
  preserves_db (removeRefreshToken env id token).
Proof. unfold removeRefreshToken. token_mutator. Qed.

Lemma preserves_db_removeAllRefreshTokens env id :
  preserves_db (removeAllRefreshTokens env id).
Proof. unfold removeAllRefreshTokens. token_mutator. Qed.

Lemma preserves_db_updateLastLogin env id : preserves_db (updateLastLogin env id).
Proof.
  unfold updateLastLogin. token_mutator.
  match goal with Hu : users_get _ _ = Some _ |- _ =>
    apply users_get_Some in Hu as (k & -> & Hu);
    destruct Hc as (_ & Hok & _); destruct (Hok _ _ Hu) as [_ [l Hl]] end.
  exists l. now rewrite !get_insert_ne by discriminate.
Qed.

Ltac preserved :=
  repeat first
    [ apply preserves_bind; [|intros ?]
    | apply preserves_try_catch; [|intros ?]
    | apply preserves_liftDb
    | apply preserves_keeps;
      first [ apply keeps_store_ret | apply keeps_store_throw | apply keeps_store_lift
            | apply keeps_store_console_error | apply keeps_store_sendEmail
            | apply keeps_store_trigger ]
    | apply preserves_db_findUserById | apply preserves_db_findUserByEmail
    | apply preserves_db_createUser
    | apply preserves_db_addRefreshToken | apply preserves_db_removeRefreshToken
    | apply preserves_db_removeAllRefreshTokens | apply preserves_db_updateLastLogin
    | apply preserves_db_updateUser; [done | done]
    | case_match ].

Section Consistency.
Context {bc : Bcrypt} {jw : Jsonwebtoken}.
Variables (config this_config : Config).

Lemma perform_consistent env call (w : World users) :
  consistent (store w) -> consistent (store (perform config this_config env call w)).
Proof.
  intros Hc.
  assert (forall A (m : Eff (World users) A), preserves m -> consistent (store (snd (m w))))
    as Hp.
  { intros A m Hm. destruct (m w) as [r w'] eqn:E. eapply Hm; eauto. }
  destruct call; cbn [perform]; apply Hp; memory.
  - unfold AuthService.register, sendVerificationEmail, sendWelcomeEmail. memory. preserved.
  - unfold AuthService.login. memory. preserved.
  - unfold AuthService.logout. memory. preserved.
  - unfold AuthService.logoutAll. memory. preserved.
  - unfold AuthService.refreshToken. memory. preserved.
  - unfold AuthService.verifyEmail, sendWelcomeEmail. memory. preserved.
  - unfold AuthService.resendVerificationEmail, sendVerificationEmail. memory. preserved.
  - unfold AuthService.forgotPassword, sendPasswordResetEmail. memory. preserved.
  - unfold AuthService.resetPassword, sendPasswordChangedEmail. memory. preserved.
  - unfold AuthService.changePassword, sendPasswordChangedEmail. memory. preserved.
  - unfold AuthService.getProfile. memory. preserved.
  - unfold AuthService.updateProfile. memory.
    apply preserves_bind; [|intros ?; preserved].
    apply preserves_liftDb, preserves_db_updateUser; apply filterUpdates_lookup; compute_done.
Qed.

End Consistency.

(** X1. Whatever the configuration, the hooks and the two libraries, a
    history of calls of the twelve service methods run against the
    in-memory adapter keeps its users map consistent: each key occurs
    once, every record carries its key as [id] and an array as
    [refreshTokens], and no two records share an e-mail address.  This
    holds from any consistent map, the empty one in particular, calls
    that throw included. *)
Theorem service_keeps_store_consistent {bc : Bcrypt} {jw : Jsonwebtoken}
    (config this_config : Config) (calls : list (Env * ServiceCall))
    (w : World users) :
  consistent (store w) ->
  consistent (store (perform_all config this_config calls w)).
Proof.
  unfold perform_all. revert w.
  induction calls as [|[env call] calls IH]; intros w Hc; [exact Hc|].
  cbn [foldl]. apply IH. now apply perform_consistent.
Qed.

Lemma service_keeps_store_consistent_witness :
  consistent
    (store (perform_all (bc := Reference.bcrypt) (jw := Reference.jsonwebtoken)
              Reference.config Reference.config
              [ (Reference.env_at 2000000 "u2", Register (Scenario.registration VUndefined));
                (Reference.env_at 3000000 "",
                 Login (VStr "bob@example.com") (VStr "Str0ng!Pass"));
                (Reference.env_at 4000000 "",
                 UpdateProfile (VStr "u2") {[ "name" := VStr "Robert" ]});
                (Reference.env_at 5000000 "", LogoutAll (VStr "u2")) ]
              Reference.empty_world)).
Proof.
  apply (service_keeps_store_consistent (bc := Reference.bcrypt)
           (jw := Reference.jsonwebtoken) Reference.config Reference.config
           [ (Reference.env_at 2000000 "u2", Register (Scenario.registration VUndefined));
             (Reference.env_at 3000000 "",
              Login (VStr "bob@example.com") (VStr "Str0ng!Pass"));
             (Reference.env_at 4000000 "",
              UpdateProfile (VStr "u2") {[ "name" := VStr "Robert" ]});
             (Reference.env_at 5000000 "", LogoutAll (VStr "u2")) ]
           Reference.empty_world).
  apply consistent_nil.
Defined.

(** ** The in-memory adapter *)





(** X4. [deleteUser] tells whether a record was stored under the id,
    removes it and leaves every other record and the consistency of the
    map alone.  Afterwards [getProfile] of that id throws
    [NotFoundError], and a refresh token issued to it is refused by
    [refreshToken] with [AuthenticationError('User not found')] as long
    as it verifies, with the verifier's error otherwise; neither call
    changes the world. *)
Theorem deleteUser_removes_user {jw : Jsonwebtoken} (config : Config) (env : Env)
    (k : string) (token : string) (m : users) (o : list Mail) (c : list string) :
  consistent m ->
  issued_to token (VStr k) ->
  let out := deleteUser (VStr k) m in
  fst out = Return (bool_decide (is_Some (users_get m (VStr k))))
  /\ users_get (snd out) (VStr k) = None
  /\ (forall id, id ≠ VStr k -> users_get (snd out) id = users_get m id)
  /\ consistent (snd out)
  /\ AuthService.getProfile adapter (VStr k) (mkWorld (snd out) o c) =
       (Throw (NotFoundError "User not found"), mkWorld (snd out) o c)
  /\ AuthService.refreshToken config adapter env token (mkWorld (snd out) o c) =
       (match verifyRefreshToken config env token with
        | Return _ => Throw (AuthenticationError "User not found")
        | Throw e => Throw e
        end, mkWorld (snd out) o c).
Proof.
  intros Hc (key & clock & payload & Hp & Hid) out. subst out.
  rewrite deleteUser_eq. cbn [fst snd].
  assert (users_get (snd (JsMap.delete m k)) (VStr k) = None) as Hgone.
  { cbn [users_get]. rewrite JsMap_delete_get. now rewrite bool_decide_eq_true_2. }
  split; [|split; [|split; [|split; [|split]]]].
  - unfold JsMap.delete. cbn [fst users_get].
    destruct (JsMap.get m k); [rewrite bool_decide_eq_true_2 | rewrite bool_decide_eq_false_2];
      eauto using is_Some_None.
  - exact Hgone.
  - intros [] Hne; try reflexivity. cbn [users_get]. rewrite JsMap_delete_get.
    rewrite bool_decide_eq_false_2; [reflexivity | congruence].
  - now apply JsMap_delete_consistent.
  - unfold AuthService.getProfile. memory. db_step findUserById_eq.
    cbn [store]. rewrite Hgone. reflexivity.
  - destruct (verifyRefreshToken config env token) as [d|e] eqn:Hv.
    + destruct (verifyRefreshToken_Return _ _ _ _ Hv) as [Hd _].
      rewrite (jwt_verify_payload _ _ _ _ _ _ _ Hd Hp) in Hv.
      unfold AuthService.refreshToken. memory. rewrite bind_lift, Hv.
      db_step findUserById_eq. rewrite Hid. cbn [store]. rewrite Hgone.
      reflexivity.
    + now apply refreshToken_verifier_throws.
Qed.

Lemma deleteUser_removes_user_witness :
  let m := store (Scenario.world_of (Scenario.alice true [Scenario.token_1000])) in
  let out := deleteUser (VStr "u1") m in
  fst out = Return (bool_decide (is_Some (users_get m (VStr "u1"))))
  /\ users_get (snd out) (VStr "u1") = None
  /\ (forall id, id ≠ VStr "u1" -> users_get (snd out) id = users_get m id)
  /\ consistent (snd out)
  /\ AuthService.getProfile adapter (VStr "u1") (mkWorld (snd out) [] []) =
       (Throw (NotFoundError "User not found"), mkWorld (snd out) [] [])
  /\ AuthService.refreshToken (jw := Reference.jsonwebtoken) Reference.config adapter
       (Reference.env_at 2000000 "") Scenario.token_1000 (mkWorld (snd out) [] []) =
       (match verifyRefreshToken (jw := Reference.jsonwebtoken) Reference.config
                (Reference.env_at 2000000 "") Scenario.token_1000 with
        | Return _ => Throw (AuthenticationError "User not found")
        | Throw e => Throw e
        end, mkWorld (snd out) [] []).
Proof.
  cbv zeta.
  apply (deleteUser_removes_user (jw := Reference.jsonwebtoken) Reference.config
           (Reference.env_at 2000000 "") "u1" Scenario.token_1000
           (store (Scenario.world_of (Scenario.alice true [Scenario.token_1000])))
           [] []).
  - apply consistent_one. split; [run | exists [Scenario.token_1000]; run].
  - exists (refreshSecret (jwt Reference.config)), 2000, Scenario.payload_1000.
    split; run.
Defined.

(** ** Further stepping lemmas *)

Lemma updateLastLogin_found env id m u :
  users_get m id = Some u ->
  updateLastLogin env id m =
    (Return tt, users_set m id (<["updatedAt" := new_Date env]>
        (<["lastLogin" := new_Date env]> u))).
Proof. intros Hu. unfold updateLastLogin. eff_unfold. now rewrite Hu. Qed.

Lemma insert_updatedAt_twice (u : obj) d k v :
  <["updatedAt" := d]> (<[k := v]> (<["updatedAt" := d]> u)) =
  <["updatedAt" := d]> (<[k := v]> u).
Proof.
  apply map_eq. intros j.
  destruct (decide (j = "updatedAt")) as [->|]; [now rewrite !lookup_insert_eq|].
  rewrite !(lookup_insert_ne _ "updatedAt") by congruence.
  destruct (decide (j = k)) as [->|]; [now rewrite !lookup_insert_eq|].
  now rewrite !lookup_insert_ne by congruence.
Qed.

Lemma get_spread_set (u updates : obj) k v :
  updates !! k = Some v -> get (spread u updates) k = v.
Proof. intros E. unfold get, spread. now erewrite lookup_union_Some_l. Qed.

Lemma get_delete_ne (o : obj) k k' : k ≠ k' -> get (delete k o) k' = get o k'.
Proof. intros. unfold get. now rewrite lookup_delete_ne. Qed.

Lemma trigger_returns {S} hook user (w : World S) :
  hook_returns hook -> AuthService.trigger hook user w = (Return tt, w).
Proof.
  intros Hk. unfold AuthService.trigger. destruct hook as [hk|]; [|reflexivity].
  unfold lift. now rewrite (Hk hk _ eq_refl).
Qed.

Section MoreVerifiers.
Context {jw : Jsonwebtoken}.
Variable config : Config.

Lemma typed_verifier_Return env key type expired invalid token d :
  ccatch (verify_typed env key type token) (rethrow_jwt expired invalid) = Return d ->
  jwt_verify token key (now_s env) = Return d /\ is_str (get d "type") type = true.
Proof.
  unfold ccatch. intros E. apply verify_typed_Return.
  destruct (verify_typed env key type token) as [d'|e]; [exact E|].
  destruct (rethrow_jwt_throws expired invalid e) as [e' He]. congruence.
Qed.

Lemma verifyEmailVerificationToken_payload env env' token d d' :
  verifyEmailVerificationToken config env token = Return d ->
  verifyEmailVerificationToken config env' token = Return d' -> d' = d.
Proof.
  intros [H _]%typed_verifier_Return [H' _]%typed_verifier_Return.
  eapply jwt_verify_payload; eauto.
Qed.

Lemma verifyPasswordResetToken_payload env env' token d d' :
  verifyPasswordResetToken config env token = Return d ->
  verifyPasswordResetToken config env' token = Return d' -> d' = d.
Proof.
  intros [H _]%typed_verifier_Return [H' _]%typed_verifier_Return.
  eapply jwt_verify_payload; eauto.
Qed.

End MoreVerifiers.

(** ** register *)

Lemma createUser_fresh env userData e (m : users) :
  get userData "email" = VStr e ->
  find_email (JsMap.values m) (VStr e) = Return None ->
  createUser env userData m =
    (Return (new_user env userData (lower e)),
     JsMap.set m (random_uuid env) (new_user env userData (lower e))).
Proof.
  intros He Hf. unfold createUser. rewrite bind_lift, He. cbn [toLowerCase].
  unfold bind, findUserByEmailSync.
  change (get (new_user env userData (lower e)) "email") with (VStr (lower e)).
  now rewrite find_email_lower, Hf.
Qed.


Section RegisterRun.
Context {bc : Bcrypt} {jw : Jsonwebtoken}.
Variables (config this_config : Config).

Lemma register_inputs env userData (w w' : World users) r :
  AuthService.register config adapter this_config env userData w = (Return r, w') ->
  exists e p, get userData "email" = VStr e /\ get userData "password" = VStr p
    /\ p ≠ "" /\ find_email (JsMap.values (store w)) (VStr e) = Return None.
Proof.
  unfold AuthService.register. memory. unfold bind at 1. rewrite findUserByEmail_eq.
  destruct (find_email (JsMap.values (store w)) (get userData "email"))
    as [[u|]|e0] eqn:Hf; try discriminate.
  rewrite bind_lift.
  destruct (get userData "password") as [| | | |p| |] eqn:Hp; try discriminate.
  cbn [hashPassword truthy]. case_bool_decide as Hne; [discriminate|]. cbn [negb].
  rewrite bind_lift.
  destruct (get userData "email") as [| | | |e| |] eqn:He; try discriminate.
  intros _. eauto 10.
Qed.

Lemma register_steps env userData (w : World users) e p :
  get userData "email" = VStr e -> get userData "password" = VStr p -> p ≠ "" ->
  find_email (JsMap.values (store w)) (VStr e) = Return None ->
  AuthService.register config adapter this_config env userData w =
    after_created config this_config env (created_user this_config env userData e p)
      (mkWorld
         (JsMap.set (store w) (random_uuid env)
            (<["updatedAt" := new_Date env]>
               (<["refreshTokens" :=
                    VArr [refreshToken
                            (generateTokens config env (created_user this_config env userData e p))]]>
                  (created_user this_config env userData e p))))
         (outbox w) (console w)).
Proof.
  intros He Hp Hne Hf. unfold AuthService.register. memory.
  step (rewrite findUserByEmail_eq, He, Hf; reflexivity).
  rewrite bind_lift, Hp. cbn [hashPassword truthy].
  rewrite bool_decide_eq_false_2 by assumption. cbn [negb].
  rewrite bind_lift, He. cbn [toLowerCase].
  step (apply liftDb_eq; apply (createUser_fresh env _ (lower e));
        [reflexivity | now rewrite find_email_lower]).
  rewrite lower_idem. fold (created_user this_config env userData e p).
  step (apply liftDb_eq; cbn [store];
        apply (addRefreshToken_found _ (VStr (random_uuid env)) _ _
                 (created_user this_config env userData e p) []);
        [apply JsMap_get_set_eq | reflexivity]).
  cbn [store outbox console users_set app]. rewrite JsMap_set_set. reflexivity.
Qed.

Lemma keeps_store_after_created env nu : keeps_store (after_created config this_config env nu).
Proof.
  unfold after_created. apply keeps_store_bind.
  - destruct (emailVerification (features this_config)).
    + apply keeps_store_sendEmail.
    + apply keeps_store_try_catch;
        [apply keeps_store_sendEmail | intros _; apply keeps_store_console_error].
  - intros _. apply keeps_store_bind; [apply keeps_store_trigger|].
    intros _. apply keeps_store_ret.
Qed.

Lemma after_created_Return env nu (w w' : World users) r :
  after_created config this_config env nu w = (Return r, w') ->
  r = {| user := sanitizeUser (Some nu); issued := generateTokens config env nu |}.
Proof.
  unfold after_created. intros E.
  apply bind_inv in E as (? & ? & _ & E). apply bind_inv in E as (? & ? & _ & E).
  now injection E as <- _.
Qed.

Lemma register_conflict env userData (w : World users) u e :
  get userData "email" = VStr e ->
  u ∈ JsMap.values (store w) -> get u "email" = VStr (lower e) ->
  AuthService.register config adapter this_config env userData w =
    (Throw (ConflictError "Email already registered"), w).
Proof.
  intros He Hu Hue. unfold AuthService.register. memory.
  destruct (find_email_exists _ e _ Hu Hue) as [u' Hf].
  now step (rewrite findUserByEmail_eq, He, Hf; reflexivity).
Qed.

Lemma register_account env userData (w w' : World users) r :
  AuthService.register config adapter this_config env userData w = (Return r, w') ->
  exists e p,
    get userData "email" = VStr e /\ get userData "password" = VStr p
    /\ r = {| user := sanitizeUser (Some (created_user this_config env userData e p));
              issued := generateTokens config env (created_user this_config env userData e p) |}
    /\ store w' =
         JsMap.set (store w) (random_uuid env)
           (<["updatedAt" := new_Date env]>
              (<["refreshTokens" :=
                   VArr [refreshToken
                           (generateTokens config env (created_user this_config env userData e p))]]>
                 (created_user this_config env userData e p))).
Proof.
  intros E. destruct (register_inputs _ _ _ _ _ E) as (e & p & He & Hp & Hne & Hf).
  rewrite (register_steps _ _ _ _ _ He Hp Hne Hf) in E.
  exists e, p. split; [exact He|]. split; [exact Hp|]. split.
  - eapply after_created_Return; eauto.
  - now apply keeps_store_after_created in E.
Qed.


End RegisterRun.







(** X8. Once [register] has resolved for an address, any later [register]
    with an address that agrees with it up to case throws
    [ConflictError('Email already registered')] and leaves the world as
    it is. *)
Theorem register_same_email_conflicts {bc : Bcrypt} {jw : Jsonwebtoken}
    (config this_config : Config) (env env' : Env) (userData userData' : obj)
    (w w' : World users) (r : AuthResult) (e e' : string) :
  AuthService.register config adapter this_config env userData w = (Return r, w') ->
  get userData "email" = VStr e ->
  get userData' "email" = VStr e' ->
  lower e' = lower e ->
  AuthService.register config adapter this_config env' userData' w' =
    (Throw (ConflictError "Email already registered"), w').
Proof.
  intros E He He' Hl.
  destruct (register_account _ _ _ _ _ _ _ E) as (e0 & p & He0 & _ & _ & Hs).
  assert (e0 = e) as -> by congruence.
  eapply register_conflict; [exact He'| |].
  - rewrite Hs. eapply JsMap_get_values, JsMap_get_set_eq.
  - rewrite Hl. rewrite !get_insert_ne by discriminate. reflexivity.
Qed.

Lemma register_same_email_conflicts_witness :
  let out := Scenario.register (Reference.env_at 2000000 "u2")
               (Scenario.registration VUndefined) Reference.empty_world in
  Scenario.register (Reference.env_at 3000000 "u3")
    (object [ ("email", VStr "BOB@example.COM"); ("password", VStr "An0ther!Pass") ])
    (snd out)
  = (Throw (ConflictError "Email already registered"), snd out).
Proof.
  cbv zeta.
  apply (register_same_email_conflicts (bc := Reference.bcrypt)
           (jw := Reference.jsonwebtoken) Reference.config Reference.config
           (Reference.env_at 2000000 "u2") (Reference.env_at 3000000 "u3")
           (Scenario.registration VUndefined)
           (object [ ("email", VStr "BOB@example.COM");
                     ("password", VStr "An0ther!Pass") ])
           Reference.empty_world
           (snd (Scenario.register (Reference.env_at 2000000 "u2")
                   (Scenario.registration VUndefined) Reference.empty_world))
           (returned no_result
              (fst (Scenario.register (Reference.env_at 2000000 "u2")
                      (Scenario.registration VUndefined) Reference.empty_world)))
           "Bob@Example.com" "BOB@example.COM").
  - run.
  - run.
  - run.
  - run.
Defined.

(** ** login *)

Section Sessions.
Context {bc : Bcrypt} {jw : Jsonwebtoken}.
Variables (config this_config : Config).

Lemma login_steps env email p h (w : World users) u l :
  find_email (JsMap.values (store w)) email = Return (Some u) ->
  users_get (store w) (get u "id") = Some u ->
  get u "refreshTokens" = VArr l ->
  truthy (get u "isActive") = true ->
  p ≠ "" -> get u "password" = VStr h -> h ≠ "" ->
  bcrypt_compare p h = true ->
  (emailVerification (features this_config) = true ->
   truthy (get u "isEmailVerified") = true) ->
  hook_returns (onLogin (hooks this_config)) ->
  AuthService.login config adapter this_config env email (VStr p) w =
    (Return {| user := sanitizeUser (Some u);
               issued := generateTokens config env u |},
     mkWorld (users_set (store w) (get u "id")
                (<["updatedAt" := new_Date env]>
                   (<["lastLogin" := new_Date env]>
                      (<["refreshTokens" :=
                           VArr (l ++ [refreshToken (generateTokens config env u)])]>
                         u))))
             (outbox w) (console w)).
Proof.
  intros Hf Hu Hl Ha Hp Hh Hhne Hcmp Hv Hk.
  unfold AuthService.login. memory.
  step (rewrite findUserByEmail_eq, Hf; reflexivity).
  rewrite Ha. cbn [negb].
  rewrite bind_lift, Hh. unfold comparePassword. cbn [truthy].
  rewrite !bool_decide_eq_false_2 by assumption. cbn [negb].
  rewrite Hcmp. cbn [negb].
  assert (emailVerification (features this_config)
          && negb (truthy (get u "isEmailVerified")) = false) as ->.
  { destruct (emailVerification (features this_config)); [|reflexivity].
    now rewrite Hv. }
  step (apply liftDb_eq; apply (addRefreshToken_found _ _ _ _ _ _ Hu Hl)).
  step (apply liftDb_eq; cbn [store]; eapply updateLastLogin_found;
        eapply users_get_set_eq, Hu).
  cbn [store outbox console]. rewrite users_set_set.
  rewrite (bind_return _ _ _ _ _ (trigger_returns _ _ _ Hk)).
  unfold ret. now rewrite insert_updatedAt_twice.
Qed.

End Sessions.

(** X9. Over a consistent store, for an active user found by the address,
    a non-empty password that matches the stored hash, a verified address
    where verification is required and an [onLogin] hook that does not
    throw, [login] resolves to the sanitized user and the tokens
    generated for it, and the only change in the world is in that user's
    record: the new refresh token is appended to [refreshTokens], and
    [lastLogin] and [updatedAt] hold the time of the call. *)
Theorem login_stores_one_refresh_token {bc : Bcrypt} {jw : Jsonwebtoken}
    (config this_config : Config) (env : Env) (email : value) (p h : string)
    (w : World users) (u : obj) :
  consistent (store w) ->
  find_email (JsMap.values (store w)) email = Return (Some u) ->
  truthy (get u "isActive") = true ->
  p ≠ "" -> get u "password" = VStr h -> h ≠ "" ->
  bcrypt_compare p h = true ->
  (emailVerification (features this_config) = true ->
   truthy (get u "isEmailVerified") = true) ->
  hook_returns (onLogin (hooks this_config)) ->
  exists l,
    get u "refreshTokens" = VArr l
    /\ AuthService.login config adapter this_config env email (VStr p) w =
         (Return {| user := sanitizeUser (Some u);
                    issued := generateTokens config env u |},
          mkWorld (users_set (store w) (get u "id")
                     (<["updatedAt" := new_Date env]>
                        (<["lastLogin" := new_Date env]>
                           (<["refreshTokens" :=
                                VArr (l ++ [refreshToken (generateTokens config env u)])]>
                              u))))
                  (outbox w) (console w)).
Proof.
  intros Hc Hf Ha Hp Hh Hhne Hcmp Hv Hk.
  destruct (found_by_email_stored _ _ _ Hc Hf) as [Hu [l Hl]].
  exists l. split; [exact Hl|]. eapply login_steps; eauto.
Qed.

Lemma login_stores_one_refresh_token_witness :
  exists l,
    get (Scenario.alice true ["t0"]) "refreshTokens" = VArr l
    /\ AuthService.login (bc := Reference.bcrypt) (jw := Reference.jsonwebtoken)
         Reference.config adapter Reference.config (Reference.env_at 2000000 "")
         (VStr "Alice@Example.com") (VStr "Str0ng!Pass")
         (Scenario.world_of (Scenario.alice true ["t0"])) =
         (Return {| user := sanitizeUser (Some (Scenario.alice true ["t0"]));
                    issued := generateTokens (jw := Reference.jsonwebtoken)
                                Reference.config (Reference.env_at 2000000 "")
                                (Scenario.alice true ["t0"]) |},
          mkWorld (users_set (store (Scenario.world_of (Scenario.alice true ["t0"])))
                     (get (Scenario.alice true ["t0"]) "id")
                     (<["updatedAt" := new_Date (Reference.env_at 2000000 "")]>
                        (<["lastLogin" := new_Date (Reference.env_at 2000000 "")]>
                           (<["refreshTokens" :=
                                VArr (l ++
                                  [refreshToken
                                     (generateTokens (jw := Reference.jsonwebtoken)
                                        Reference.config (Reference.env_at 2000000 "")
                                        (Scenario.alice true ["t0"]))])]>
                              (Scenario.alice true ["t0"])))))
                  (outbox (Scenario.world_of (Scenario.alice true ["t0"])))
                  (console (Scenario.world_of (Scenario.alice true ["t0"])))).
Proof.
  apply (login_stores_one_refresh_token (bc := Reference.bcrypt)
           (jw := Reference.jsonwebtoken) Reference.config Reference.config
           (Reference.env_at 2000000 "") (VStr "Alice@Example.com") "Str0ng!Pass"
           (Reference.hash "Str0ng!Pass" "salt")
           (Scenario.world_of (Scenario.alice true ["t0"]))
           (Scenario.alice true ["t0"])).
  - apply consistent_one. split; [run | exists ["t0"]; run].
  - run.
  - run.
  - run.
  - run.
  - run.
  - run.
  - intros _. run.
  - intros h arg; discriminate.
Defined.

(** X10. When the [onLogin] hook does not throw, a [login] that throws has
    changed nothing: no refresh token is stored, [lastLogin] is not
    touched, no mail is sent and nothing is logged, whatever the reason of
    the failure. *)
Theorem login_failure_keeps_world {bc : Bcrypt} {jw : Jsonwebtoken}
    (config this_config : Config) (env : Env) (email password : value)
    (w w' : World users) (e : js_error) :
  hook_returns (onLogin (hooks this_config)) ->
  AuthService.login config adapter this_config env email password w = (Throw e, w') ->
  w' = w.
Proof.
  intros Hk. unfold AuthService.login. memory.
  unfold bind at 1. rewrite findUserByEmail_eq.
  destruct (find_email (JsMap.values (store w)) email) as [[u|]|e0];
    [| now intros [= _ <-] ..].
  destruct (truthy (get u "isActive")); cbn [negb]; [|now intros [= _ <-]].
  rewrite bind_lift.
  destruct (comparePassword password (get u "password")) as [[]|e0]; cbn [negb];
    [| now intros [= _ <-] ..].
  destruct (emailVerification (features this_config)
            && negb (truthy (get u "isEmailVerified"))); [now intros [= _ <-]|].
  destruct (users_get (store w) (get u "id")) as [su|] eqn:Hu.
  - destruct (get su "refreshTokens") eqn:Hl;
      try (erewrite bind_throw;
           [ now intros [= _ <-]
           | unfold liftDb, addRefreshToken; eff_unfold; rewrite Hu, Hl; cbn;
             now destruct w ]).
    step (apply liftDb_eq; apply (addRefreshToken_found _ _ _ _ _ _ Hu Hl)).
    step (apply liftDb_eq; cbn [store]; eapply updateLastLogin_found;
          eapply users_get_set_eq, Hu).
    unfold bind, AuthService.trigger.
    destruct (onLogin (hooks this_config)) as [hk|]; [|discriminate].
    unfold lift. now rewrite (Hk hk _ eq_refl).
  - step (unfold liftDb, addRefreshToken; eff_unfold; rewrite Hu; reflexivity).
    step (unfold liftDb, updateLastLogin; eff_unfold; cbn [store]; rewrite Hu; reflexivity).
    unfold bind, AuthService.trigger.
    destruct (onLogin (hooks this_config)) as [hk|]; [|discriminate].
    unfold lift. now rewrite (Hk hk _ eq_refl).
Qed.

Lemma login_failure_keeps_world_witness :
  snd (Scenario.login (Reference.env_at 2000000 "") (VStr "alice@example.com")
         (VStr "wrong") (Scenario.world_of (Scenario.alice true ["t0"])))
  = Scenario.world_of (Scenario.alice true ["t0"]).
Proof.
  apply (login_failure_keeps_world (bc := Reference.bcrypt)
           (jw := Reference.jsonwebtoken) Reference.config Reference.config
           (Reference.env_at 2000000 "") (VStr "alice@example.com") (VStr "wrong")
           (Scenario.world_of (Scenario.alice true ["t0"]))
           (snd (Scenario.login (Reference.env_at 2000000 "") (VStr "alice@example.com")
                   (VStr "wrong") (Scenario.world_of (Scenario.alice true ["t0"]))))
           invalid_credentials).
  - intros h arg; discriminate.
  - run.
Defined.

(** X11. A refresh token is a function of the user id and the clock second.
    Two successful logins of one user within the same second return the
    same refresh token, which is then stored twice; one [logout] with it
    removes both occurrences, so that ending one of the two sessions ends
    the other. *)
Theorem same_second_logins_share_refresh_token {bc : Bcrypt} {jw : Jsonwebtoken}
    (config this_config : Config) (env1 env2 env3 : Env) (email : value)
    (p h : string) (w : World users) (u : obj) (l : list string) :
  consistent (store w) ->
  find_email (JsMap.values (store w)) email = Return (Some u) ->
  get u "refreshTokens" = VArr l ->
  truthy (get u "isActive") = true ->
  p ≠ "" -> get u "password" = VStr h -> h ≠ "" ->
  bcrypt_compare p h = true ->
  (emailVerification (features this_config) = true ->
   truthy (get u "isEmailVerified") = true) ->
  hook_returns (onLogin (hooks this_config)) ->
  hook_returns (onLogout (hooks this_config)) ->
  now_s env1 = now_s env2 ->
  let t := refreshToken (generateTokens config env1 u) in
  let out1 := AuthService.login config adapter this_config env1 email (VStr p) w in
  let out2 := AuthService.login config adapter this_config env2 email (VStr p)
                (snd out1) in
  let out3 := AuthService.logout adapter this_config env3 (get u "id") t (snd out2) in
  refreshToken (issued (returned no_result (fst out1))) = t
  /\ refreshToken (issued (returned no_result (fst out2))) = t
  /\ (exists u2, users_get (store (snd out2)) (get u "id") = Some u2
                 /\ get u2 "refreshTokens" = VArr (l ++ [t; t]))
  /\ fst out3 = Return tt
  /\ (exists u3, users_get (store (snd out3)) (get u "id") = Some u3
                 /\ get u3 "refreshTokens" = VArr (filter (λ t', t' ≠ t) l)).
Proof.
  intros Hc Hf Hl Ha Hp Hh Hhne Hcmp Hv Hk Hko Hs t out1 out2 out3.
  destruct (found_by_email_stored _ _ _ Hc Hf) as [Hu _].
  set (u1 := <["updatedAt" := new_Date env1]>
               (<["lastLogin" := new_Date env1]>
                  (<["refreshTokens" := VArr (l ++ [t])]> u))).
  assert (out1 = (Return {| user := sanitizeUser (Some u);
                            issued := generateTokens config env1 u |},
                  mkWorld (users_set (store w) (get u "id") u1) (outbox w) (console w)))
    as E1 by (eapply login_steps; eauto).
  assert (forall k, k ∉ ["refreshTokens"; "lastLogin"; "updatedAt"] -> get u1 k = get u k)
    as Hsame.
  { intros k Hn. subst u1.
    rewrite !get_insert_ne by (intros <-; apply Hn; compute_done). reflexivity. }
  assert (get u1 "refreshTokens" = VArr (l ++ [t])) as Hl1.
  { subst u1. rewrite !get_insert_ne by discriminate. apply get_insert_eq. }
  assert (get u1 "id" = get u "id") as Hid1 by (apply Hsame; compute_done).
  assert (generateTokens config env2 u1 = generateTokens config env1 u) as Ht2.
  { unfold generateTokens, generateAccessToken, generateRefreshToken.
    rewrite <- Hs, Hid1, !(Hsame "email"), !(Hsame "role") by compute_done.
    reflexivity. }
  set (u2 := <["updatedAt" := new_Date env2]>
               (<["lastLogin" := new_Date env2]>
                  (<["refreshTokens" := VArr ((l ++ [t]) ++ [t])]> u1))).
  assert (out2 = (Return {| user := sanitizeUser (Some u1);
                            issued := generateTokens config env2 u1 |},
                  mkWorld (users_set (store w) (get u "id") u2) (outbox w) (console w)))
    as E2.
  { subst out2. rewrite E1. cbn [snd].
    erewrite (login_steps config this_config env2 email p h _ u1 (l ++ [t])); cycle 1.
    - cbn [store]. apply find_email_after_touch; [exact Hc | exact Hf |].
      apply Hsame. compute_done.
    - cbn [store]. rewrite Hid1. eapply users_get_set_eq, Hu.
    - exact Hl1.
    - rewrite Hsame by compute_done. exact Ha.
    - exact Hp.
    - rewrite Hsame by compute_done. exact Hh.
    - exact Hhne.
    - exact Hcmp.
    - rewrite Hsame by compute_done. exact Hv.
    - exact Hk.
    - cbn [store outbox console]. rewrite Hid1, users_set_set, Ht2. reflexivity. }
  assert (get u2 "refreshTokens" = VArr (l ++ [t; t])) as Hl2.
  { subst u2. rewrite !get_insert_ne by discriminate. rewrite get_insert_eq.
    now rewrite <- app_assoc. }
  assert (users_get (users_set (store w) (get u "id") u2) (get u "id") = Some u2) as Hu2
    by (eapply users_get_set_eq, Hu).
  rewrite E1. cbn [fst returned issued]. split; [reflexivity|].
  rewrite E2. cbn [fst snd returned issued]. split; [now rewrite Ht2|].
  split; [eauto|].
  subst out3. rewrite E2. cbn [snd].
  unfold AuthService.logout. memory.
  erewrite bind_return; cycle 1.
  { apply liftDb_eq. cbn [store]. apply (removeRefreshToken_found _ _ _ _ _ _ Hu2 Hl2). }
  rewrite logout_tail by assumption. cbn [fst snd store].
  split; [reflexivity|]. eexists. split.
  - eapply users_get_set_eq, Hu2.
  - rewrite get_insert_ne by discriminate. rewrite get_insert_eq. f_equal.
    rewrite filter_app. cbn. rewrite !decide_False by (intros H; now apply H).
    apply app_nil_r.
Qed.

Lemma same_second_logins_share_refresh_token_witness :
  let u := Scenario.alice true ["t0"] in
  let t := refreshToken (generateTokens (jw := Reference.jsonwebtoken) Reference.config
                           (Reference.env_at 2000100 "") u) in
  let out1 := Scenario.login (Reference.env_at 2000100 "") (VStr "alice@example.com")
                (VStr "Str0ng!Pass") (Scenario.world_of u) in
  let out2 := Scenario.login (Reference.env_at 2000900 "") (VStr "alice@example.com")
                (VStr "Str0ng!Pass") (snd out1) in
  let out3 := AuthService.logout adapter Reference.config (Reference.env_at 3000000 "")
                (get u "id") t (snd out2) in
  refreshToken (issued (returned no_result (fst out1))) = t
  /\ refreshToken (issued (returned no_result (fst out2))) = t
  /\ (exists u2, users_get (store (snd out2)) (get u "id") = Some u2
                 /\ get u2 "refreshTokens" = VArr (["t0"] ++ [t; t]))
  /\ fst out3 = Return tt
  /\ (exists u3, users_get (store (snd out3)) (get u "id") = Some u3
                 /\ get u3 "refreshTokens" = VArr (filter (λ t', t' ≠ t) ["t0"])).
Proof.
  cbv zeta.
  apply (same_second_logins_share_refresh_token (bc := Reference.bcrypt)
           (jw := Reference.jsonwebtoken) Reference.config Reference.config
           (Reference.env_at 2000100 "") (Reference.env_at 2000900 "")
           (Reference.env_at 3000000 "") (VStr "alice@example.com") "Str0ng!Pass"
           (Reference.hash "Str0ng!Pass" "salt")
           (Scenario.world_of (Scenario.alice true ["t0"]))
           (Scenario.alice true ["t0"]) ["t0"]).
  - apply consistent_one. split; [run | exists ["t0"]; run].
  - run.
  - run.
  - run.
  - run.
  - run.
  - run.
  - run.
  - intros _. run.
  - intros hk arg; discriminate.
  - intros hk arg; discriminate.
  - run.
Defined.

(** ** logout and logoutAll *)

(** X12. For a stored user and an [onLogout] hook that does not throw,
    [logout] resolves and removes every occurrence of the token from the
    user's [refreshTokens], keeping the other tokens, and sets
    [updatedAt]; nothing else changes.  A later [refreshToken] with that
    token, where it was issued to the user, throws and changes nothing. *)
Theorem logout_revokes_token {jw : Jsonwebtoken} (config this_config : Config)
    (env env' : Env) (userId : value) (token : string) (w : World users)
    (u : obj) (l : list string) :
  hook_returns (onLogout (hooks this_config)) ->
  users_get (store w) userId = Some u ->
  get u "refreshTokens" = VArr l ->
  issued_to token userId ->
  let kept := filter (λ t, t ≠ token) l in
  let w' := mkWorld (users_set (store w) userId
                       (<["updatedAt" := new_Date env]>
                          (<["refreshTokens" := VArr kept]> u)))
                    (outbox w) (console w) in
  AuthService.logout adapter this_config env userId token w = (Return tt, w')
  /\ (token ∉ kept)
  /\ (forall t, t ≠ token -> t ∈ kept <-> t ∈ l)
  /\ exists e, AuthService.refreshToken config adapter env' token w' = (Throw e, w').
Proof.
  intros Hh Hu Hl Hi kept w'. subst kept w'.
  assert (token ∉ filter (λ t, t ≠ token) l) as Hn.
  { rewrite list_elem_of_filter. tauto. }
  split; [|split; [exact Hn|split]].
  - unfold AuthService.logout. memory.
    step (apply liftDb_eq; apply (removeRefreshToken_found _ _ _ _ _ _ Hu Hl)).
    now apply logout_tail.
  - intros t Ht. rewrite list_elem_of_filter. tauto.
  - erewrite refreshToken_not_in_set; cycle 1.
    + cbn [store]. eapply users_get_set_eq, Hu.
    + rewrite get_insert_ne by discriminate. apply get_insert_eq.
    + exact Hn.
    + exact Hi.
    + destruct (verifyRefreshToken config env' token); eauto.
Qed.

Lemma logout_revokes_token_witness :
  let l := [Scenario.token_1000; "other"; Scenario.token_1000] in
  let w := Scenario.world_of (Scenario.alice true l) in
  let kept := filter (λ t, t ≠ Scenario.token_1000) l in
  let w' := mkWorld (users_set (store w) (VStr "u1")
                       (<["updatedAt" := new_Date (Reference.env_at 2000000 "")]>
                          (<["refreshTokens" := VArr kept]> (Scenario.alice true l))))
                    (outbox w) (console w) in
  AuthService.logout adapter Reference.config (Reference.env_at 2000000 "")
    (VStr "u1") Scenario.token_1000 w = (Return tt, w')
  /\ (Scenario.token_1000 ∉ kept)
  /\ (forall t, t ≠ Scenario.token_1000 -> t ∈ kept <-> t ∈ l)
  /\ exists e, AuthService.refreshToken (jw := Reference.jsonwebtoken) Reference.config
                 adapter (Reference.env_at 3000000 "") Scenario.token_1000 w'
               = (Throw e, w').
Proof.
  cbv zeta.
  apply (logout_revokes_token (jw := Reference.jsonwebtoken)
           Reference.config Reference.config (Reference.env_at 2000000 "")
           (Reference.env_at 3000000 "") (VStr "u1") Scenario.token_1000
           (Scenario.world_of
              (Scenario.alice true [Scenario.token_1000; "other"; Scenario.token_1000]))
           (Scenario.alice true [Scenario.token_1000; "other"; Scenario.token_1000])
           [Scenario.token_1000; "other"; Scenario.token_1000]).
  - intros h arg; discriminate.
  - run.
  - run.
  - exists (refreshSecret (jwt Reference.config)), 2000, Scenario.payload_1000.
    split; run.
Defined.

(** X13. For a stored user and an [onLogout] hook that does not throw,
    [logoutAll] resolves, empties the user's [refreshTokens] and sets
    [updatedAt]; nothing else changes.  Every later [refreshToken] with a
    token issued to that user throws and changes nothing. *)
Theorem logoutAll_revokes_every_token {jw : Jsonwebtoken} (config this_config : Config)
    (env env' : Env) (userId : value) (token : string) (w : World users) (u : obj) :
  hook_returns (onLogout (hooks this_config)) ->
  users_get (store w) userId = Some u ->
  issued_to token userId ->
  let w' := mkWorld (users_set (store w) userId
                       (<["updatedAt" := new_Date env]> (<["refreshTokens" := VArr []]> u)))
                    (outbox w) (console w) in
  AuthService.logoutAll adapter this_config env userId w = (Return tt, w')
  /\ exists e, AuthService.refreshToken config adapter env' token w' = (Throw e, w').
Proof.
  intros Hh Hu Hi w'. subst w'. split.
  - unfold AuthService.logoutAll. memory.
    step (apply liftDb_eq; apply (removeAllRefreshTokens_found _ _ _ _ Hu)).
    now apply logout_tail.
  - erewrite refreshToken_not_in_set; cycle 1.
    + cbn [store]. eapply users_get_set_eq, Hu.
    + rewrite get_insert_ne by discriminate. apply get_insert_eq.
    + apply not_elem_of_nil.
    + exact Hi.
    + destruct (verifyRefreshToken config env' token); eauto.
Qed.

Lemma logoutAll_revokes_every_token_witness :
  let w := Scenario.world_of (Scenario.alice true [Scenario.token_1000; "other"]) in
  let w' := mkWorld (users_set (store w) (VStr "u1")
                       (<["updatedAt" := new_Date (Reference.env_at 2000000 "")]>
                          (<["refreshTokens" := VArr []]>
                             (Scenario.alice true [Scenario.token_1000; "other"]))))
                    (outbox w) (console w) in
  AuthService.logoutAll adapter Reference.config (Reference.env_at 2000000 "")
    (VStr "u1") w = (Return tt, w')
  /\ exists e, AuthService.refreshToken (jw := Reference.jsonwebtoken) Reference.config
                 adapter (Reference.env_at 3000000 "") Scenario.token_1000 w'
               = (Throw e, w').
Proof.
  cbv zeta.
  apply (logoutAll_revokes_every_token (jw := Reference.jsonwebtoken)
           Reference.config Reference.config (Reference.env_at 2000000 "")
           (Reference.env_at 3000000 "") (VStr "u1") Scenario.token_1000
           (Scenario.world_of (Scenario.alice true [Scenario.token_1000; "other"]))
           (Scenario.alice true [Scenario.token_1000; "other"])).
  - intros h arg; discriminate.
  - run.
  - exists (refreshSecret (jwt Reference.config)), 2000, Scenario.payload_1000.
    split; run.
Defined.

(** ** verifyEmail and resendVerificationEmail *)

(** X14. For a token the verifier accepts, naming a stored user whose
    address is not verified yet, and an [onEmailVerified] hook that does
    not throw, [verifyEmail] resolves to the sanitized updated record,
    which differs from the old one in [isEmailVerified] (now true) and
    [updatedAt] only.  The token is not consumed, but a second call with
    it, made while it still verifies, throws
    [ValidationError('Email already verified')] and changes nothing. *)
Theorem verifyEmail_only_once {jw : Jsonwebtoken} (config this_config : Config)
    (env env' : Env) (token : string) (w : World users) (decoded : obj) (u : obj) :
  verifyEmailVerificationToken config env token = Return decoded ->
  is_return (verifyEmailVerificationToken config env' token) = true ->
  users_get (store w) (get decoded "id") = Some u ->
  get u "id" = get decoded "id" ->
  truthy (get u "isEmailVerified") = false ->
  hook_returns (onEmailVerified (hooks this_config)) ->
  let verified :=
    <["updatedAt" := new_Date env]>
      (<["id" := get u "id"]> (spread u {[ "isEmailVerified" := VBool true ]})) in
  let out := AuthService.verifyEmail config adapter this_config env token w in
  fst out = Return (sanitizeUser (Some verified))
  /\ users_get (store (snd out)) (get decoded "id") = Some verified
  /\ get verified "isEmailVerified" = VBool true
  /\ (forall k, k ∉ ["isEmailVerified"; "updatedAt"] -> get verified k = get u k)
  /\ AuthService.verifyEmail config adapter this_config env' token (snd out) =
       (Throw (ValidationError "Email already verified"), snd out).
Proof.
  intros Hv Hv' Hu Hid Hf Hk verified out.
  assert (get verified "isEmailVerified" = VBool true) as Hflag.
  { subst verified. rewrite !get_insert_ne by discriminate.
    apply get_spread_set, lookup_singleton_eq. }
  assert (exists w1, out = (Return (sanitizeUser (Some verified)), w1)
                     /\ store w1 = users_set (store w) (get decoded "id") verified)
    as (w1 & Hout & Hs).
  { subst out. unfold AuthService.verifyEmail. memory.
    rewrite bind_lift, Hv.
    db_step findUserById_eq. rewrite Hu, Hf. rewrite Hid.
    step (apply liftDb_eq; apply (updateUser_found _ _ _ _ _ Hu)).
    fold verified. unfold sendWelcomeEmail.
    match goal with |- context [bind (try_catch _ _) _ ?w0] =>
      destruct (best_effort_returns env (get u "email") "Welcome to Our Platform!"
                  "<welcome>" "Failed to send welcome email:" w0)
        as (w1 & E1 & Hs1) end.
    rewrite (bind_return _ _ _ _ _ E1).
    rewrite (bind_return _ _ _ _ _ (trigger_returns _ _ _ Hk)).
    exists w1. split; [reflexivity|]. exact Hs1. }
  rewrite Hout. cbn [fst snd].
  split; [reflexivity|]. split; [rewrite Hs; eapply users_get_set_eq, Hu|].
  split; [exact Hflag|]. split.
  - intros k Hn. subst verified.
    rewrite get_insert_ne by (intros <-; apply Hn; compute_done).
    destruct (decide (k = "id")) as [->|]; [apply get_insert_eq|].
    rewrite get_insert_ne by congruence. apply get_spread_untouched.
    apply lookup_singleton_ne. intros <-. apply Hn. compute_done.
  - destruct (verifyEmailVerificationToken config env' token) as [d'|] eqn:Hv2;
      [|discriminate].
    assert (d' = decoded) as -> by (eapply verifyEmailVerificationToken_payload; eauto).
    unfold AuthService.verifyEmail. memory.
    rewrite bind_lift, Hv2.
    db_step findUserById_eq. rewrite world_eta.
    rewrite Hs, (users_get_set_eq _ _ _ _ Hu), Hflag. reflexivity.
Qed.

Lemma verifyEmail_only_once_witness :
  let u := Scenario.unverified_alice in
  let verified :=
    <["updatedAt" := new_Date (Reference.env_at 2000000 "")]>
      (<["id" := get u "id"]> (spread u {[ "isEmailVerified" := VBool true ]})) in
  let out := AuthService.verifyEmail (jw := Reference.jsonwebtoken) Reference.config
               adapter Reference.config (Reference.env_at 2000000 "")
               Scenario.verification_token_1000 (Scenario.world_of u) in
  fst out = Return (sanitizeUser (Some verified))
  /\ users_get (store (snd out))
       (get {[ "id" := VStr "u1"; "type" := VStr "email-verification";
               "iat" := VNum 1000; "exp" := VNum 86401000 ]} "id") = Some verified
  /\ get verified "isEmailVerified" = VBool true
  /\ (forall k, k ∉ ["isEmailVerified"; "updatedAt"] -> get verified k = get u k)
  /\ AuthService.verifyEmail (jw := Reference.jsonwebtoken) Reference.config
       adapter Reference.config (Reference.env_at 3000000 "")
       Scenario.verification_token_1000 (snd out) =
       (Throw (ValidationError "Email already verified"), snd out).
Proof.
  cbv zeta.
  apply (verifyEmail_only_once (jw := Reference.jsonwebtoken) Reference.config
           Reference.config (Reference.env_at 2000000 "") (Reference.env_at 3000000 "")
           Scenario.verification_token_1000 (Scenario.world_of Scenario.unverified_alice)
           {[ "id" := VStr "u1"; "type" := VStr "email-verification";
              "iat" := VNum 1000; "exp" := VNum 86401000 ]}
           Scenario.unverified_alice).
  - run.
  - run.
  - run.
  - run.
  - run.
  - intros h arg; discriminate.
Defined.


(** ** changePassword and resetPassword *)

Section Passwords.
Context {bc : Bcrypt} {jw : Jsonwebtoken}.

Lemma password_steps env id u hp (w : World users) {A}
    (k : Eff (World users) A) :
  users_get (store w) id = Some u -> get u "id" = id ->
  (run! liftDb (Base.updateUser adapter env (get u "id") {[ "password" := VStr hp ]}) in
   run! liftDb (Base.removeAllRefreshTokens adapter env (get u "id")) in k) w =
  k (mkWorld
       (users_set (store w) id
          (<["updatedAt" := new_Date env]>
             (<["refreshTokens" := VArr []]>
                (<["updatedAt" := new_Date env]>
                   (<["id" := get u "id"]>
                      (spread u {[ "password" := VStr hp ]}))))))
       (outbox w) (console w)).
Proof.
  intros Hu Hid. memory. rewrite Hid.
  step (apply liftDb_eq; apply (updateUser_found _ _ _ _ _ Hu)).
  step (apply liftDb_eq; cbn [store]; eapply removeAllRefreshTokens_found;
        eapply users_get_set_eq, Hu).
  cbn [store outbox console]. now rewrite Hid, users_set_set.
Qed.

Lemma changed_record_facts env (u : obj) hp :
  let changed :=
    <["updatedAt" := new_Date env]>
      (<["refreshTokens" := VArr []]>
         (<["updatedAt" := new_Date env]>
            (<["id" := get u "id"]> (spread u {[ "password" := VStr hp ]})))) in
  get changed "id" = get u "id"
  /\ get changed "password" = VStr hp
  /\ get changed "refreshTokens" = VArr []
  /\ (forall k, k ∉ ["password"; "refreshTokens"; "updatedAt"] ->
        get changed k = get u k).
Proof.
  cbv zeta. split; [|split; [|split]].
  - rewrite !get_insert_ne by discriminate. apply get_insert_eq.
  - rewrite !get_insert_ne by discriminate. apply get_spread_set, lookup_singleton_eq.
  - rewrite get_insert_ne by discriminate. apply get_insert_eq.
  - intros k Hn.
    rewrite get_insert_ne by (intros <-; apply Hn; compute_done).
    rewrite get_insert_ne by (intros <-; apply Hn; compute_done).
    rewrite get_insert_ne by (intros <-; apply Hn; compute_done).
    destruct (decide (k = "id")) as [->|]; [apply get_insert_eq|].
    rewrite get_insert_ne by congruence. apply get_spread_untouched.
    apply lookup_singleton_ne. intros <-. apply Hn. compute_done.
Qed.

Lemma changePassword_run env id cur new h u (w : World users) :
  users_get (store w) id = Some u -> get u "id" = id ->
  cur ≠ "" -> get u "password" = VStr h -> h ≠ "" ->
  bcrypt_compare cur h = true -> new ≠ "" ->
  exists w1,
    AuthService.changePassword adapter env id (VStr cur) (VStr new) w = (Return tt, w1)
    /\ store w1 =
         users_set (store w) id
           (<["updatedAt" := new_Date env]>
              (<["refreshTokens" := VArr []]>
                 (<["updatedAt" := new_Date env]>
                    (<["id" := get u "id"]>
                       (spread u {[ "password" :=
                                      VStr (bcrypt_hash new (bcrypt_salt env)) ]}))))).
Proof.
  intros Hu Hid Hc Hh Hhne Hcmp Hn.
  unfold AuthService.changePassword.
  step (memory; apply liftDb_eq; apply findUserById_eq). rewrite world_eta, Hu.
  rewrite bind_lift, Hh. cbn [comparePassword truthy].
  rewrite !bool_decide_eq_false_2 by assumption. cbn [negb]. rewrite Hcmp. cbn [negb].
  rewrite bind_lift. cbn [hashPassword truthy].
  rewrite bool_decide_eq_false_2 by assumption. cbn [negb].
  rewrite (password_steps env id u _ w _ Hu Hid).
  unfold sendPasswordChangedEmail.
  match goal with |- context [try_catch _ _ ?w0] =>
    destruct (best_effort_returns env (get u "email") "Password Changed Successfully"
                "<password-changed>" "Failed to send password changed email:" w0)
      as (w1 & E1 & Hs1) end.
  exists w1. split; [exact E1 | exact Hs1].
Qed.

Variables (config this_config : Config).

Lemma resetPassword_run env token decoded p u (w : World users) :
  verifyPasswordResetToken config env token = Return decoded ->
  users_get (store w) (get decoded "id") = Some u ->
  get u "id" = get decoded "id" ->
  p ≠ "" ->
  hook_returns (onPasswordReset (hooks this_config)) ->
  exists w1,
    AuthService.resetPassword config adapter this_config env token (VStr p) w
      = (Return tt, w1)
    /\ store w1 =
         users_set (store w) (get decoded "id")
           (<["updatedAt" := new_Date env]>
              (<["refreshTokens" := VArr []]>
                 (<["updatedAt" := new_Date env]>
                    (<["id" := get u "id"]>
                       (spread u {[ "password" :=
                                      VStr (bcrypt_hash p (bcrypt_salt env)) ]}))))).
Proof.
  intros Hv Hu Hid Hn Hk.
  unfold AuthService.resetPassword.
  rewrite bind_lift, Hv.
  step (memory; apply liftDb_eq; apply findUserById_eq). rewrite world_eta, Hu.
  rewrite bind_lift. cbn [hashPassword truthy].
  rewrite bool_decide_eq_false_2 by assumption. cbn [negb].
  rewrite (password_steps env _ u _ w _ Hu Hid).
  unfold sendPasswordChangedEmail.
  match goal with |- context [bind (try_catch _ _) _ ?w0] =>
    destruct (best_effort_returns env (get u "email") "Password Changed Successfully"
                "<password-changed>" "Failed to send password changed email:" w0)
      as (w1 & E1 & Hs1) end.
  rewrite (bind_return _ _ _ _ _ E1).
  exists w1. split; [now apply trigger_returns | exact Hs1].
Qed.

End Passwords.

(** X16. For a stored user and a current password that matches the stored
    hash, [changePassword] with a non-empty new password resolves; the
    record then holds the bcrypt hash of the new password, no refresh
    token and the time of the call as [updatedAt], and is otherwise as
    before.  The service does not ask the new password to differ from
    the current one. *)
Theorem changePassword_stores_new_hash {bc : Bcrypt} (env : Env) (id : value)
    (cur new h : string) (u : obj) (w : World users) :
  users_get (store w) id = Some u -> get u "id" = id ->
  cur ≠ "" -> get u "password" = VStr h -> h ≠ "" ->
  bcrypt_compare cur h = true -> new ≠ "" ->
  let out := AuthService.changePassword adapter env id (VStr cur) (VStr new) w in
  fst out = Return tt
  /\ exists u',
       users_get (store (snd out)) id = Some u'
       /\ get u' "password" = VStr (bcrypt_hash new (bcrypt_salt env))
       /\ get u' "refreshTokens" = VArr []
       /\ get u' "updatedAt" = new_Date env
       /\ (forall k, k ∉ ["password"; "refreshTokens"; "updatedAt"] ->
             get u' k = get u k).
Proof.
  intros Hu Hid Hc Hh Hhne Hcmp Hn out. subst out.
  destruct (changePassword_run env id cur new h u w Hu Hid Hc Hh Hhne Hcmp Hn)
    as (w1 & -> & Hs).
  cbn [fst snd]. split; [reflexivity|]. eexists. rewrite Hs.
  split; [eapply users_get_set_eq, Hu|].
  destruct (changed_record_facts env u (bcrypt_hash new (bcrypt_salt env)))
    as (_ & Hp & Ht & Hk).
  split; [exact Hp|]. split; [exact Ht|]. split; [apply get_insert_eq | exact Hk].
Qed.

Lemma changePassword_stores_new_hash_witness :
  let out := AuthService.changePassword (bc := Reference.bcrypt) adapter
               (Reference.env_at 2000000 "") (VStr "u1") (VStr "Str0ng!Pass")
               (VStr "Str0ng!Pass") (Scenario.world_of (Scenario.alice true ["t0"])) in
  fst out = Return tt
  /\ exists u',
       users_get (store (snd out)) (VStr "u1") = Some u'
       /\ get u' "password" =
            VStr (bcrypt_hash (Bcrypt := Reference.bcrypt) "Str0ng!Pass"
                    (bcrypt_salt (Reference.env_at 2000000 "")))
       /\ get u' "refreshTokens" = VArr []
       /\ get u' "updatedAt" = new_Date (Reference.env_at 2000000 "")
       /\ (forall k, k ∉ ["password"; "refreshTokens"; "updatedAt"] ->
             get u' k = get (Scenario.alice true ["t0"]) k).
Proof.
  cbv zeta.
  apply (changePassword_stores_new_hash (bc := Reference.bcrypt)
           (Reference.env_at 2000000 "") (VStr "u1") "Str0ng!Pass" "Str0ng!Pass"
           (Reference.hash "Str0ng!Pass" "salt") (Scenario.alice true ["t0"])
           (Scenario.world_of (Scenario.alice true ["t0"]))).
  - run.
  - run.
  - run.
  - run.
  - run.
  - run.
  - run.
Defined.

(** X17. A [changePassword] that throws (unknown user, wrong or malformed
    current password, malformed new password) has changed nothing: the
    stored hash and the refresh tokens are as before. *)
Theorem changePassword_failure_keeps_world {bc : Bcrypt} (env : Env)
    (userId currentPassword newPassword : value) (w w' : World users) (e : js_error) :
  AuthService.changePassword adapter env userId currentPassword newPassword w
    = (Throw e, w') ->
  w' = w.
Proof.
  unfold AuthService.changePassword.
  step (memory; apply liftDb_eq; apply findUserById_eq). rewrite world_eta.
  destruct (users_get (store w) userId) as [u|] eqn:Hu; [|now intros [= _ <-]].
  rewrite bind_lift.
  destruct (comparePassword currentPassword (get u "password")) as [[]|e0]; cbn [negb];
    [| now intros [= _ <-] ..].
  rewrite bind_lift.
  destruct (hashPassword env newPassword) as [hp|e0]; [|now intros [= _ <-]].
  memory.
  destruct (users_get (store w) (get u "id")) as [su|] eqn:Hsu.
  - step (apply liftDb_eq; apply (updateUser_found _ _ _ _ _ Hsu)).
    step (apply liftDb_eq; cbn [store]; eapply removeAllRefreshTokens_found;
          eapply users_get_set_eq, Hsu).
    unfold sendPasswordChangedEmail.
    match goal with |- context [try_catch _ _ ?w0] =>
      destruct (best_effort_returns env (get u "email") "Password Changed Successfully"
                  "<password-changed>" "Failed to send password changed email:" w0)
        as (w1 & E1 & _) end.
    rewrite E1. discriminate.
  - erewrite bind_throw; [| apply liftDb_eq; apply (updateUser_missing _ _ _ _ Hsu)].
    rewrite world_eta. now intros [= _ <-].
Qed.

Lemma changePassword_failure_keeps_world_witness :
  snd (Scenario.changePassword (Reference.env_at 2000000 "") (VStr "u1")
         (VStr "wrong") (VStr "N3w!Passw0rd")
         (Scenario.world_of (Scenario.alice true ["t0"])))
  = Scenario.world_of (Scenario.alice true ["t0"]).
Proof.
  apply (changePassword_failure_keeps_world (bc := Reference.bcrypt)
           (Reference.env_at 2000000 "") (VStr "u1") (VStr "wrong")
           (VStr "N3w!Passw0rd") (Scenario.world_of (Scenario.alice true ["t0"]))
           (snd (Scenario.changePassword (Reference.env_at 2000000 "") (VStr "u1")
                   (VStr "wrong") (VStr "N3w!Passw0rd")
                   (Scenario.world_of (Scenario.alice true ["t0"]))))
           (AuthenticationError "Current password is incorrect")).
  run.
Defined.

(** X18. [resetPassword] does not consume the reset token.  While the token
    verifies, a second [resetPassword] with it resolves like the first,
    and the password stored at the end is the hash of the second one. *)
Theorem resetPassword_token_is_reusable {bc : Bcrypt} {jw : Jsonwebtoken}
    (config this_config : Config) (env env' : Env) (token : string) (p p' : string)
    (w : World users) (decoded u : obj) :
  verifyPasswordResetToken config env token = Return decoded ->
  is_return (verifyPasswordResetToken config env' token) = true ->
  users_get (store w) (get decoded "id") = Some u ->
  get u "id" = get decoded "id" ->
  p ≠ "" -> p' ≠ "" ->
  hook_returns (onPasswordReset (hooks this_config)) ->
  let out := AuthService.resetPassword config adapter this_config env token (VStr p) w in
  let out' := AuthService.resetPassword config adapter this_config env' token (VStr p')
                (snd out) in
  fst out = Return tt
  /\ (exists u1, users_get (store (snd out)) (get decoded "id") = Some u1
                 /\ get u1 "password" = VStr (bcrypt_hash p (bcrypt_salt env)))
  /\ fst out' = Return tt
  /\ (exists u2, users_get (store (snd out')) (get decoded "id") = Some u2
                 /\ get u2 "password" = VStr (bcrypt_hash p' (bcrypt_salt env'))).
Proof.
  intros Hv Hv' Hu Hid Hp Hp' Hk out out'. subst out out'.
  destruct (resetPassword_run config this_config env token decoded p u w Hv Hu Hid Hp Hk)
    as (w1 & -> & Hs).
  cbn [fst snd].
  destruct (changed_record_facts env u (bcrypt_hash p (bcrypt_salt env)))
    as (Hcid & Hcp & _ & _).
  destruct (verifyPasswordResetToken config env' token) as [d'|] eqn:Hv2; [|discriminate].
  assert (d' = decoded) as -> by (eapply verifyPasswordResetToken_payload; eauto).
  assert (users_get (store w1) (get decoded "id") = Some
            (<["updatedAt" := new_Date env]>
               (<["refreshTokens" := VArr []]>
                  (<["updatedAt" := new_Date env]>
                     (<["id" := get u "id"]>
                        (spread u {[ "password" :=
                                       VStr (bcrypt_hash p (bcrypt_salt env)) ]}))))))
    as Hu1 by (rewrite Hs; eapply users_get_set_eq, Hu).
  destruct (resetPassword_run config this_config env' token decoded p' _ w1 Hv2 Hu1
              ltac:(congruence) Hp' Hk) as (w2 & -> & Hs2).
  cbn [fst snd].
  split; [reflexivity|]. split; [eauto|]. split; [reflexivity|].
  eexists. rewrite Hs2. split; [eapply users_get_set_eq, Hu1|].
  apply changed_record_facts.
Qed.

Lemma resetPassword_token_is_reusable_witness :
  let out := Scenario.resetPassword (Reference.env_at 2000000 "")
               Scenario.reset_token_1000 (VStr "F1rst!Passw0rd")
               (Scenario.world_of (Scenario.alice true ["t0"])) in
  let out' := Scenario.resetPassword (Reference.env_at 3000000 "")
                Scenario.reset_token_1000 (VStr "Sec0nd!Passw0rd") (snd out) in
  fst out = Return tt
  /\ (exists u1, users_get (store (snd out)) (get Scenario.reset_payload_1000 "id") = Some u1
                 /\ get u1 "password" =
                      VStr (bcrypt_hash (Bcrypt := Reference.bcrypt) "F1rst!Passw0rd"
                              (bcrypt_salt (Reference.env_at 2000000 ""))))
  /\ fst out' = Return tt
  /\ (exists u2, users_get (store (snd out')) (get Scenario.reset_payload_1000 "id") = Some u2
                 /\ get u2 "password" =
                      VStr (bcrypt_hash (Bcrypt := Reference.bcrypt) "Sec0nd!Passw0rd"
                              (bcrypt_salt (Reference.env_at 3000000 "")))).
Proof.
  cbv zeta.
  apply (resetPassword_token_is_reusable (bc := Reference.bcrypt)
           (jw := Reference.jsonwebtoken) Reference.config Reference.config
           (Reference.env_at 2000000 "") (Reference.env_at 3000000 "")
           Scenario.reset_token_1000 "F1rst!Passw0rd" "Sec0nd!Passw0rd"
           (Scenario.world_of (Scenario.alice true ["t0"]))
           Scenario.reset_payload_1000 (Scenario.alice true ["t0"])).
  - run.
  - run.
  - run.
  - run.
  - run.
  - run.
  - intros h arg; discriminate.
Defined.

(** ** getProfile and updateProfile *)

Lemma filterUpdates_allowed updates k :
  k ∈ AuthService.allowedFields ->
  AuthService.filterUpdates updates !! k =
    if is_defined (get updates k) then Some (get updates k) else None.
Proof.
  unfold AuthService.filterUpdates, AuthService.allowedFields. cbn [foldl].
  intros Hk.
  repeat (apply elem_of_cons in Hk as [->|Hk]); [..|inversion Hk];
    destruct (is_defined (get updates "name")),
             (is_defined (get updates "phone")),
             (is_defined (get updates "bio")),
             (is_defined (get updates "avatar"));
    repeat first [ rewrite lookup_insert_eq | rewrite lookup_insert_ne by discriminate ];
    try reflexivity; apply lookup_empty.
Qed.

(** X19. For a stored user, [updateProfile] resolves, and [getProfile]
    called next returns the same object without changing the world.  In
    that object each of [name], [phone], [bio] and [avatar] holds the
    value of the update where that is not [undefined] and the stored
    value otherwise, [updatedAt] holds the time of the call and [id] is
    kept. *)
Theorem getProfile_after_updateProfile (env : Env) (userId : value) (updates : obj)
    (w : World users) (u : obj) :
  users_get (store w) userId = Some u ->
  let out := AuthService.updateProfile adapter env userId updates w in
  exists r,
    fst out = Return (Some r)
    /\ AuthService.getProfile adapter userId (snd out) = (Return (Some r), snd out)
    /\ (forall k, k ∈ AuthService.allowedFields ->
          get r k = if is_defined (get updates k) then get updates k else get u k)
    /\ get r "updatedAt" = new_Date env
    /\ get r "id" = get u "id".
Proof.
  intros Hu out. subst out. unfold AuthService.updateProfile, AuthService.getProfile.
  memory.
  step (apply liftDb_eq; apply (updateUser_found _ _ _ _ _ Hu)).
  cbn [ret fst snd]. eexists. split; [reflexivity|]. split.
  - db_step findUserById_eq. cbn [store]. now rewrite (users_get_set_eq _ _ _ _ Hu).
  - split; [|split].
    + intros k Hk.
      assert (k ≠ "password" /\ k ≠ "refreshTokens" /\ k ≠ "updatedAt" /\ k ≠ "id")
        as (? & ? & ? & ?).
      { unfold AuthService.allowedFields in Hk.
        repeat (apply elem_of_cons in Hk as [->|Hk]); [..|inversion Hk];
          repeat split; discriminate. }
      rewrite !get_delete_ne, !get_insert_ne by congruence.
      pose proof (filterUpdates_allowed updates _ Hk) as Hf.
      destruct (is_defined (get updates k));
        [now apply get_spread_set | now apply get_spread_untouched].
    + rewrite !get_delete_ne by discriminate. apply get_insert_eq.
    + rewrite !get_delete_ne by discriminate.
      rewrite get_insert_ne by discriminate. apply get_insert_eq.
Qed.

Lemma getProfile_after_updateProfile_witness :
  let updates : obj := {[ "name" := VStr "Alice"; "bio" := VNull; "role" := VStr "admin" ]} in
  let out := AuthService.updateProfile adapter (Reference.env_at 2000000 "") (VStr "u1")
               updates (Scenario.world_of (Scenario.alice true [])) in
  exists r,
    fst out = Return (Some r)
    /\ AuthService.getProfile adapter (VStr "u1") (snd out) = (Return (Some r), snd out)
    /\ (forall k, k ∈ AuthService.allowedFields ->
          get r k = if is_defined (get updates k) then get updates k
                    else get (Scenario.alice true []) k)
    /\ get r "updatedAt" = new_Date (Reference.env_at 2000000 "")
    /\ get r "id" = get (Scenario.alice true []) "id".
Proof.
  cbv zeta.
  apply (getProfile_after_updateProfile (Reference.env_at 2000000 "") (VStr "u1")
           {[ "name" := VStr "Alice"; "bio" := VNull; "role" := VStr "admin" ]}
           (Scenario.world_of (Scenario.alice true [])) (Scenario.alice true [])).
  run.
Defined.

(** X20. For an id nobody is stored under, neither call changes the world,
    but the two fail differently: [getProfile] throws
    [NotFoundError('User not found')], which carries status 404, and
    [updateProfile] lets the adapter's plain [Error('User not found')]
    through, which carries no status. *)
Theorem profile_of_missing_user (env : Env) (userId : value) (updates : obj)
    (w : World users) :
  users_get (store w) userId = None ->
  AuthService.getProfile adapter userId w = (Throw (NotFoundError "User not found"), w)
  /\ AuthService.updateProfile adapter env userId updates w =
       (Throw (Error "User not found"), w)
  /\ err_status (NotFoundError "User not found") = Some 404
  /\ err_status (Error "User not found") = None.
Proof.
  intros Hu. split; [|split; [|split; reflexivity]].
  - unfold AuthService.getProfile. memory. db_step findUserById_eq.
    rewrite world_eta, Hu. reflexivity.
  - unfold AuthService.updateProfile. memory.
    erewrite bind_throw; [| apply liftDb_eq; apply (updateUser_missing _ _ _ _ Hu)].
    now rewrite world_eta.
Qed.

Lemma profile_of_missing_user_witness :
  AuthService.getProfile adapter (VStr "nobody") (Scenario.world_of (Scenario.alice true []))
    = (Throw (NotFoundError "User not found"), Scenario.world_of (Scenario.alice true []))
  /\ AuthService.updateProfile adapter (Reference.env_at 2000000 "") (VStr "nobody")
       {[ "name" := VStr "Nobody" ]} (Scenario.world_of (Scenario.alice true [])) =
       (Throw (Error "User not found"), Scenario.world_of (Scenario.alice true []))
  /\ err_status (NotFoundError "User not found") = Some 404
  /\ err_status (Error "User not found") = None.
Proof.
  apply (profile_of_missing_user (Reference.env_at 2000000 "") (VStr "nobody")
           {[ "name" := VStr "Nobody" ]} (Scenario.world_of (Scenario.alice true []))).
  run.
Defined.

(** ** middleware/auth.js *)

Lemma substring_full (t : string) : String.substring 0 (String.length t) t = t.
Proof. induction t as [|c t IH]; cbn; [reflexivity | now rewrite IH]. Qed.

Lemma prefix_split (s t : string) :
  String.prefix s t = true ->
  t = s +:+ String.substring (String.length s) (String.length t - String.length s) t.
Proof.
  revert t. induction s as [|a s IH]; intros t.
  - intros _. cbn. now rewrite Nat.sub_0_r, substring_full.
  - destruct t as [|b t]; cbn; [discriminate|].
    destruct (Ascii.ascii_dec a b) as [->|]; [|discriminate].
    intros H. pose proof (IH t H) as E.
    change (String b t =
            String b (s +:+ String.substring (String.length s)
                              (String.length t - String.length s)%nat t)).
    now f_equal.
Qed.

Lemma bearer_split (h : string) :
  Middleware.no_bearer (Some h) = false -> h = "Bearer " +:+ Middleware.substring_7 h.
Proof.
  unfold Middleware.no_bearer. intros H. apply orb_false_iff in H as [_ H].
  apply negb_false_iff in H. now apply (prefix_split "Bearer " h).
Qed.

Lemma substring_7_bearer (token : string) :
  Middleware.substring_7 ("Bearer " +:+ token) = token.
Proof.
  unfold Middleware.substring_7, append. cbn. now rewrite Nat.sub_0_r, substring_full.
Qed.

Lemma no_bearer_bearer (token : string) :
  Middleware.no_bearer (Some ("Bearer " +:+ token)) = false.
Proof.
  unfold Middleware.no_bearer, append. cbn.
  repeat (destruct (Ascii.ascii_dec _ _) as [_|N]; [|now destruct N]).
  now destruct token.
Qed.

(** X21. Every error [authenticate] hands to the error handler is named
    [AuthenticationError].  It is [AuthenticationError('No token
    provided')] when the header is missing, empty or does not start with
    ['Bearer '], and otherwise carries the message of the error the
    access-token verifier threw for the rest of the header. *)
Theorem authenticate_failure_is_AuthenticationError {jw : Jsonwebtoken}
    (config : Config) (env : Env) (req : Middleware.Request) (e : js_error) :
  Middleware.authenticate config env req = Throw e ->
  err_name e = "AuthenticationError"
  /\ ((Middleware.no_bearer (Middleware.authorization req) = true
       /\ e = AuthenticationError "No token provided")
      \/ exists token e0,
           Middleware.authorization req = Some ("Bearer " +:+ token)
           /\ verifyAccessToken config env token = Throw e0
           /\ err_message e = err_message e0).
Proof.
  unfold Middleware.authenticate, ccatch.
  destruct (Middleware.no_bearer (Middleware.authorization req)) eqn:Hb.
  - cbn. intros [= <-]. split; [reflexivity|]. left. auto.
  - destruct (Middleware.authorization req) as [h|] eqn:Hh; [|discriminate].
    change (default "" (Some h)) with h. unfold cbind.
    destruct (verifyAccessToken config env (Middleware.substring_7 h)) as [d|e0] eqn:Hv;
      cbv beta iota; [discriminate|].
    intros E.
    assert (err_name e = "AuthenticationError" /\ err_message e = err_message e0)
      as [Hn Hm].
    { cbv beta iota in E. destruct (bool_decide (err_name e0 = "AuthenticationError")) eqn:Hname;
        injection E as <-; [|auto]. now apply bool_decide_eq_true in Hname. }
    split; [exact Hn|]. right. exists (Middleware.substring_7 h), e0.
    split; [f_equal; now apply bearer_split | auto].
Qed.

Lemma authenticate_failure_is_AuthenticationError_witness :
  err_name (AuthenticationError "Access token has expired") = "AuthenticationError"
  /\ ((Middleware.no_bearer
         (Middleware.authorization (Scenario.bearer Scenario.access_token_1000)) = true
       /\ AuthenticationError "Access token has expired"
          = AuthenticationError "No token provided")
      \/ exists token e0,
           Middleware.authorization (Scenario.bearer Scenario.access_token_1000)
             = Some ("Bearer " +:+ token)
           /\ verifyAccessToken (jw := Reference.jsonwebtoken) Reference.config
                (Reference.env_at 5000000 "") token = Throw e0
           /\ err_message (AuthenticationError "Access token has expired")
              = err_message e0).
Proof.
  apply (authenticate_failure_is_AuthenticationError (jw := Reference.jsonwebtoken)
           Reference.config (Reference.env_at 5000000 "")
           (Scenario.bearer Scenario.access_token_1000)
           (AuthenticationError "Access token has expired")).
  run.
Defined.

(** X22. [authenticate] accepts every token that the library verifies under
    the access-token secret, whatever its [type] claim, and attaches
    exactly its [id], [email] and [role] claims as [req.user].  A
    password-reset or e-mail verification token, signed with the same
    secret, therefore passes as an access token (with no [email] and no
    [role]). *)
Theorem authenticate_ignores_token_type {jw : Jsonwebtoken} (config : Config)
    (env : Env) (req : Middleware.Request) (token : string) (d : obj) :
  Middleware.authorization req = Some ("Bearer " +:+ token) ->
  jwt_verify token (secret (jwt config)) (now_s env) = Return d ->
  Middleware.authenticate config env req =
    Return {| Middleware.authorization := Middleware.authorization req;
              Middleware.req_user :=
                Some {[ "id" := get d "id"; "email" := get d "email";
                        "role" := get d "role" ]};
              Middleware.params := Middleware.params req |}.
Proof.
  intros Hh Hv. unfold Middleware.authenticate. rewrite Hh, no_bearer_bearer.
  change (default "" (Some ("Bearer " +:+ token))) with ("Bearer " +:+ token).
  rewrite substring_7_bearer.
  unfold verifyAccessToken. rewrite Hv. cbn [ccatch cbind].
  unfold Middleware.attach. rewrite Hh. reflexivity.
Qed.

Lemma authenticate_ignores_token_type_witness :
  Middleware.authenticate (jw := Reference.jsonwebtoken) Reference.config
    (Reference.env_at 2000000 "") (Scenario.bearer Scenario.reset_token_1000) =
    Return {| Middleware.authorization :=
                Middleware.authorization (Scenario.bearer Scenario.reset_token_1000);
              Middleware.req_user :=
                Some {[ "id" := get Scenario.reset_payload_1000 "id";
                        "email" := get Scenario.reset_payload_1000 "email";
                        "role" := get Scenario.reset_payload_1000 "role" ]};
              Middleware.params :=
                Middleware.params (Scenario.bearer Scenario.reset_token_1000) |}.
Proof.
  apply (authenticate_ignores_token_type (jw := Reference.jsonwebtoken)
           Reference.config (Reference.env_at 2000000 "")
           (Scenario.bearer Scenario.reset_token_1000) Scenario.reset_token_1000
           Scenario.reset_payload_1000).
  - reflexivity.
  - run.
Defined.

(** X23. [optionalAuth] hands on the request that [authenticate] would hand
    on where [authenticate] passes, and the request as it came where
    [authenticate] fails; it never hands an error on. *)
Theorem optionalAuth_follows_authenticate {jw : Jsonwebtoken} (config : Config)
    (env : Env) (req : Middleware.Request) :
  Middleware.optionalAuth config env req
    = returned req (Middleware.authenticate config env req).
Proof.
  unfold Middleware.optionalAuth, Middleware.authenticate, ccatch, cbind.
  destruct (Middleware.no_bearer (Middleware.authorization req)); [reflexivity|].
  destruct (verifyAccessToken config env _) as [d|e0]; [reflexivity|].
  now case_bool_decide.
Qed.

(** X24. [authorize(...roles)] passes exactly when [req.user] is set and its
    [role] is a string among the roles given, the arrays among the
    arguments being flattened; the request is handed on as it is.  With no
    role given nobody passes. *)
Theorem authorize_passes_iff (roles : list Middleware.RoleArg)
    (req req' : Middleware.Request) :
  Middleware.authorize roles req = Return req' <->
  req' = req
  /\ exists u role, Middleware.req_user req = Some u
                    /\ get u "role" = VStr role
                    /\ role ∈ Middleware.flat roles.
Proof.
  unfold Middleware.authorize, Middleware.includes_role. split.
  - destruct (Middleware.req_user req) as [u|]; [|discriminate].
    destruct (get u "role") as [| | | |role| |] eqn:Hr; try discriminate.
    case_bool_decide as Hin; [|discriminate]. cbn. intros [= <-]. eauto 10.
  - intros (-> & u & role & -> & -> & Hin). now rewrite bool_decide_eq_true_2.
Qed.

(** X25. [isOwner(paramName)] passes exactly when [req.user] is set, the
    route names a non-empty user id ([req.params[paramName]], or
    [req.params.id] when that is missing or empty), and the user is that
    user or has the role [admin]; the request is handed on as it is. *)
Theorem isOwner_passes_iff (paramName : string) (req req' : Middleware.Request) :
  Middleware.isOwner paramName req = Return req' <->
  req' = req
  /\ exists u resourceUserId,
       Middleware.req_user req = Some u
       /\ Middleware.resource_id paramName req = Some resourceUserId
       /\ resourceUserId ≠ ""
       /\ (get u "id" = VStr resourceUserId \/ get u "role" = VStr "admin").
Proof.
  unfold Middleware.isOwner. split.
  - destruct (Middleware.req_user req) as [u|]; [|discriminate].
    destruct (Middleware.resource_id paramName req) as [rid|]; [|discriminate].
    cbn [truthy]. case_bool_decide as Hne; [discriminate|]. cbn [negb].
    destruct (is_str (get u "id") rid) eqn:Hid; cbn [negb andb].
    + intros [= <-]. apply is_str_true in Hid. eauto 10.
    + destruct (is_str (get u "role") "admin") eqn:Hr; cbn [negb]; [|discriminate].
      intros [= <-]. apply is_str_true in Hr. eauto 10.
  - intros (-> & u & rid & -> & -> & Hne & H). cbn [truthy].
    rewrite bool_decide_eq_false_2 by assumption. cbn [negb].
    destruct H as [H|H]; apply is_str_true in H; rewrite H; cbn;
      [reflexivity | now rewrite andb_false_r].
Qed.

(** X26. [isActive(db)] and [isEmailVerified(db)] over the in-memory
    adapter never change the store and pass exactly when a record is
    stored under [req.user.id] whose flag ([isActive], [isEmailVerified])
    is truthy.  A stored user whose [isActive] is falsy is refused with
    [AuthorizationError], the check that [authenticate] does not make. *)
Theorem account_gates_read_the_store (req : Middleware.Request) (m : users) :
  let stored_flag (k : string) : option bool :=
    u ← Middleware.req_user req;
    su ← users_get m (get u "id");
    Some (truthy (get su k)) in
  snd (Middleware.isActive adapter req m) = m
  /\ snd (Middleware.isEmailVerified adapter req m) = m
  /\ (fst (Middleware.isActive adapter req m) = Return req
      <-> stored_flag "isActive" = Some true)
  /\ (fst (Middleware.isEmailVerified adapter req m) = Return req
      <-> stored_flag "isEmailVerified" = Some true)
  /\ (stored_flag "isActive" = Some false ->
      fst (Middleware.isActive adapter req m) =
        Throw (AuthorizationError
                 "Your account has been deactivated. Please contact support.")).
Proof.
  cbv zeta. unfold Middleware.isActive, Middleware.isEmailVerified. memory.
  destruct (Middleware.req_user req) as [u|]; cbn [mbind option_bind];
    [|repeat split; intros; discriminate].
  unfold bind, findUserById. cbn [fst snd].
  destruct (users_get m (get u "id")) as [su|]; cbn [mbind option_bind];
    [|repeat split; intros; discriminate].
  destruct (truthy (get su "isActive")), (truthy (get su "isEmailVerified"));
    cbn; repeat split; intros; try discriminate; reflexivity.
Qed.

(** A deactivated user who still holds an unexpired access token passes
    [authenticate]; [isActive] is what stops her. *)
Example deactivated_user_passes_authenticate :
  let m := store (Scenario.world_of (Scenario.alice false [])) in
  let passed := Middleware.authenticate (jw := Reference.jsonwebtoken) Reference.config
                  (Reference.env_at 1500000 "")
                  (Scenario.bearer Scenario.access_token_1000) in
  Middleware.req_user (returned (Scenario.bearer "") passed)
    = Some (object [ ("id", VStr "u1"); ("email", VStr "alice@example.com");
                     ("role", VStr "user") ])
  /\ Middleware.isActive adapter (returned (Scenario.bearer "") passed) m
     = (Throw (AuthorizationError
                 "Your account has been deactivated. Please contact support."), m).
Proof. cbv zeta. split; run. Qed.

(** Roles given one by one or as an array; no role at all. *)
Example authorize_roles :
  Middleware.authorize [Middleware.Role "admin"] (Scenario.request_of "u1" "user" ∅)
    = Throw (AuthorizationError "Access denied. Required role(s): admin")
  /\ Middleware.authorize [Middleware.Roles ["admin"; "moderator"]]
       (Scenario.request_of "u1" "moderator" ∅)
     = Return (Scenario.request_of "u1" "moderator" ∅)
  /\ Middleware.authorize [] (Scenario.request_of "u1" "admin" ∅)
     = Throw (AuthorizationError "Access denied. Required role(s): ").
Proof. repeat split; run. Qed.

(** The owner, an administrator, somebody else, and a route without the
    parameter. *)
Example isOwner_cases :
  Middleware.isOwner "userId" (Scenario.request_of "u1" "user" {[ "userId" := "u1" ]})
    = Return (Scenario.request_of "u1" "user" {[ "userId" := "u1" ]})
  /\ Middleware.isOwner "userId" (Scenario.request_of "u9" "admin" {[ "id" := "u1" ]})
     = Return (Scenario.request_of "u9" "admin" {[ "id" := "u1" ]})
  /\ Middleware.isOwner "userId" (Scenario.request_of "u2" "user" {[ "userId" := "u1" ]})
     = Throw (AuthorizationError "You do not have permission to access this resource")
  /\ Middleware.isOwner "userId" (Scenario.request_of "u1" "user" ∅)
     = Throw (Error "Parameter userId not found in request").
Proof. repeat split; run. Qed.

(** ** models/user.js *)

(** X27. Writing a user as a row and reading the row back keeps [email],
    [password], [name], [phone], [role], [avatar] and [bio]; turns a
    [null] in [isEmailVerified], [isActive] or [lastLogin] into
    [undefined]; turns a missing [refreshTokens] into the empty array;
    and loses [id], [createdAt] and [updatedAt], which [userToRow] does
    not write. *)
Theorem rowToUser_userToRow (u : obj) :
  exists u',
    UserModel.rowToUser (UserModel.userToRow (Some u)) = Some u'
    /\ Forall (fun k => get u' k = get u k)
         ["email"; "password"; "name"; "phone"; "role"; "avatar"; "bio"]
    /\ Forall (fun k => get u' k = UserModel.nullish_or (get u k) VUndefined)
         ["isEmailVerified"; "isActive"; "lastLogin"]
    /\ get u' "refreshTokens" = UserModel.nullish_or (get u "refreshTokens") (VArr [])
    /\ Forall (fun k => get u' k = VUndefined) ["id"; "createdAt"; "updatedAt"].
Proof.
  eexists. split; [reflexivity|].
  repeat split; repeat constructor; try reflexivity.
  change (UserModel.nullish_or
            (UserModel.nullish_or (get u "refreshTokens") VUndefined) (VArr [])
          = UserModel.nullish_or (get u "refreshTokens") (VArr [])).
  now destruct (get u "refreshTokens").
Qed.

(** ** utils/password.js *)

(** X28. For a non-empty password and a history of non-empty hashes,
    [isPasswordReused] resolves to whether bcrypt matches the password
    against one of the hashes. *)
Theorem isPasswordReused_scans_history {bc : Bcrypt} (userId : value) (p : string)
    (hashes : list string) :
  p ≠ "" ->
  Forall (fun h => h ≠ "") hashes ->
  isPasswordReused userId (VStr p) (VStr <$> hashes)
    = Return (existsb (bcrypt_compare p) hashes).
Proof.
  intros Hp Hh.
  assert (password_matches_any (VStr p) (VStr <$> hashes)
          = Return (existsb (bcrypt_compare p) hashes)) as E.
  { induction Hh as [|h hashes Hne _ IH]; [reflexivity|].
    cbn [fmap list_fmap password_matches_any existsb comparePassword truthy].
    rewrite !bool_decide_eq_false_2 by assumption. cbn [negb cbind].
    destruct (bcrypt_compare p h); [reflexivity | exact IH]. }
  unfold isPasswordReused. destruct hashes; [reflexivity | exact E].
Qed.

Lemma isPasswordReused_scans_history_witness :
  isPasswordReused (bc := Reference.bcrypt) (VStr "u1") (VStr "Str0ng!Pass")
    (VStr <$> [Reference.hash "0ld!Passw0rd" "salt"; Reference.hash "Str0ng!Pass" "salt"])
  = Return (existsb (bcrypt_compare (Bcrypt := Reference.bcrypt) "Str0ng!Pass")
              [Reference.hash "0ld!Passw0rd" "salt"; Reference.hash "Str0ng!Pass" "salt"]).
Proof.
  apply (isPasswordReused_scans_history (bc := Reference.bcrypt) (VStr "u1")
           "Str0ng!Pass"
           [Reference.hash "0ld!Passw0rd" "salt"; Reference.hash "Str0ng!Pass" "salt"]).
  - run.
  - repeat constructor; run.
Defined.

(** X29. A password that is empty or not a string is only rejected when
    there is a history to compare it with: with an empty history
    [isPasswordReused] resolves to false without looking at the password,
    otherwise it throws [Error('Password must be a non-empty string')]. *)
Theorem isPasswordReused_empty_password {bc : Bcrypt} (userId password : value)
    (previousPasswords : list value) :
  truthy password = false \/ is_string password = false ->
  isPasswordReused userId password previousPasswords =
    match previousPasswords with
    | [] => Return false
    | _ :: _ => Throw (Error "Password must be a non-empty string")
    end.
Proof.
  intros H. unfold isPasswordReused. destruct previousPasswords as [|h l]; [reflexivity|].
  cbn [password_matches_any]. unfold comparePassword.
  destruct password; cbn in *; try reflexivity.
  destruct H as [H|H]; [|discriminate]. now rewrite H.
Qed.

Lemma isPasswordReused_empty_password_witness :
  isPasswordReused (bc := Reference.bcrypt) (VStr "u1") (VStr "")
    [VStr (Reference.hash "0ld!Passw0rd" "salt")] =
    match [VStr (Reference.hash "0ld!Passw0rd" "salt")] with
    | [] => Return false
    | _ :: _ => Throw (Error "Password must be a non-empty string")
    end.
Proof.
  apply (isPasswordReused_empty_password (bc := Reference.bcrypt) (VStr "u1") (VStr "")
           [VStr (Reference.hash "0ld!Passw0rd" "salt")]).
  left. reflexivity.
Defined.
